(** * Virtual touch calculator: the core of [calculator.py]

    A shallow embedding of [VirtualTouchCalculator]: the button layout, the
    hit test, the cooldown gate and the calculator transitions, followed by
    the properties the specification states about them.

    Conventions of the embedding.
    - Python [str] is [string]; the texts the calculator handles (display and
      operands) are ASCII, so [length] counts characters.  The key caps
      [×], [÷] and [±] are only ever compared for equality and copied into
      history entries.
    - Python [float] is IEEE binary64, modelled by [spec_float] with the
      correctly rounded operations of [SpecFloat] at precision 53.
    - An exception is a value [Raise e] of type [result].
    - [time.time()] is an input of the functions that read the clock; clock
      readings are floats, subtracted and compared as the code does. *)

From Stdlib Require Import ZArith List String Ascii Bool Lia.
From Stdlib Require Import QArith.
From Stdlib Require Import DecimalString.
From Stdlib Require Import Floats.SpecFloat.
Import ListNotations.

Open Scope string_scope.
Open Scope Z_scope.

(** ** Exceptions *)

Inductive exn : Set := ValueError | OverflowError.

Inductive result (A : Type) : Type :=
| Ok (a : A)
| Raise (e : exn).

Arguments Ok {A} a.
Arguments Raise {A} e.

Definition bind {A B : Type} (r : result A) (k : A -> result B) : result B :=
  match r with
  | Ok a => k a
  | Raise e => Raise e
  end.

Notation "x <- e ;; k" := (bind e (fun x => k))
  (at level 61, e at next level, right associativity).

(** ** Python string operations *)

Module PyStr.

(** [bool(s)]: a string is true when it is not empty. *)
Definition truthy (s : string) : bool :=
  match s with
  | EmptyString => false
  | String _ _ => true
  end.

(** [sub in s]. *)
Fixpoint contains (sub s : string) : bool :=
  prefix sub s ||
  match s with
  | EmptyString => false
  | String _ r => contains sub r
  end.

(** [c in s] for a one-character [c]. *)
Fixpoint has_char (c : ascii) (s : string) : bool :=
  match s with
  | EmptyString => false
  | String a r => Ascii.eqb a c || has_char c r
  end.

(** [s[:-1]]. *)
Fixpoint drop_last (s : string) : string :=
  match s with
  | EmptyString => EmptyString
  | String a r =>
      match r with
      | EmptyString => EmptyString
      | String _ _ => String a (drop_last r)
      end
  end.

(** [s[1:]]. *)
Definition drop_first (s : string) : string :=
  match s with
  | EmptyString => EmptyString
  | String _ r => r
  end.

(** [s.startswith(c)] for a one-character [c]. *)
Definition startswith (c : ascii) (s : string) : bool :=
  match s with
  | EmptyString => false
  | String a _ => Ascii.eqb a c
  end.

(** [s.rstrip(c)] for a one-character [c]. *)
Fixpoint rstrip (c : ascii) (s : string) : string :=
  match s with
  | EmptyString => EmptyString
  | String a r =>
      match rstrip c r with
      | EmptyString => if Ascii.eqb a c then EmptyString else String a EmptyString
      | String b r' => String a (String b r')
      end
  end.

Definition is_digit (c : ascii) : bool :=
  (48 <=? nat_of_ascii c)%nat && (nat_of_ascii c <=? 57)%nat.

Fixpoint all_digits (s : string) : bool :=
  match s with
  | EmptyString => true
  | String a r => is_digit a && all_digits r
  end.

(** [s.isdigit()], on ASCII text. *)
Definition isdigit (s : string) : bool := truthy s && all_digits s.

(** [c * n]. *)
Fixpoint repeat_char (c : ascii) (n : nat) : string :=
  match n with
  | O => EmptyString
  | S k => String c (repeat_char c k)
  end.

(** [s.rjust(n, c)]. *)
Definition rjust (n : nat) (c : ascii) (s : string) : string :=
  repeat_char c (n - length s) ++ s.

(** [s[:n]] and [s[n:]] for [0 <= n]. *)
Fixpoint take (n : nat) (s : string) : string :=
  match n, s with
  | S k, String a r => String a (take k r)
  | _, _ => EmptyString
  end.

Fixpoint drop (n : nat) (s : string) : string :=
  match n, s with
  | S k, String _ r => drop k r
  | _, _ => s
  end.

(** [str(n)] for an [int]. *)
Definition of_Z (n : Z) : string := NilZero.string_of_int (Z.to_int n).

End PyStr.

(** ** Python floats *)

Module PyFloat.

(** IEEE binary64. *)
Definition prec : Z := 53.
Definition emax : Z := 1024.

Definition float : Set := spec_float.

Definition add : float -> float -> float := SFadd prec emax.
Definition sub : float -> float -> float := SFsub prec emax.
Definition mul : float -> float -> float := SFmul prec emax.
Definition div : float -> float -> float := SFdiv prec emax.
Definition sqrt : float -> float := SFsqrt prec emax.
Definition fabs : float -> float := SFabs.
Definition ltb : float -> float -> bool := SFltb.

(** [float('inf')]. *)
Definition inf : float := S754_infinity false.

(** A double: a zero, or a finite float in the canonical form of the
    format (53 bits, exponents from -1074 to 971). *)
Definition is_double (f : float) : bool :=
  match f with
  | S754_zero _ => true
  | S754_finite _ m e => bounded prec emax m e
  | _ => false
  end.

(** The exact value of a double: in units of [2^-1074], of which every
    double is a whole number, and as a fraction. *)
Definition ticks (f : float) : Z :=
  match f with
  | S754_finite s m e => cond_Zopp s (Zpos m * 2 ^ (e + 1074))
  | _ => 0
  end.

Definition value (f : float) : Q := Qmake (ticks f) (2 ^ 1074).

(** The value [m * 2^e] of a finite float as a fraction of integers. *)
Definition frac (m : positive) (e : Z) : Z * Z :=
  if 0 <=? e then (Zpos m * 2 ^ e, 1) else (Zpos m, 2 ^ (- e)).

(** [float(n)] for an [int]: the nearest float, [OverflowError] when that
    is beyond the largest finite one. *)
Definition of_int (n : Z) : result float :=
  if 2 ^ 1024 - 2 ^ 970 <=? Z.abs n then Raise OverflowError
  else Ok (binary_normalize prec emax n 0 false).

(** [int(f)]: truncation toward zero. *)
Definition to_int (f : float) : result Z :=
  match f with
  | S754_zero _ => Ok 0
  | S754_infinity _ => Raise OverflowError
  | S754_nan => Raise ValueError
  | S754_finite s m e =>
      Ok (cond_Zopp s (if 0 <=? e then Zpos m * 2 ^ e else Zpos m / 2 ^ (- e)))
  end.

(** [f == n] and [f > n] for a float [f] and an int [n]: Python compares
    the two exactly. *)
Definition eq_int (f : float) (n : Z) : bool :=
  match f with
  | S754_zero _ => n =? 0
  | S754_finite s m e =>
      if 0 <=? e then cond_Zopp s (Zpos m * 2 ^ e) =? n
      else cond_Zopp s (Zpos m) =? n * 2 ^ (- e)
  | _ => false
  end.

Definition gt_int (f : float) (n : Z) : bool :=
  match f with
  | S754_zero _ => n <? 0
  | S754_infinity s => negb s
  | S754_nan => false
  | S754_finite s m e =>
      if 0 <=? e then n <? cond_Zopp s (Zpos m * 2 ^ e)
      else n * 2 ^ (- e) <? cond_Zopp s (Zpos m)
  end.

(** *** [float(s)] for a string *)

Definition is_space (c : ascii) : bool :=
  let n := nat_of_ascii c in
  ((9 <=? n) && (n <=? 13) || (n =? 32))%nat.

Fixpoint lstrip_space (l : list ascii) : list ascii :=
  match l with
  | [] => []
  | c :: r => if is_space c then lstrip_space r else l
  end.

Definition strip_space (l : list ascii) : list ascii :=
  rev (lstrip_space (rev (lstrip_space l))).

(** Underscores may only stand between two digits; they are dropped. *)
Fixpoint strip_underscores (prev : ascii) (l : list ascii) : option (list ascii) :=
  match l with
  | [] => if Ascii.eqb prev "_" then None else Some []
  | c :: r =>
      if Ascii.eqb c "_" then
        if PyStr.is_digit prev then strip_underscores c r else None
      else if Ascii.eqb prev "_" && negb (PyStr.is_digit c) then None
      else option_map (cons c) (strip_underscores c r)
  end.

Fixpoint span_digits (l : list ascii) : list ascii * list ascii :=
  match l with
  | [] => ([], [])
  | c :: r =>
      if PyStr.is_digit c then
        let (d, t) := span_digits r in (c :: d, t)
      else ([], l)
  end.

Definition digit_val (c : ascii) : Z := Z.of_nat (nat_of_ascii c) - 48.

Definition digits_value (l : list ascii) : Z :=
  fold_left (fun acc c => 10 * acc + digit_val c) l 0.

Definition split_sign (l : list ascii) : bool * list ascii :=
  match l with
  | c :: r =>
      if Ascii.eqb c "-" then (true, r)
      else if Ascii.eqb c "+" then (false, r)
      else (false, l)
  | [] => (false, [])
  end.

Definition lower (c : ascii) : ascii :=
  let n := nat_of_ascii c in
  if ((65 <=? n) && (n <=? 90))%nat then ascii_of_nat (n + 32) else c.

Definition is_word (w : string) (l : list ascii) : bool :=
  String.eqb (string_of_list_ascii (map lower l)) w.

(** The exponent part: nothing, or [e] or [E], an optional sign and at
    least one digit, up to the end of the text. *)
Definition parse_exponent (l : list ascii) : option Z :=
  match l with
  | [] => Some 0
  | c :: r =>
      if Ascii.eqb c "e" || Ascii.eqb c "E" then
        let (neg, r') := split_sign r in
        let (d, t) := span_digits r' in
        match d, t with
        | _ :: _, [] => Some (cond_Zopp neg (digits_value d))
        | _, _ => None
        end
      else None
  end.

(** The float nearest to [(-1)^neg * m * 10^e], ties to even. *)
Definition of_decimal (neg : bool) (m e : Z) : float :=
  match m with
  | Zpos p =>
      if 0 <=? e then binary_round prec emax neg (Z.to_pos (Zpos p * 10 ^ e)) 0
      else
        let '(q, e', l) :=
          SFdiv_core_binary prec emax (Zpos p) 0 (10 ^ (- e)) 0 in
        binary_round_aux prec emax neg q e' l
  | _ => S754_zero neg
  end.

Definition of_string (s : string) : result float :=
  match strip_underscores "000" (strip_space (list_ascii_of_string s)) with
  | None => Raise ValueError
  | Some l =>
      let (neg, body) := split_sign l in
      if is_word "inf" body || is_word "infinity" body then Ok (S754_infinity neg)
      else if is_word "nan" body then Ok S754_nan
      else
        let (ip, r1) := span_digits body in
        let (fp, r2) :=
          match r1 with
          | c :: r => if Ascii.eqb c "." then span_digits r else ([], r1)
          | [] => ([], [])
          end in
        match (ip ++ fp)%list, parse_exponent r2 with
        | _ :: _, Some x =>
            Ok (of_decimal neg (digits_value (ip ++ fp)%list)
                  (x - Z.of_nat (List.length fp)))
        | _, _ => Raise ValueError
        end
  end.

(** *** Formatting *)

(** [n / d] rounded to the nearest integer, ties to even ([0 <= n], [0 < d]). *)
Definition round_half_even (n d : Z) : Z :=
  let q := n / d in
  match 2 * (n mod d) ?= d with
  | Lt => q
  | Gt => q + 1
  | Eq => if Z.even q then q else q + 1
  end.

(** [num / den * 10^s], rounded. *)
Definition scaled_round (num den s : Z) : Z :=
  if 0 <=? s then round_half_even (num * 10 ^ s) den
  else round_half_even num (den * 10 ^ (- s)).

(** Number of decimal digits of [n >= 1]. *)
Definition digits10 (n : Z) : Z :=
  match n with
  | Zpos p => Z.of_nat (Decimal.nb_digits (Pos.to_uint p))
  | _ => 1
  end.

(** The [k] with [10^k <= num / den < 10^(k+1)], for a positive fraction. *)
Definition floor_log10 (num den : Z) : Z :=
  if den <=? num then digits10 (num / den) - 1
  else - digits10 ((den - 1) / num).

Definition sign_text (s : bool) : string := if s then "-" else "".

(** The exponent of [%e] and of [repr]: a sign and at least two digits. *)
Definition exponent_text (k : Z) : string :=
  "e" ++ (if k <? 0 then "-" else "+") ++ PyStr.rjust 2 "0" (PyStr.of_Z (Z.abs k)).

(** [p + 1] significant digits of a positive fraction and its decimal
    exponent. *)
Definition sci_digits (p num den : Z) : Z * Z :=
  let k := floor_log10 num den in
  let d := scaled_round num den (p - k) in
  if 10 ^ (p + 1) <=? d then (10 ^ p, k + 1) else (d, k).

(** [format(f, '.{p}e')] for [p > 0]. *)
Definition format_e (p : nat) (f : float) : string :=
  match f with
  | S754_nan => "nan"
  | S754_infinity s => sign_text s ++ "inf"
  | S754_zero s => sign_text s ++ "0." ++ PyStr.repeat_char "0" p ++ "e+00"
  | S754_finite s m e =>
      let (num, den) := frac m e in
      let (d, k) := sci_digits (Z.of_nat p) num den in
      let ds := PyStr.of_Z d in
      sign_text s ++ PyStr.take 1 ds ++ "." ++ PyStr.drop 1 ds ++ exponent_text k
  end.

(** [format(f, '.{p}f')] for [p > 0]. *)
Definition format_f (p : nat) (f : float) : string :=
  let fixed (s : bool) (num den : Z) :=
    let ds := PyStr.rjust (S p) "0" (PyStr.of_Z (scaled_round num den (Z.of_nat p))) in
    let n := (length ds - p)%nat in
    sign_text s ++ PyStr.take n ds ++ "." ++ PyStr.drop n ds in
  match f with
  | S754_nan => "nan"
  | S754_infinity s => sign_text s ++ "inf"
  | S754_zero s => fixed s 0 1
  | S754_finite s m e => let (num, den) := frac m e in fixed s num den
  end.

(** [repr]: the shortest decimal that reads back as the same float.

    A decimal [d * 10^j] is compared with [x * 2^(e-2)] by cross
    multiplication. *)
Definition pow_frac (b z : Z) : Z * Z :=
  if 0 <=? z then (b ^ z, 1) else (1, b ^ (- z)).

Definition cmp_dec_bin (d j x e2 : Z) : comparison :=
  let (c10, d10) := pow_frac 10 j in
  let (a2, b2) := pow_frac 2 e2 in
  (d * c10 * b2) ?= (x * a2 * d10).

(** Does [d * 10^j] read back as the float [m * 2^e]?  The decimals that do
    lie between the midpoints to the two neighbouring floats, the midpoints
    included when [m] is even. *)
Definition reads_back (m : positive) (e d j : Z) : bool :=
  let x := 4 * Zpos m in
  let below :=
    if (Zpos m =? 2 ^ (prec - 1)) && (emin prec emax <? e) then 1 else 2 in
  let above_lo :=
    match cmp_dec_bin d j (x - below) (e - 2) with
    | Gt => true
    | Eq => Z.even (Zpos m)
    | Lt => false
    end in
  let below_hi :=
    match cmp_dec_bin d j (x + 2) (e - 2) with
    | Lt => true
    | Eq => Z.even (Zpos m)
    | Gt => false
    end in
  above_lo && below_hi.

(** The candidate with [n] significant digits, when one reads back: of the
    two [n]-digit decimals around the value, the nearer one that does. *)
Definition candidate (m : positive) (e n : Z) : option (Z * Z) :=
  let (num, den) := frac m e in
  let j := floor_log10 num den - n + 1 in
  let (c10, d10) := pow_frac 10 j in
  let lo := (num * d10) / (den * c10) in
  let hi := lo + 1 in
  match reads_back m e lo j, reads_back m e hi j with
  | true, false => Some (lo, j)
  | false, true => Some (hi, j)
  | false, false => None
  | true, true =>
      match cmp_dec_bin (2 * lo + 1) j (8 * Zpos m) (e - 2) with
      | Gt => Some (lo, j)
      | Lt => Some (hi, j)
      | Eq => Some (if Z.even lo then lo else hi, j)
      end
  end.

Fixpoint shortest (m : positive) (e n : Z) (fuel : nat) : Z * Z :=
  match fuel with
  | O => let (num, den) := frac m e in
         let j := floor_log10 num den - n + 1 in
         (scaled_round num den (- j), j)
  | S fuel' =>
      match candidate m e n with
      | Some r => r
      | None => shortest m e (n + 1) fuel'
      end
  end.

(** [repr(f)], which is also [str(f)]. *)
Definition repr (f : float) : string :=
  match f with
  | S754_nan => "nan"
  | S754_infinity s => sign_text s ++ "inf"
  | S754_zero s => sign_text s ++ "0.0"
  | S754_finite s m e =>
      let (d, j) := shortest m e 1 16 in
      let all := PyStr.of_Z d in
      let ds := PyStr.rstrip "0" all in
      let nd := Z.of_nat (length ds) in
      let decpt := Z.of_nat (length all) + j in
      sign_text s ++
      if (decpt <=? -4) || (16 <? decpt) then
        PyStr.take 1 ds ++ (if 1 <? nd then "." ++ PyStr.drop 1 ds else "")
        ++ exponent_text (decpt - 1)
      else if decpt <=? 0 then
        "0." ++ PyStr.repeat_char "0" (Z.to_nat (- decpt)) ++ ds
      else if nd <=? decpt then
        ds ++ PyStr.repeat_char "0" (Z.to_nat (decpt - nd)) ++ ".0"
      else
        PyStr.take (Z.to_nat decpt) ds ++ "." ++ PyStr.drop (Z.to_nat decpt) ds
  end.

End PyFloat.

(** ** Button layout and hit test *)

Definition point : Set := (Z * Z)%type.

Record button_data : Set := mk_button {
  rect : Z * Z * Z * Z;
  center : point;
  pressed : bool;
  hover : bool
}.

Definition set_hover (h : bool) (b : button_data) : button_data :=
  mk_button (rect b) (center b) (pressed b) h.

Definition set_pressed (p : bool) (b : button_data) : button_data :=
  mk_button (rect b) (center b) p (hover b).

(** [self.buttons]: a dict, kept in insertion order. *)
Definition buttons_t : Set := list (string * button_data).

Fixpoint dict_mem (k : string) (d : buttons_t) : bool :=
  match d with
  | [] => false
  | (k', _) :: r => String.eqb k' k || dict_mem k r
  end.

(** [d[k] = v]: a known key keeps its place, a new key goes last. *)
Fixpoint dict_set (k : string) (v : button_data) (d : buttons_t) : buttons_t :=
  match d with
  | [] => [(k, v)]
  | (k', v') :: r =>
      if String.eqb k' k then (k', v) :: r else (k', v') :: dict_set k v r
  end.

(** [d[k]['pressed'] = True] for a key that is in [d]. *)
Fixpoint dict_press (k : string) (d : buttons_t) : buttons_t :=
  match d with
  | [] => []
  | (k', v') :: r =>
      if String.eqb k' k then (k', set_pressed true v') :: r
      else (k', v') :: dict_press k r
  end.

Definition button_layout : list (list string) :=
  [ ["C"; "±"; "%"; "÷"];
    ["7"; "8"; "9"; "×"];
    ["4"; "5"; "6"; "-"];
    ["1"; "2"; "3"; "+"];
    ["0"; "."; "="; "del"] ].

Definition button_width : Z := 80.
Definition button_height : Z := 60.
Definition button_margin : Z := 8.

Fixpoint setup_row (start_x y : Z) (col_idx : Z) (row : list string)
    (acc : buttons_t) : buttons_t :=
  match row with
  | [] => acc
  | button_text :: rest =>
      let x := start_x + col_idx * (button_width + button_margin) in
      let width :=
        if String.eqb button_text "0" then button_width * 2 + button_margin
        else button_width in
      setup_row start_x y (col_idx + 1) rest
        (dict_set button_text
           (mk_button (x, y, x + width, y + button_height)
                      (x + width / 2, y + button_height / 2) false false)
           acc)
  end.

Fixpoint setup_rows (start_x start_y : Z) (row_idx : Z) (rows : list (list string))
    (acc : buttons_t) : buttons_t :=
  match rows with
  | [] => acc
  | row :: rest =>
      let y := start_y + row_idx * (button_height + button_margin) in
      setup_rows start_x start_y (row_idx + 1) rest (setup_row start_x y 0 row acc)
  end.

(** [setup_buttons]: the dict is cleared and filled row by row. *)
Definition setup_buttons (frame_width frame_height : Z) : buttons_t :=
  let panel_width := 400 in
  let panel_x := frame_width - panel_width in
  let start_x := panel_x + 20 in
  let start_y := 200 in
  setup_rows start_x start_y 0 button_layout [].

Definition is_point_in_rect (p : point) (r : Z * Z * Z * Z) : bool :=
  let '(x, y) := p in
  let '(x1, y1, x2, y2) := r in
  (x1 <=? x) && (x <=? x2) && (y1 <=? y) && (y <=? y2).

(** [math.sqrt] of an int converts it to a float first. *)
Definition calculate_distance (point1 point2 : point) : result PyFloat.float :=
  f <- PyFloat.of_int ((fst point1 - fst point2) ^ 2 + (snd point1 - snd point2) ^ 2) ;;
  Ok (PyFloat.sqrt f).

(** [self.touch_threshold = 30], an int. *)
Definition touch_threshold : Z := 30.

(** [f < n] for a float [f] and an int [n], exactly. *)
Definition lt_int (f : PyFloat.float) (n : Z) : bool :=
  match f with
  | S754_zero _ => 0 <? n
  | S754_infinity s => s
  | S754_nan => false
  | S754_finite s m e =>
      if 0 <=? e then cond_Zopp s (Zpos m * 2 ^ e) <? n
      else cond_Zopp s (Zpos m) <? n * 2 ^ (- e)
  end.

(** The loop of [detect_button_touch] over the buttons that are left, with
    the running [touched_button] and [min_distance]; the buttons come back
    with their hover flags set. *)
Fixpoint touch_loop (finger_pos : point) (bs : buttons_t)
    (touched_button : option string) (min_distance : PyFloat.float)
    : result (option string * buttons_t) :=
  match bs with
  | [] => Ok (touched_button, [])
  | (button_text, data) :: rest =>
      if is_point_in_rect finger_pos (rect data) then
        distance <- calculate_distance finger_pos (center data) ;;
        if lt_int distance touch_threshold && PyFloat.ltb distance min_distance then
          r <- touch_loop finger_pos rest (Some button_text) distance ;;
          Ok (fst r, (button_text, set_hover true data) :: snd r)
        else
          r <- touch_loop finger_pos rest touched_button min_distance ;;
          Ok (fst r, (button_text, set_hover false data) :: snd r)
      else
        r <- touch_loop finger_pos rest touched_button min_distance ;;
        Ok (fst r, (button_text, set_hover false data) :: snd r)
  end.

Definition detect_button_touch (bs : buttons_t) (finger_pos : option point)
    : result (option string * buttons_t) :=
  match finger_pos with
  | None => Ok (None, map (fun kv => (fst kv, set_hover false (snd kv))) bs)
  | Some p => touch_loop p bs None PyFloat.inf
  end.

(** ** Calculator *)

Record calc_state : Set := mk_calc {
  current_number : string;
  previous_number : string;
  operation : string;
  display : string;
  history : list string;
  just_calculated : bool
}.

(** [self.touch_cooldown = 0.3], in seconds: the double nearest to 3/10,
    which is [5404319552844595 * 2^-54], a little below. *)
Definition touch_cooldown : PyFloat.float :=
  Eval vm_compute in PyFloat.of_decimal false 3 (-1).

(** The formatting at the end of [calculate]. *)
Definition lit_0_000001 : PyFloat.float :=
  Eval vm_compute in PyFloat.of_decimal false 1 (-6).

Definition format_result (r : PyFloat.float) : result string :=
  if PyFloat.gt_int (PyFloat.fabs r) 999999999
     || (PyFloat.ltb (PyFloat.fabs r) lit_0_000001 && negb (PyFloat.eq_int r 0))
  then Ok (PyFloat.format_e 2 r)
  else
    i <- PyFloat.to_int r ;;
    if PyFloat.eq_int r i then Ok (PyStr.of_Z i)
    else Ok (PyStr.rstrip "." (PyStr.rstrip "0" (PyFloat.format_f 8 r))).

(** The body of the [try] of [calculate]. *)
Definition calculate_try (num1 operation num2 : string) : result string :=
  n1 <- PyFloat.of_string num1 ;;
  n2 <- PyFloat.of_string num2 ;;
  if String.eqb operation "+" then format_result (PyFloat.add n1 n2)
  else if String.eqb operation "-" then format_result (PyFloat.sub n1 n2)
  else if String.eqb operation "×" then format_result (PyFloat.mul n1 n2)
  else if String.eqb operation "÷" then
    if PyFloat.eq_int n2 0 then Ok "Error"
    else format_result (PyFloat.div n1 n2)
  else Ok "Error".

Definition calculate (num1 operation num2 : string) : string :=
  match calculate_try num1 operation num2 with
  | Ok s => s
  | Raise _ => "Error"
  end.

Definition is_operator (b : string) : bool :=
  String.eqb b "+" || String.eqb b "-" || String.eqb b "×" || String.eqb b "÷".

(** [self.history.append(entry)], then [pop(0)] when over ten. *)
Definition history_append (entry : string) (h : list string) : list string :=
  let h' := (h ++ [entry])%list in
  if (10 <? List.length h')%nat then tl h' else h'.

Definition hundred : PyFloat.float :=
  Eval vm_compute in binary_normalize PyFloat.prec PyFloat.emax 100 0 false.

(** [str(float(s) / 100)]. *)
Definition percent (s : string) : result string :=
  f <- PyFloat.of_string s ;;
  Ok (PyFloat.repr (PyFloat.div f hundred)).

(** The dispatch of [process_button_press] on the button text, after the
    cooldown check.  The one early [return], in the operator branch, sets
    the timestamp as the end of the function does; the timestamp is set by
    [process_button_press] below. *)
Definition press (button_text : string) (c : calc_state) : calc_state :=
  if PyStr.isdigit button_text then
    if just_calculated c then
      mk_calc button_text (previous_number c) (operation c) button_text
              (history c) false
    else
      let d :=
        if String.eqb (display c) "0" || PyStr.contains "Error" (display c)
        then button_text
        else if (length (display c) <? 12)%nat then display c ++ button_text
        else display c in
      mk_calc d (previous_number c) (operation c) d (history c) (just_calculated c)
  else if String.eqb button_text "." then
    if negb (PyStr.has_char "." (display c)) && negb (just_calculated c) then
      let d := if String.eqb (display c) "0" then "0." else display c ++ "." in
      mk_calc d (previous_number c) (operation c) d (history c) (just_calculated c)
    else c
  else if is_operator button_text then
    if PyStr.truthy (current_number c) then
      if PyStr.truthy (operation c) && PyStr.truthy (previous_number c) then
        let result := calculate (previous_number c) (operation c) (current_number c) in
        if negb (PyStr.contains "Error" result) then
          mk_calc "" result button_text result (history c) false
        else
          mk_calc (current_number c) (previous_number c) (operation c) result
                  (history c) (just_calculated c)
      else
        mk_calc "" (current_number c) button_text (display c) (history c) false
    else c
  else if String.eqb button_text "=" then
    if PyStr.truthy (current_number c) && PyStr.truthy (operation c)
       && PyStr.truthy (previous_number c) then
      let result := calculate (previous_number c) (operation c) (current_number c) in
      let history_entry :=
        previous_number c ++ " " ++ operation c ++ " " ++ current_number c
        ++ " = " ++ result in
      mk_calc (if negb (PyStr.contains "Error" result) then result else "")
              "" "" result (history_append history_entry (history c)) true
    else c
  else if String.eqb button_text "C" then
    mk_calc "" "" "" "0" (history c) false
  else if String.eqb button_text "del" then
    if negb (just_calculated c) && (1 <? length (display c))%nat then
      let d := PyStr.drop_last (display c) in
      mk_calc d (previous_number c) (operation c) d (history c) (just_calculated c)
    else if (length (display c) =? 1)%nat then
      mk_calc "" (previous_number c) (operation c) "0" (history c) (just_calculated c)
    else c
  else if String.eqb button_text "±" then
    if PyStr.truthy (current_number c) && negb (String.eqb (current_number c) "0") then
      let n :=
        if PyStr.startswith "-" (current_number c)
        then PyStr.drop_first (current_number c)
        else "-" ++ current_number c in
      mk_calc n (previous_number c) (operation c) n (history c) (just_calculated c)
    else c
  else if String.eqb button_text "%" then
    if PyStr.truthy (current_number c) then
      match percent (current_number c) with
      | Ok result =>
          mk_calc result (previous_number c) (operation c) result (history c)
                  (just_calculated c)
      | Raise _ =>
          mk_calc (current_number c) (previous_number c) (operation c) "Error"
                  (history c) (just_calculated c)
      end
    else c
  else c.

(** The whole object: the calculator, the debounce timestamp, the buttons
    with their feedback flags, and what was printed. *)
Record calculator : Type := mk_calculator {
  calc : calc_state;
  last_touch_time : PyFloat.float;
  buttons : buttons_t;
  button_pressed : option string;
  button_press_time : PyFloat.float;
  stdout : list string
}.

(** [__init__]. *)
Definition init_calc : calc_state := mk_calc "" "" "" "0" [] false.

(** The two timestamps start as the int [0], which the subtraction from a
    float converts to [0.0]. *)
Definition init : calculator :=
  mk_calculator init_calc (S754_zero false) [] None (S754_zero false) [].

(** The cooldown check: [current_time - self.last_touch_time < self.touch_cooldown]. *)
Definition in_cooldown (current_time : PyFloat.float) (a : calculator) : bool :=
  PyFloat.ltb (PyFloat.sub current_time (last_touch_time a)) touch_cooldown.

(** The line [print(f"Button pressed: {button_text}")] writes. *)
Definition printed (button_text : string) : string :=
  "Button pressed: " ++ button_text.

(** [process_button_press], with the reading of the clock as an argument. *)
Definition process_button_press (current_time : PyFloat.float) (button_text : string)
    (a : calculator) : calculator :=
  if in_cooldown current_time a then a
  else
    let out := (stdout a ++ [printed button_text])%list in
    if dict_mem button_text (buttons a) then
      mk_calculator (press button_text (calc a)) current_time
             (dict_press button_text (buttons a)) (Some button_text) current_time out
    else
      mk_calculator (press button_text (calc a)) current_time
             (buttons a) (button_pressed a) (button_press_time a) out.

(** One frame of [run], from the hit test on: the press is processed when
    the gesture is a touch and a button is under the finger. *)
Definition observe (touching : bool) (touched_button : option string)
    (current_time : PyFloat.float) (a : calculator) : calculator :=
  match touched_button with
  | Some b =>
      if touching && PyStr.truthy b then process_button_press current_time b a
      else a
  | None => a
  end.

Definition with_buttons (bs : buttons_t) (a : calculator) : calculator :=
  mk_calculator (calc a) (last_touch_time a) bs (button_pressed a)
         (button_press_time a) (stdout a).

Definition frame (finger_pos : option point) (touching : bool)
    (current_time : PyFloat.float) (a : calculator) : result calculator :=
  r <- detect_button_touch (buttons a) finger_pos ;;
  Ok (observe touching (fst r) current_time (with_buttons (snd r) a)).

(** The keys [r] and [c] of [run]: the history is cleared, and [C] goes
    through [process_button_press]. *)
Definition reset_history (a : calculator) : calculator :=
  let c := calc a in
  mk_calculator (mk_calc (current_number c) (previous_number c) (operation c)
                  (display c) [] (just_calculated c))
         (last_touch_time a) (buttons a) (button_pressed a)
         (button_press_time a) (stdout a).

(** A run of activations: each one reaches the dispatch. *)
Definition press_all (bs : list string) (c : calc_state) : calc_state :=
  fold_left (fun st b => press b st) bs c.

(** ** Notions the properties are stated with *)

(** *** The formatting policy of the specification

    Written after its wording, with the bound of case (a) left open:
    (a) scientific notation with 2 fractional digits when the magnitude
    exceeds [limit] or is below 1e-6 and the value is not zero; (b) else a
    bare integer when the value is integral; (c) else 8 fractional digits
    with trailing zeros and a trailing point stripped. *)

Definition is_finite (r : PyFloat.float) : bool :=
  match r with
  | S754_zero _ | S754_finite _ _ _ => true
  | _ => false
  end.

(** [m * 2^e] is an integer when [e] is not negative or [2^(-e)] divides [m]. *)
Definition is_integral (r : PyFloat.float) : bool :=
  match r with
  | S754_zero _ => true
  | S754_finite _ m e => (0 <=? e) || (Zpos m mod 2 ^ (- e) =? 0)
  | _ => false
  end.

Definition integer_part (r : PyFloat.float) : Z :=
  match r with
  | S754_finite s m e =>
      cond_Zopp s (if 0 <=? e then Zpos m * 2 ^ e else Zpos m / 2 ^ (- e))
  | _ => 0
  end.

Definition is_zero (r : PyFloat.float) : bool :=
  match r with
  | S754_zero _ => true
  | _ => false
  end.

Definition format_policy (limit : Z) (r : PyFloat.float) : string :=
  if PyFloat.gt_int (PyFloat.fabs r) limit
     || (PyFloat.ltb (PyFloat.fabs r) lit_0_000001 && negb (is_zero r))
  then PyFloat.format_e 2 r
  else if is_integral r then PyStr.of_Z (integer_part r)
  else PyStr.rstrip "." (PyStr.rstrip "0" (PyFloat.format_f 8 r)).

(** The IEEE double result of a binary operation. *)
Definition ieee_result (operation : string) (n1 n2 : PyFloat.float) : PyFloat.float :=
  if String.eqb operation "+" then PyFloat.add n1 n2
  else if String.eqb operation "-" then PyFloat.sub n1 n2
  else if String.eqb operation "×" then PyFloat.mul n1 n2
  else PyFloat.div n1 n2.

(** *** The entries the history log is given

    What an activation hands to [history_append], read off the [=] branch. *)
Definition recorded_by (button_text : string) (c : calc_state) : list string :=
  if String.eqb button_text "="
     && PyStr.truthy (current_number c) && PyStr.truthy (operation c)
     && PyStr.truthy (previous_number c)
  then [previous_number c ++ " " ++ operation c ++ " " ++ current_number c
        ++ " = " ++ calculate (previous_number c) (operation c) (current_number c)]
  else [].

Fixpoint recorded (bs : list string) (c : calc_state) : list string :=
  match bs with
  | [] => []
  | b :: rest => (recorded_by b c ++ recorded rest (press b c))%list
  end.

(** An [=] evaluates when its three parts are there; the entry it writes. *)
Definition evaluates (c : calc_state) : bool :=
  PyStr.truthy (current_number c) && PyStr.truthy (operation c)
  && PyStr.truthy (previous_number c).

Definition entry (c : calc_state) : string :=
  previous_number c ++ " " ++ operation c ++ " " ++ current_number c
  ++ " = " ++ calculate (previous_number c) (operation c) (current_number c).

(** The successful evaluations of a run: the [=] activations that evaluate
    to something other than the error marker. *)
Definition succeeds (button_text : string) (c : calc_state) : bool :=
  String.eqb button_text "=" && evaluates c
  && negb (String.eqb (calculate (previous_number c) (operation c) (current_number c))
                      "Error").

Fixpoint successes (bs : list string) (c : calc_state) : nat :=
  match bs with
  | [] => O
  | b :: rest => ((if succeeds b c then 1 else 0) + successes rest (press b c))%nat
  end.

(** The last [n] elements of a list. *)
Definition keep_last {A : Type} (n : nat) (l : list A) : list A :=
  skipn (List.length l - n) l.

(** *** Samples and emitted activations

    A sample is what one frame hands to the debouncing: the gesture flag,
    the button under the finger if any, and the clock.  A sample emits an
    activation when the press is processed, which the program shows by
    printing a line. *)
Record sample : Type := mk_sample {
  isPointing : bool;
  candidate : option string;
  now : PyFloat.float
}.

Definition observe_sample (s : sample) (a : calculator) : calculator :=
  observe (isPointing s) (candidate s) (now s) a.

Definition emitted (s : sample) (a : calculator) : bool :=
  negb (List.length (stdout (observe_sample s a)) =? List.length (stdout a))%nat.

(** The activations a run of samples emits, each with its time. *)
Fixpoint activations (ss : list sample) (a : calculator)
    : list (PyFloat.float * option string) :=
  match ss with
  | [] => []
  | s :: rest =>
      ((if emitted s a then [(now s, candidate s)] else [])
       ++ activations rest (observe_sample s a))%list
  end.

(** The double a decimal literal denotes. *)
Definition double_of (s : string) : PyFloat.float :=
  match PyFloat.of_string s with
  | Ok f => f
  | Raise _ => S754_nan
  end.

(** Half way between the double [0.3] and the double before it, in
    seconds: [(2 * 5404319552844595 - 1) / 2^55].  A difference of two
    doubles rounds below the double [0.3] exactly when it is at most
    this. *)
Definition cooldown_edge : Q := 10808639105689189 # 36028797018963968.

(** *** Digit entry *)

Definition key (c : ascii) : string := String c EmptyString.

Fixpoint drop_zeros (ds : list ascii) : list ascii :=
  match ds with
  | [] => []
  | d :: rest => if Ascii.eqb d "0" then drop_zeros rest else ds
  end.

(** The digits typed, without leading zeros, cut at 12 characters; ["0"]
    when nothing is left. *)
Definition typed_number (ds : list ascii) : string :=
  match drop_zeros ds with
  | [] => "0"
  | l => PyStr.take 12 (string_of_list_ascii l)
  end.

(** *** Hit test *)

Definition dist2 (p q : point) : Z :=
  (fst p - fst q) ^ 2 + (snd p - snd q) ^ 2.

(** A button is a candidate at distance [d] when its rectangle contains the
    point and its centre is at distance [d], below the activation radius. *)
Definition is_candidate (p : point) (data : button_data) (d : PyFloat.float) : Prop :=
  is_point_in_rect p (rect data) = true
  /\ calculate_distance p (center data) = Ok d
  /\ lt_int d touch_threshold = true.

(** The button a hit test returns, without the buttons. *)
Definition touched (r : result (option string * buttons_t)) : result (option string) :=
  x <- r ;; Ok (fst x).

(** The squared distances from the point to the centres are within what
    [float(n)] converts. *)
Definition no_overflow (p : point) (bs : buttons_t) : Prop :=
  Forall (fun kv => dist2 p (center (snd kv)) < 2 ^ 1024 - 2 ^ 970) bs.


(** ** More of the program *)

(** [if not self.buttons: self.setup_buttons(w, h)], at the head of
    [draw_calculator_interface]. *)
Definition ensure_buttons (w h : Z) (a : calculator) : calculator :=
  match buttons a with
  | [] => with_buttons (setup_buttons w h) a
  | _ :: _ => a
  end.

(** *** Text as Python counts it

    A [str] is a sequence of code points; the strings here hold their
    UTF-8 bytes, where a code point is a lead byte with the continuation
    bytes [10xxxxxx] that follow it. *)
Module PyText.

Definition is_cont (c : ascii) : bool :=
  let n := N_of_ascii c in (128 <=? n)%N && (n <? 192)%N.

(** [len(s)]. *)
Fixpoint len (s : string) : nat :=
  match s with
  | EmptyString => O
  | String c r => if is_cont c then len r else S (len r)
  end.

(** [s[:n]]. *)
Fixpoint slice_to (n : nat) (s : string) : string :=
  match s with
  | EmptyString => EmptyString
  | String c r =>
      if is_cont c then String c (slice_to n r)
      else match n with
           | O => EmptyString
           | S k => String c (slice_to k r)
           end
  end.

(** [s[k:]]. *)
Fixpoint slice_from (k : nat) (s : string) : string :=
  match s with
  | EmptyString => EmptyString
  | String c r =>
      if is_cont c then slice_from k r
      else match k with
           | O => s
           | S k' => slice_from k' r
           end
  end.

(** [s[-n:]] for a positive [n]. *)
Definition slice_last (n : nat) (s : string) : string :=
  slice_from (len s - n) s.

End PyText.

(** *** Drawing

    What [draw_button] and [draw_calculator_interface] choose to show and
    what they do to the object; the pixels are OpenCV's. *)

(** The entries of the theme that are used. *)
Module Theme.
Inductive color : Set :=
| number_button | operator_button | special_button
| button_pressed | button_hover | accent | text | error.
End Theme.

(** [self.press_duration = 0.2]: the double nearest to 2/10, a little
    above. *)
Definition press_duration : PyFloat.float :=
  Eval vm_compute in PyFloat.of_decimal false 2 (-1).

(** What [draw_button] hands to OpenCV; a [label_color] of [None] is the
    white [(255, 255, 255)] of the operators. *)
Record button_view : Set := mk_button_view {
  button_color : Theme.color;
  border_color : Theme.color;
  border_thickness : Z;
  label_scale : Q;
  label_color : option Theme.color
}.

Definition base_color (button_text : string) : Theme.color :=
  if PyStr.isdigit button_text || String.eqb button_text "." then Theme.number_button
  else if is_operator button_text || String.eqb button_text "=" then Theme.operator_button
  else Theme.special_button.

(** [draw_button]: [now1] and [now2] are what the two readings of the
    clock give, each taken only when the flag is set. *)
Definition draw_button (press_time now1 now2 : PyFloat.float) (button_text : string)
    (data : button_data) : button_view * button_data :=
  let button_color :=
    if pressed data && PyFloat.ltb (PyFloat.sub now1 press_time) press_duration
    then Theme.button_pressed
    else if hover data then Theme.button_hover
    else base_color button_text in
  (mk_button_view button_color
     (if hover data then Theme.accent else Theme.text)
     (if hover data then 3 else 1)
     (if (PyText.len button_text =? 1)%nat then 12 # 10 else 8 # 10)
     (if is_operator button_text || String.eqb button_text "=" then None
      else Some Theme.text),
   if pressed data && PyFloat.ltb press_duration (PyFloat.sub now2 press_time)
   then set_pressed false data else data).

(** The loop over the buttons; [clock b] holds the readings taken while
    button [b] is drawn. *)
Definition draw_buttons (press_time : PyFloat.float)
    (clock : string -> PyFloat.float * PyFloat.float) (bs : buttons_t)
    : list (string * (button_view * button_data)) :=
  map (fun kv =>
         (fst kv,
          draw_button press_time (fst (clock (fst kv))) (snd (clock (fst kv)))
                      (fst kv) (snd kv))) bs.

Record display_view : Set := mk_display_view {
  display_text : string;
  text_color : Theme.color;
  font_scale : Q
}.

(** The text of the display screen: the last 15 characters, in the error
    colour when it holds [Error]. *)
Definition draw_display (display : string) : display_view :=
  let display_text :=
    if (15 <? PyText.len display)%nat then PyText.slice_last 15 display else display in
  mk_display_view display_text
    (if PyStr.contains "Error" display_text then Theme.error else Theme.text)
    (if (PyText.len display_text <=? 8)%nat then 2 # 1 else 3 # 2).

(** A line of the history section. *)
Definition history_line (calc : string) : string :=
  if (35 <? PyText.len calc)%nat then PyText.slice_to 35 calc ++ "..." else calc.

(** [for i, calc in enumerate(...)], with the [y_pos] of each line. *)
Fixpoint history_lines (i : Z) (l : list string) : list (string * Z) :=
  match l with
  | [] => []
  | calc :: rest => (history_line calc, 550 + 30 + i * 25) :: history_lines (i + 1) rest
  end.

Record interface_view : Set := mk_interface_view {
  screen : display_view;
  op_text : option string;
  keys_drawn : list (string * button_view);
  recent : list (string * Z)
}.

(** [draw_calculator_interface] on a frame of [w] by [h]: what is shown,
    and the object afterwards. *)
Definition draw_calculator_interface (w h : Z)
    (clock : string -> PyFloat.float * PyFloat.float)
    (a : calculator) : interface_view * calculator :=
  let a1 := ensure_buttons w h a in
  let drawn := draw_buttons (button_press_time a1) clock (buttons a1) in
  (mk_interface_view
     (draw_display (display (calc a1)))
     (if PyStr.truthy (operation (calc a1))
      then Some ("Operation: " ++ operation (calc a1)) else None)
     (map (fun x => (fst x, fst (snd x))) drawn)
     (history_lines 0 (keep_last 4 (history (calc a1)))),
   with_buttons (map (fun x => (fst x, snd (snd x))) drawn) a1).

(** A layout with the pressed flags put aside. *)
Definition unpressed (bs : buttons_t) : buttons_t :=
  map (fun kv => (fst kv, set_pressed false (snd kv))) bs.

(** What one turn of the loop of [run] does to the object: a frame with
    its hit test and touch, the drawing of the interface, and the keys [r]
    and [c].  The keys [t] and [i] change the theme and the instructions
    only, which the object here does not hold. *)
Inductive event : Type :=
| Frame (finger_pos : option point) (touching : bool) (current_time : PyFloat.float)
| Draw (w h : Z) (clock : string -> PyFloat.float * PyFloat.float)
| KeyR
| KeyC (current_time : PyFloat.float).

(** The clock readings of a turn that reach the cooldown test are
    doubles. *)
Definition clock_is_double (e : event) : Prop :=
  match e with
  | Frame _ _ current_time | KeyC current_time => PyFloat.is_double current_time = true
  | _ => True
  end.

Definition step (e : event) (a : calculator) : result calculator :=
  match e with
  | Frame finger_pos touching current_time => frame finger_pos touching current_time a
  | Draw w h clock => Ok (snd (draw_calculator_interface w h clock a))
  | KeyR => Ok (reset_history a)
  | KeyC current_time => Ok (process_button_press current_time "C" a)
  end.

Fixpoint run_events (es : list event) (a : calculator) : result calculator :=
  match es with
  | [] => Ok a
  | e :: rest => a' <- step e a ;; run_events rest a'
  end.

(** *** Translations of a layout *)

Definition shift_point (dx dy : Z) (p : point) : point :=
  (fst p + dx, snd p + dy).

Definition shift_rect (dx dy : Z) (r : Z * Z * Z * Z) : Z * Z * Z * Z :=
  let '(x1, y1, x2, y2) := r in (x1 + dx, y1 + dy, x2 + dx, y2 + dy).

Definition shift_button (dx dy : Z) (b : button_data) : button_data :=
  mk_button (shift_rect dx dy (rect b)) (shift_point dx dy (center b))
            (pressed b) (hover b).

Definition shift_layout (dx dy : Z) (bs : buttons_t) : buttons_t :=
  map (fun kv => (fst kv, shift_button dx dy (snd kv))) bs.

(** A rectangle lies within another. *)
Definition rect_within (r s : Z * Z * Z * Z) : Prop :=
  forall p : point, is_point_in_rect p r = true -> is_point_in_rect p s = true.

(** A layout with the hover flags put aside. *)
Definition unhovered (bs : buttons_t) : buttons_t :=
  map (fun kv => (fst kv, set_hover false (snd kv))) bs.

(** The keys that type a number: a digit, the point, [del] and [C]. *)
Definition typing_key (b : string) : Prop :=
  (exists ch, PyStr.is_digit ch = true /\ b = key ch)
  \/ b = "." \/ b = "del" \/ b = "C".

(** What the typing keys keep: no evaluation flag, at most 13 characters,
    and at most 12 without a point. *)
Definition typed_bound (c : calc_state) : Prop :=
  just_calculated c = false
  /\ (length (display c) <= 13)%nat
  /\ (PyStr.has_char "." (display c) = false -> (length (display c) <= 12)%nat).

(** Two rectangles that share a point overlap on both axes. *)
Definition rects_meet (r s : Z * Z * Z * Z) : bool :=
  let '(x1, y1, x2, y2) := r in
  let '(a1, b1, a2, b2) := s in
  (x1 <=? a2) && (a1 <=? x2) && (y1 <=? b2) && (b1 <=? y2).

(** Pointing at the centre of each button gives that button. *)
Definition centre_hits (bs : buttons_t) : bool :=
  forallb (fun kv =>
             match touched (detect_button_touch bs (Some (center (snd kv)))) with
             | Ok (Some k) => String.eqb k (fst kv)
             | _ => false
             end) bs.

(** Where the buttons are: keys, rectangles and centres, in order. *)
Definition geometry (bs : buttons_t) : list (string * (Z * Z * Z * Z) * point) :=
  map (fun kv => (fst kv, rect (snd kv), center (snd kv))) bs.

(** The characters of a formatted number: digits, point, signs, the [e]
    of the exponent and the letters of [inf] and [nan]. *)
Definition numeric_char (c : ascii) : bool :=
  PyStr.is_digit c
  || Ascii.eqb c "." || Ascii.eqb c "-" || Ascii.eqb c "+" || Ascii.eqb c "e"
  || Ascii.eqb c "i" || Ascii.eqb c "n" || Ascii.eqb c "f" || Ascii.eqb c "a".

Fixpoint numeric_text (s : string) : bool :=
  match s with
  | EmptyString => true
  | String c r => numeric_char c && numeric_text r
  end.
(** * Properties *)

(** ** The float model on known values *)

Example of_string_tenth :
  PyFloat.of_string "0.1" = Ok (S754_finite false 7205759403792794 (-56)).
Proof. vm_compute. reflexivity. Qed.

Example of_string_rejects :
  map PyFloat.of_string ["-"; "."; ""; "Error."; "1e"] = repeat (Raise ValueError) 5.
Proof. vm_compute. reflexivity. Qed.

Example repr_known :
  map (fun s => option_map PyFloat.repr
                  (match PyFloat.of_string s with Ok f => Some f | Raise _ => None end))
      ["0.1"; "100"; "0.00001"; "1e16"; "123456789.123"]
  = map Some ["0.1"; "100.0"; "1e-05"; "1e+16"; "123456789.123"].
Proof. vm_compute. reflexivity. Qed.

Example calculate_known :
  map (fun t => calculate (fst (fst t)) (snd (fst t)) (snd t))
      [("7", "+", "3"); ("1", "÷", "3"); ("0.1", "+", "0.2");
       ("99999", "×", "99999"); ("1", "÷", "4000000"); ("5", "÷", "0");
       ("5", "^", "2"); ("-", "+", "2")]
  = ["10"; "0.33333333"; "0.3"; "1.00e+10"; "2.50e-07"; "Error"; "Error"; "Error"].
Proof. vm_compute. reflexivity. Qed.

(** ** Doubles as exact numbers

    What [SpecFloat] computes for a subtraction of doubles, by the
    steps of [binary_normalize]. *)

Lemma pow2_pos (k : Z) : 0 <= k -> 0 < 2 ^ k.
Proof. intros. apply Z.pow_pos_nonneg; lia. Qed.

Lemma pow2_add (a b : Z) : 0 <= a -> 0 <= b -> 2 ^ (a + b) = 2 ^ a * 2 ^ b.
Proof. intros. apply Z.pow_add_r; assumption. Qed.

Lemma pow2_le (a b : Z) : 0 <= a <= b -> 2 ^ a <= 2 ^ b.
Proof. intros. apply Z.pow_le_mono_r; lia. Qed.

Lemma pow2_lt (a b : Z) : 0 <= a < b -> 2 ^ a < 2 ^ b.
Proof. intros. apply Z.pow_lt_mono_r; lia. Qed.

Lemma digits2_pos_bounds (m : positive) :
  2 ^ (Zpos (digits2_pos m) - 1) <= Zpos m < 2 ^ Zpos (digits2_pos m).
Proof.
  induction m as [p IH | p IH |]; cbn [digits2_pos].
  - rewrite Pos2Z.inj_succ, (Pos2Z.inj_xI p).
    replace (Z.succ (Zpos (digits2_pos p)) - 1) with (Z.succ (Zpos (digits2_pos p) - 1)) by lia.
    rewrite !Z.pow_succ_r by lia. lia.
  - rewrite Pos2Z.inj_succ, (Pos2Z.inj_xO p).
    replace (Z.succ (Zpos (digits2_pos p)) - 1) with (Z.succ (Zpos (digits2_pos p) - 1)) by lia.
    rewrite !Z.pow_succ_r by lia. lia.
  - cbn. lia.
Qed.

Lemma digits2_pos_unique (m : positive) (k : Z) :
  2 ^ (k - 1) <= Zpos m < 2 ^ k -> Zpos (digits2_pos m) = k.
Proof.
  intros [H1 H2]. pose proof (digits2_pos_bounds m) as [B1 B2].
  assert (0 < k).
  { destruct (Z.ltb_spec 0 k); [assumption|].
    assert (2 ^ k <= 1).
    { destruct (Z.eq_dec k 0) as [-> | ?]; [cbn; lia|].
      rewrite Z.pow_neg_r by lia. lia. }
    lia. }
  destruct (Z.lt_trichotomy (Zpos (digits2_pos m)) k) as [L | [E | G]]; [| exact E |].
  - assert (2 ^ Zpos (digits2_pos m) <= 2 ^ (k - 1)) by (apply pow2_le; lia). lia.
  - assert (2 ^ k <= 2 ^ (Zpos (digits2_pos m) - 1)) by (apply pow2_le; lia). lia.
Qed.

Lemma iter_xO (m d : positive) : Zpos (Pos.iter xO m d) = Zpos m * 2 ^ Zpos d.
Proof.
  induction d as [| d IH] using Pos.peano_ind.
  - cbn. lia.
  - rewrite Pos.iter_succ, Pos2Z.inj_xO, IH, Pos2Z.inj_succ, Z.pow_succ_r by lia. lia.
Qed.

Lemma shl_align_spec (mx : positive) (ex ez : Z) :
  ez <= ex ->
  Zpos (fst (shl_align mx ex ez)) = Zpos mx * 2 ^ (ex - ez)
  /\ snd (shl_align mx ex ez) = ez.
Proof.
  intros H. unfold shl_align. destruct (ez - ex) as [| d | d] eqn:E; try lia.
  - replace (ex - ez) with 0 by lia. cbn [fst snd]. split; lia.
  - cbn [fst snd]. rewrite iter_xO. replace (ex - ez) with (Zpos d) by lia. split; reflexivity.
Qed.

Lemma iter_pos_nat {A : Type} (f : A -> A) (p : positive) (x : A) :
  SpecFloat.iter_pos f p x = Nat.iter (Pos.to_nat p) f x.
Proof.
  revert x. induction p as [p IH | p IH |]; intros x; cbn [SpecFloat.iter_pos].
  - rewrite !IH, Pos2Nat.inj_xI.
    replace (S (2 * Pos.to_nat p)) with (Pos.to_nat p + S (Pos.to_nat p))%nat by lia.
    rewrite Nat.iter_add, Nat.iter_succ_r. reflexivity.
  - rewrite !IH, Pos2Nat.inj_xO.
    replace (2 * Pos.to_nat p)%nat with (Pos.to_nat p + Pos.to_nat p)%nat by lia.
    rewrite Nat.iter_add. reflexivity.
  - reflexivity.
Qed.

Lemma shr_1_nonneg (m : Z) (r s : bool) :
  0 <= m ->
  shr_1 (Build_shr_record m r s) = Build_shr_record (m / 2) (Z.odd m) (r || s).
Proof.
  intros H. rewrite <- Z.div2_div.
  destruct m as [| p | p]; [reflexivity | | lia].
  destruct p; reflexivity.
Qed.

Lemma shr_iter (N : Z) (k : nat) :
  0 <= N ->
  Nat.iter (S k) shr_1 (Build_shr_record N false false)
  = Build_shr_record (N / 2 ^ Z.of_nat (S k)) (Z.odd (N / 2 ^ Z.of_nat k))
                     (negb (N mod 2 ^ Z.of_nat k =? 0)).
Proof.
  intros HN. induction k as [| k IH].
  - cbn [Nat.iter]. rewrite shr_1_nonneg by assumption.
    change (2 ^ Z.of_nat 1) with 2. change (2 ^ Z.of_nat 0) with 1.
    rewrite Z.div_1_r, Z.mod_1_r. reflexivity.
  - change (Nat.iter (S (S k)) shr_1 (Build_shr_record N false false))
      with (shr_1 (Nat.iter (S k) shr_1 (Build_shr_record N false false))).
    rewrite IH.
    assert (Hp : 0 < 2 ^ Z.of_nat k) by (apply pow2_pos; lia).
    assert (Hp1 : 2 ^ Z.of_nat (S k) = 2 ^ Z.of_nat k * 2)
      by (rewrite Nat2Z.inj_succ, Z.pow_succ_r by lia; lia).
    assert (Hp2 : 2 ^ Z.of_nat (S (S k)) = 2 ^ Z.of_nat (S k) * 2)
      by (rewrite (Nat2Z.inj_succ (S k)), Z.pow_succ_r by lia; lia).
    rewrite shr_1_nonneg by (apply Z.div_pos; lia).
    f_equal.
    + rewrite Hp2, Z.div_div by lia. reflexivity.
    + rewrite Hp1, Z.rem_mul_r by lia.
      pose proof (Z.mod_pos_bound N (2 ^ Z.of_nat k) Hp) as Hb.
      rewrite Zodd_mod.
      pose proof (Z.mod_pos_bound (N / 2 ^ Z.of_nat k) 2 ltac:(lia)) as Hb2.
      destruct (Z.eqb_spec ((N / 2 ^ Z.of_nat k) mod 2) 1) as [E | E];
        destruct (Z.eqb_spec (N mod 2 ^ Z.of_nat k) 0) as [E0 | E0];
        destruct (Z.eqb_spec (N mod 2 ^ Z.of_nat k
                              + 2 ^ Z.of_nat k * ((N / 2 ^ Z.of_nat k) mod 2)) 0) as [E1 | E1];
        cbn [negb orb]; try reflexivity; exfalso; nia.
Qed.

Lemma round_shift_spec (p n : positive) :
  exists m' rem : Z,
    Zpos p = m' * 2 ^ Zpos n + rem /\ 0 <= rem < 2 ^ Zpos n /\ 0 <= m'
    /\ shr_m (SpecFloat.iter_pos shr_1 n (Build_shr_record (Zpos p) false false)) = m'
    /\ let q := round_nearest_even m'
                  (loc_of_shr_record
                     (SpecFloat.iter_pos shr_1 n (Build_shr_record (Zpos p) false false))) in
       (2 * rem < 2 ^ Zpos n /\ q = m')
       \/ (2 * rem = 2 ^ Zpos n /\ q = if Z.even m' then m' else m' + 1)
       \/ (2 ^ Zpos n < 2 * rem /\ q = m' + 1).
Proof.
  rewrite iter_pos_nat.
  destruct (Pos2Nat.is_succ n) as [k Hk]. rewrite Hk.
  rewrite shr_iter by lia.
  assert (En : Zpos n = Z.of_nat (S k)) by lia.
  rewrite En.
  assert (Hp : 0 < 2 ^ Z.of_nat k) by (apply pow2_pos; lia).
  assert (Hp1 : 2 ^ Z.of_nat (S k) = 2 ^ Z.of_nat k * 2)
    by (rewrite Nat2Z.inj_succ, Z.pow_succ_r by lia; lia).
  exists (Zpos p / 2 ^ Z.of_nat (S k)), (Zpos p mod 2 ^ Z.of_nat (S k)).
  pose proof (Z.div_mod (Zpos p) (2 ^ Z.of_nat (S k)) ltac:(lia)) as Hdm.
  pose proof (Z.mod_pos_bound (Zpos p) (2 ^ Z.of_nat (S k)) ltac:(lia)) as Hmb.
  split; [lia|]. split; [exact Hmb|].
  split; [apply Z.div_pos; lia|]. split; [reflexivity|].
  cbv zeta. cbn [loc_of_shr_record].
  assert (Hrem : Zpos p mod 2 ^ Z.of_nat (S k)
                 = Zpos p mod 2 ^ Z.of_nat k
                   + 2 ^ Z.of_nat k * ((Zpos p / 2 ^ Z.of_nat k) mod 2)).
  { rewrite Hp1. apply Z.rem_mul_r; lia. }
  pose proof (Z.mod_pos_bound (Zpos p) (2 ^ Z.of_nat k) Hp) as Hb.
  rewrite Zodd_mod.
  pose proof (Z.mod_pos_bound (Zpos p / 2 ^ Z.of_nat k) 2 ltac:(lia)) as Hb2.
  destruct (Z.eqb_spec ((Zpos p / 2 ^ Z.of_nat k) mod 2) 1) as [E | E];
    destruct (Z.eqb_spec (Zpos p mod 2 ^ Z.of_nat k) 0) as [E0 | E0];
    cbn [negb round_nearest_even].
  - right. left. split; [nia | reflexivity].
  - right. right. split; [nia | reflexivity].
  - left. split; [nia | reflexivity].
  - left. split; [nia | reflexivity].
Qed.

Lemma fexp_double (E : Z) : fexp 53 1024 E = Z.max (E - 53) (-1074).
Proof. reflexivity. Qed.

(** A mantissa that is already in place is kept. *)
Lemma binary_round_aux_exact (s : bool) (mz : positive) (f : Z) :
  fexp 53 1024 (Zpos (digits2_pos mz) + f) = f ->
  binary_round_aux 53 1024 s (Zpos mz) f loc_Exact
  = if f <=? 971 then S754_finite s mz f else S754_infinity s.
Proof.
  intros H. unfold binary_round_aux, shr_fexp. cbn [Zdigits2 shr_record_of_loc].
  rewrite H, Z.sub_diag.
  cbn [shr shr_m loc_of_shr_record round_nearest_even Zdigits2 shr_record_of_loc].
  rewrite H, Z.sub_diag. cbn [shr shr_m]. reflexivity.
Qed.

(** A mantissa of more than 53 bits is shifted and rounded to nearest
    even; a carry to [2^53] costs one more shift. *)
Lemma binary_round_aux_shift (s : bool) (p : positive) (e : Z) :
  -1074 <= e -> 53 < Zpos (digits2_pos p) ->
  exists (n q : positive) (m' rem : Z),
    Zpos n = Zpos (digits2_pos p) - 53
    /\ Zpos p = m' * 2 ^ Zpos n + rem /\ 0 <= rem < 2 ^ Zpos n
    /\ 2 ^ 52 <= m' < 2 ^ 53
    /\ ((2 * rem < 2 ^ Zpos n /\ Zpos q = m')
        \/ (2 * rem = 2 ^ Zpos n /\ Zpos q = if Z.even m' then m' else m' + 1)
        \/ (2 ^ Zpos n < 2 * rem /\ Zpos q = m' + 1))
    /\ binary_round_aux 53 1024 s (Zpos p) e loc_Exact
       = if Zpos q =? 2 ^ 53
         then (if e + Zpos n + 1 <=? 971
               then S754_finite s 4503599627370496 (e + Zpos n + 1)
               else S754_infinity s)
         else (if e + Zpos n <=? 971 then S754_finite s q (e + Zpos n)
               else S754_infinity s).
Proof.
  intros He Hd.
  pose proof (digits2_pos_bounds p) as [B1 B2].
  set (d := Zpos (digits2_pos p)) in *.
  destruct (d - 53) as [| n | n] eqn:En; try lia.
  destruct (round_shift_spec p n) as (m' & rem & Hp & Hrem & Hm0 & Hshr & Hq).
  assert (Pn : 0 < 2 ^ Zpos n) by (apply pow2_pos; lia).
  assert (Hd1 : 2 ^ (d - 1) = 2 ^ 52 * 2 ^ Zpos n)
    by (rewrite <- pow2_add by lia; f_equal; lia).
  assert (Hd2 : 2 ^ d = 2 ^ 53 * 2 ^ Zpos n)
    by (rewrite <- pow2_add by lia; f_equal; lia).
  assert (Hm : 2 ^ 52 <= m' < 2 ^ 53) by (split; nia).
  set (q := round_nearest_even m'
              (loc_of_shr_record
                 (SpecFloat.iter_pos shr_1 n (Build_shr_record (Zpos p) false false)))) in *.
  assert (Hqr : m' <= q <= m' + 1).
  { destruct Hq as [[_ ->] | [[_ ->] | [_ ->]]]; try lia. destruct (Z.even m'); lia. }
  destruct q as [| qp | qp] eqn:Eq; try lia.
  exists n, qp, m', rem.
  split; [lia|]. split; [exact Hp|]. split; [exact Hrem|]. split; [exact Hm|].
  split; [exact Hq|].
  unfold binary_round_aux, shr_fexp. cbn [Zdigits2 shr_record_of_loc].
  fold d. rewrite fexp_double.
  replace (Z.max (d + e - 53) (-1074) - e) with (Zpos n) by lia.
  cbn [shr]. rewrite Hshr. fold q. rewrite Eq.
  cbn [Zdigits2 shr_record_of_loc].
  destruct (Z.eqb_spec (Zpos qp) (2 ^ 53)) as [E53 | N53].
  - assert (Eqp : qp = 9007199254740992%positive) by (apply Pos2Z.inj; exact E53).
    subst qp. cbn [digits2_pos Pos.succ]. rewrite fexp_double.
    replace (Z.max (54 + (e + Zpos n) - 53) (-1074) - (e + Zpos n)) with 1 by lia.
    cbn [shr SpecFloat.iter_pos shr_1 shr_m orb].
    replace (e + Zpos n + 1 <=? 1024 - 53) with (e + Zpos n + 1 <=? 971) by reflexivity.
    reflexivity.
  - assert (Hdq : Zpos (digits2_pos qp) = 53)
      by (apply digits2_pos_unique; change (53 - 1) with 52; lia).
    rewrite Hdq, fexp_double.
    replace (Z.max (53 + (e + Zpos n) - 53) (-1074) - (e + Zpos n)) with 0 by lia.
    cbn [shr shr_m].
    replace (e + Zpos n <=? 1024 - 53) with (e + Zpos n <=? 971) by reflexivity.
    reflexivity.
Qed.

(** *** The cooldown test, exactly

    The double [0.3] is [5404319552844595 * 2^-54].  A difference rounds
    below it when it is at most half way between it and the double before
    it, which is [10808639105689189 * 2^-55]; the values are counted in
    units of [2^-1074]. *)

Lemma below_small (v F : Z) :
  0 <= F <= 1019 -> v < 2 ^ 53 * 2 ^ F ->
  2 * v <= 10808639105689189 * 2 ^ 1020.
Proof.
  intros HF Hv.
  assert (H1 : 2 ^ F <= 2 ^ 1019) by (apply pow2_le; lia).
  assert (H2 : 2 ^ 53 * 2 ^ F <= 2 ^ 53 * 2 ^ 1019)
    by (apply Z.mul_le_mono_nonneg_l; [apply Z.pow_nonneg; lia | exact H1]).
  assert (H3 : 2 * (2 ^ 53 * 2 ^ 1019) <= 10808639105689189 * 2 ^ 1020)
    by (apply Z.leb_le; vm_compute; reflexivity).
  lia.
Qed.

Lemma below_large (v F : Z) :
  1021 <= F -> 2 ^ 52 * 2 ^ F <= v ->
  ~ 2 * v <= 10808639105689189 * 2 ^ 1020.
Proof.
  intros HF Hv.
  assert (H1 : 2 ^ 1021 <= 2 ^ F) by (apply pow2_le; lia).
  assert (H2 : 2 ^ 52 * 2 ^ 1021 <= 2 ^ 52 * 2 ^ F)
    by (apply Z.mul_le_mono_nonneg_l; [apply Z.pow_nonneg; lia | exact H1]).
  assert (H3 : 10808639105689189 * 2 ^ 1020 < 2 * (2 ^ 52 * 2 ^ 1021))
    by (apply Z.ltb_lt; vm_compute; reflexivity).
  lia.
Qed.

Lemma below_mid (m : Z) :
  2 * (m * 2 ^ 1020) <= 10808639105689189 * 2 ^ 1020 <-> m < 5404319552844595.
Proof.
  assert (P : 0 < 2 ^ 1020) by (apply pow2_pos; lia).
  set (X := 2 ^ 1020) in *. split; intros H; nia.
Qed.

Lemma canonical_bounds (m : positive) (e : Z) :
  fexp 53 1024 (Zpos (digits2_pos m) + e) = e ->
  -1074 <= e /\ Zpos m < 2 ^ 53 /\ (-1074 < e -> 2 ^ 52 <= Zpos m).
Proof.
  rewrite fexp_double. intros H.
  pose proof (digits2_pos_bounds m) as [B1 B2].
  set (d := Zpos (digits2_pos m)) in *.
  split; [lia|]. split.
  - assert (2 ^ d <= 2 ^ 53) by (apply pow2_le; lia). lia.
  - intros He. assert (d = 53) by lia. replace (d - 1) with 52 in B1 by lia. exact B1.
Qed.

(** A float in canonical form compared with the cooldown. *)
Lemma canonical_below (m : positive) (e : Z) :
  fexp 53 1024 (Zpos (digits2_pos m) + e) = e ->
  (e <? -54) || ((e =? -54) && (Zpos m <? 5404319552844595)) = true
  <-> 2 * (Zpos m * 2 ^ (e + 1074)) <= 10808639105689189 * 2 ^ 1020.
Proof.
  intros H. destruct (canonical_bounds m e H) as (He & Hm & Hn).
  assert (P : 0 < 2 ^ (e + 1074)) by (apply pow2_pos; lia).
  destruct (Z.ltb_spec e (-54)) as [L | G]; cbn [orb].
  - split; [intros _ | reflexivity].
    apply (below_small _ (e + 1074)); [lia|].
    apply Z.mul_lt_mono_pos_r; assumption.
  - destruct (Z.eqb_spec e (-54)) as [-> | N]; cbn [andb].
    + change (-54 + 1074) with 1020. rewrite below_mid. apply Z.ltb_lt.
    + split; [discriminate|]. intros Hc. exfalso.
      apply (below_large (Zpos m * 2 ^ (e + 1074)) (e + 1074)); [lia | | exact Hc].
      apply Z.mul_le_mono_nonneg_r; [lia | apply Hn; lia].
Qed.

Lemma SFltb_finite (s : bool) (m1 m2 : positive) (e1 e2 : Z) :
  SFltb (S754_finite s m1 e1) (S754_finite false m2 e2)
  = s || (e1 <? e2) || ((e1 =? e2) && (Zpos m1 <? Zpos m2)).
Proof.
  destruct s; [reflexivity|]. cbn [orb].
  unfold SFltb, SFcompare.
  destruct (Z.compare_spec e1 e2) as [E | L | G].
  - subst e2. rewrite Z.ltb_irrefl, Z.eqb_refl. reflexivity.
  - destruct (Z.ltb_spec e1 e2); [reflexivity | lia].
  - destruct (Z.ltb_spec e1 e2); [lia|].
    destruct (Z.eqb_spec e1 e2); [lia | reflexivity].
Qed.

Lemma SFltb_infinity (s : bool) (m2 : positive) (e2 : Z) :
  SFltb (S754_infinity s) (S754_finite false m2 e2) = s.
Proof. destruct s; reflexivity. Qed.

Lemma ltb_shape (s : bool) (mr : positive) (er : Z) :
  SFltb (if er <=? 971 then S754_finite s mr er else S754_infinity s)
        (S754_finite false 5404319552844595 (-54))
  = s || (er <? -54) || ((er =? -54) && (Zpos mr <? 5404319552844595)).
Proof.
  destruct (Z.leb_spec er 971) as [L | G].
  - apply SFltb_finite.
  - rewrite SFltb_infinity.
    destruct (Z.ltb_spec er (-54)); [lia|].
    destruct (Z.eqb_spec er (-54)); [lia|]. cbn [andb]. now rewrite !orb_false_r.
Qed.

Lemma binary_round_shape (s : bool) (p : positive) (e : Z) :
  -1074 <= e ->
  exists (mr : positive) (er : Z),
    binary_round 53 1024 s p e
    = (if er <=? 971 then S754_finite s mr er else S754_infinity s)
    /\ ((er <? -54) || ((er =? -54) && (Zpos mr <? 5404319552844595)) = true
        <-> 2 * (Zpos p * 2 ^ (e + 1074)) <= 10808639105689189 * 2 ^ 1020).
Proof.
  intros He. unfold binary_round.
  pose proof (digits2_pos_bounds p) as [B1 B2].
  set (d := Zpos (digits2_pos p)) in *.
  rewrite fexp_double.
  assert (PA : 0 < 2 ^ (e + 1074)) by (apply pow2_pos; lia).
  destruct (Z.lt_trichotomy (Z.max (d + e - 53) (-1074)) e) as [L | [E | G]].
  - (* the mantissa is shifted left *)
    set (f := Z.max (d + e - 53) (-1074)) in *.
    assert (Hf : -1074 <= f) by (unfold f; lia).
    destruct (shl_align_spec p e f ltac:(lia)) as [Hm Hs].
    destruct (shl_align p e f) as [mz ez]. cbn [fst snd] in Hm, Hs. subst ez.
    assert (Pf : 0 < 2 ^ (e - f)) by (apply pow2_pos; lia).
    assert (Hdz : Zpos (digits2_pos mz) = d + (e - f)).
    { apply digits2_pos_unique. rewrite Hm.
      replace (d + (e - f) - 1) with ((d - 1) + (e - f)) by lia.
      rewrite !pow2_add by lia. split; nia. }
    assert (Hc : fexp 53 1024 (Zpos (digits2_pos mz) + f) = f).
    { rewrite fexp_double, Hdz. unfold f. lia. }
    exists mz, f. split; [apply binary_round_aux_exact; exact Hc|].
    rewrite (canonical_below mz f Hc), Hm.
    replace (e + 1074) with ((e - f) + (f + 1074)) by lia.
    rewrite (pow2_add (e - f) (f + 1074)) by lia.
    rewrite (Z.mul_assoc (Zpos p) (2 ^ (e - f)) (2 ^ (f + 1074))). reflexivity.
  - (* the mantissa is in place *)
    replace (shl_align p e (Z.max (d + e - 53) (-1074))) with (p, e)
      by (unfold shl_align; rewrite E, Z.sub_diag; reflexivity).
    assert (Hc : fexp 53 1024 (Zpos (digits2_pos p) + e) = e)
      by (rewrite fexp_double; exact E).
    exists p, e. split; [apply binary_round_aux_exact; exact Hc|].
    apply canonical_below; exact Hc.
  - (* the mantissa is shifted right and rounded *)
    replace (shl_align p e (Z.max (d + e - 53) (-1074))) with (p, e)
      by (unfold shl_align;
          destruct (Z.max (d + e - 53) (-1074) - e) eqn:?; try reflexivity; lia).
    assert (Hd : 53 < d) by lia.
    destruct (binary_round_aux_shift s p e He Hd)
      as (n & q & m' & rem & Hn & Hp & Hrem & Hm & Hq & Hr).
    fold d in Hn.
    assert (Pn : 0 < 2 ^ Zpos n) by (apply pow2_pos; lia).
    assert (Hd1 : 2 ^ (d - 1) = 2 ^ 52 * 2 ^ Zpos n)
      by (rewrite <- pow2_add by lia; f_equal; lia).
    assert (Hd2 : 2 ^ d = 2 ^ 53 * 2 ^ Zpos n)
      by (rewrite <- pow2_add by lia; f_equal; lia).
    assert (HF : 2 ^ (e + Zpos n + 1074) = 2 ^ Zpos n * 2 ^ (e + 1074))
      by (rewrite <- pow2_add by lia; f_equal; lia).
    assert (Hqr : m' <= Zpos q <= m' + 1).
    { destruct Hq as [[_ ->] | [[_ ->] | [_ ->]]]; try lia. destruct (Z.even m'); lia. }
    exists (if Zpos q =? 2 ^ 53 then 4503599627370496%positive else q),
           (if Zpos q =? 2 ^ 53 then e + Zpos n + 1 else e + Zpos n).
    split; [rewrite Hr; destruct (Zpos q =? 2 ^ 53); reflexivity|].
    destruct (Z.lt_trichotomy (e + Zpos n) (-54)) as [L | [E | G']].
    + (* below the binade of the cooldown *)
      split; [intros _ |].
      * apply (below_small _ (e + Zpos n + 1074)); [lia|].
        rewrite HF. nia.
      * intros _. destruct (Z.eqb_spec (Zpos q) (2 ^ 53)).
        -- destruct (Z.ltb_spec (e + Zpos n + 1) (-54)); [reflexivity|].
           destruct (Z.eqb_spec (e + Zpos n + 1) (-54)); [reflexivity | lia].
        -- destruct (Z.ltb_spec (e + Zpos n) (-54)); [reflexivity | lia].
    + (* in the binade of the cooldown *)
      assert (E1020 : 2 ^ 1020 = 2 ^ Zpos n * 2 ^ (e + 1074))
        by (rewrite <- HF; f_equal; lia).
      rewrite E1020.
      set (X := 2 ^ (e + 1074)) in *. set (Y := 2 ^ Zpos n) in *.
      assert (Hev : Z.even 5404319552844594 = true) by reflexivity.
      destruct (Z.eqb_spec (Zpos q) (2 ^ 53)) as [E53 | N53].
      * destruct (Z.ltb_spec (e + Zpos n + 1) (-54)); [lia|].
        destruct (Z.eqb_spec (e + Zpos n + 1) (-54)); [lia|]. cbn [orb andb].
        split; [discriminate|]. intros Hc. exfalso.
        assert (2 ^ 53 - 1 <= m') by lia.
        assert ((2 ^ 53 - 1) * Y <= m' * Y) by (apply Z.mul_le_mono_nonneg_r; lia).
        assert (2 * (Zpos p) <= 10808639105689189 * Y) by nia.
        change (2 ^ 53) with 9007199254740992 in *. lia.
      * destruct (Z.ltb_spec (e + Zpos n) (-54)); [lia|].
        destruct (Z.eqb_spec (e + Zpos n) (-54)); [| lia]. cbn [orb andb].
        rewrite Z.ltb_lt.
        assert (Hcut : 2 * (Zpos p * X) <= 10808639105689189 * (Y * X)
                       <-> 2 * Zpos p <= 10808639105689189 * Y) by (split; nia).
        rewrite Hcut. rewrite Hp.
        destruct (Z_lt_le_dec m' 5404319552844594) as [Lm | Gm].
        -- assert ((m' + 1) * Y <= 5404319552844594 * Y)
             by (apply Z.mul_le_mono_nonneg_r; lia).
           split; intros _; lia.
        -- destruct (Z.eq_dec m' 5404319552844594) as [-> | Nm].
           ++ rewrite Hev in Hq.
              destruct Hq as [[Hl Hq] | [[Hl Hq] | [Hl Hq]]]; rewrite Hq; split; intros; lia.
           ++ assert (5404319552844595 * Y <= m' * Y)
                by (apply Z.mul_le_mono_nonneg_r; lia).
              split; intros; lia.
    + (* above the binade of the cooldown *)
      split.
      * intros Hb. exfalso. destruct (Z.eqb_spec (Zpos q) (2 ^ 53)).
        -- destruct (Z.ltb_spec (e + Zpos n + 1) (-54)); [lia|].
           destruct (Z.eqb_spec (e + Zpos n + 1) (-54)); [lia | discriminate Hb].
        -- destruct (Z.ltb_spec (e + Zpos n) (-54)); [lia|].
           destruct (Z.eqb_spec (e + Zpos n) (-54)); [lia | discriminate Hb].
      * intros Hc. exfalso.
        apply (below_large (Zpos p * 2 ^ (e + 1074)) (e + Zpos n + 1074)); [lia | | exact Hc].
        rewrite HF. nia.
Qed.
Lemma is_double_canonical (s : bool) (m : positive) (e : Z) :
  PyFloat.is_double (S754_finite s m e) = true ->
  fexp 53 1024 (Zpos (digits2_pos m) + e) = e.
Proof.
  cbn [PyFloat.is_double]. unfold bounded, canonical_mantissa, PyFloat.prec, PyFloat.emax. intros H.
  apply andb_true_iff in H as [H _]. now apply Z.eqb_eq.
Qed.

Lemma edge_pos : 0 <= 10808639105689189 * 2 ^ 1020.
Proof. assert (0 < 2 ^ 1020) by (apply pow2_pos; lia). lia. Qed.

(** A double of either sign against the cooldown. *)
Lemma double_below (s : bool) (m : positive) (e : Z) :
  PyFloat.is_double (S754_finite s m e) = true ->
  SFltb (S754_finite s m e) (S754_finite false 5404319552844595 (-54)) = true
  <-> 2 * PyFloat.ticks (S754_finite s m e) <= 10808639105689189 * 2 ^ 1020.
Proof.
  intros H. pose proof (is_double_canonical s m e H) as Hc.
  rewrite SFltb_finite. cbn [PyFloat.ticks].
  destruct s; cbn [orb cond_Zopp].
  - destruct (canonical_bounds m e Hc) as (He & _ & _).
    assert (0 < 2 ^ (e + 1074)) by (apply pow2_pos; lia).
    pose proof edge_pos. split; [intros _; nia | reflexivity].
  - apply canonical_below. exact Hc.
Qed.

(** The comparison of the code, [x - y < 0.3] on doubles, in exact terms. *)
Lemma sub_below (x y : spec_float) :
  PyFloat.is_double x = true -> PyFloat.is_double y = true ->
  SFltb (SFsub 53 1024 x y) (S754_finite false 5404319552844595 (-54)) = true
  <-> 2 * (PyFloat.ticks x - PyFloat.ticks y) <= 10808639105689189 * 2 ^ 1020.
Proof.
  intros Hx Hy. pose proof edge_pos as HT.
  destruct x as [sx | sx | | sx mx ex]; try discriminate Hx;
    destruct y as [sy | sy | | sy my ey]; try discriminate Hy.
  - cbn [PyFloat.ticks]. split; [intros _; lia | intros _].
    destruct sx, sy; reflexivity.
  - change (SFsub 53 1024 (S754_zero sx) (S754_finite sy my ey))
      with (S754_finite (negb sy) my ey).
    assert (Hn : PyFloat.is_double (S754_finite (negb sy) my ey) = true) by exact Hy.
    rewrite (double_below (negb sy) my ey Hn). cbn [PyFloat.ticks].
    destruct sy; cbn [negb cond_Zopp]; split; intros; lia.
  - change (SFsub 53 1024 (S754_finite sx mx ex) (S754_zero sy))
      with (S754_finite sx mx ex).
    rewrite (double_below sx mx ex Hx).
    replace (PyFloat.ticks (S754_finite sx mx ex) - PyFloat.ticks (S754_zero sy))
      with (PyFloat.ticks (S754_finite sx mx ex)) by (cbn [PyFloat.ticks]; lia).
    reflexivity.
  - destruct (canonical_bounds mx ex (is_double_canonical sx mx ex Hx)) as (Hex & _ & _).
    destruct (canonical_bounds my ey (is_double_canonical sy my ey Hy)) as (Hey & _ & _).
    cbn [SFsub]. cbv zeta.
    set (ez := Z.min ex ey).
    assert (Hez : -1074 <= ez) by (unfold ez; lia).
    destruct (shl_align_spec mx ex ez ltac:(unfold ez; lia)) as [Hmx _].
    destruct (shl_align_spec my ey ez ltac:(unfold ez; lia)) as [Hmy _].
    rewrite Hmx, Hmy.
    assert (Pz : 0 < 2 ^ (ez + 1074)) by (apply pow2_pos; lia).
    assert (Ex : 2 ^ (ex + 1074) = 2 ^ (ex - ez) * 2 ^ (ez + 1074))
      by (rewrite <- pow2_add by (unfold ez; lia); f_equal; lia).
    assert (Ey : 2 ^ (ey + 1074) = 2 ^ (ey - ez) * 2 ^ (ez + 1074))
      by (rewrite <- pow2_add by (unfold ez; lia); f_equal; lia).
    assert (Hd : PyFloat.ticks (S754_finite sx mx ex) - PyFloat.ticks (S754_finite sy my ey)
                 = (cond_Zopp sx (Zpos mx * 2 ^ (ex - ez))
                    - cond_Zopp sy (Zpos my * 2 ^ (ey - ez))) * 2 ^ (ez + 1074)).
    { cbn [PyFloat.ticks]. rewrite Ex, Ey. destruct sx, sy; cbn [cond_Zopp]; ring. }
    rewrite Hd.
    destruct (cond_Zopp sx (Zpos mx * 2 ^ (ex - ez))
              - cond_Zopp sy (Zpos my * 2 ^ (ey - ez))) as [| p | p] eqn:ED;
      cbn [binary_normalize].
    + split; [intros _; lia | reflexivity].
    + destruct (binary_round_shape false p ez Hez) as (mr & er & -> & Hiff).
      rewrite ltb_shape. cbn [orb]. rewrite Hiff.
      rewrite (Z.mul_comm (Zpos p)). reflexivity.
    + destruct (binary_round_shape true p ez Hez) as (mr & er & -> & _).
      rewrite ltb_shape. cbn [orb].
      split; [intros _ | reflexivity].
      assert (Z.neg p * 2 ^ (ez + 1074) < 0) by (apply Z.mul_neg_pos; lia). lia.
Qed.


(** *** Values as fractions *)

Lemma value_diff_le (x y : PyFloat.float) (n : Z) (d : positive) :
  (PyFloat.value x - PyFloat.value y <= n # d)%Q
  <-> (PyFloat.ticks x - PyFloat.ticks y) * Zpos d <= n * 2 ^ 1074.
Proof.
  unfold Qle, Qminus, Qplus, Qopp, PyFloat.value. cbn [Qnum Qden].
  rewrite Pos2Z.inj_mul.
  replace (Zpos (2 ^ 1074)) with (2 ^ 1074) by (vm_compute; reflexivity).
  assert (P : 0 < 2 ^ 1074) by (apply pow2_pos; lia).
  set (X := 2 ^ 1074) in *. clearbody X.
  replace ((PyFloat.ticks x * X + - PyFloat.ticks y * X) * Zpos d)
    with ((PyFloat.ticks x - PyFloat.ticks y) * Zpos d * X) by ring.
  replace (n * (X * X)) with (n * X * X) by ring.
  symmetry. apply Z.mul_le_mono_pos_r. exact P.
Qed.

Lemma value_diff_lt (x y : PyFloat.float) (n : Z) (d : positive) :
  (n # d < PyFloat.value x - PyFloat.value y)%Q
  <-> n * 2 ^ 1074 < (PyFloat.ticks x - PyFloat.ticks y) * Zpos d.
Proof.
  split; intros H.
  - apply Z.nle_gt. intros C. apply value_diff_le in C. apply (Qle_not_lt _ _ C H).
  - apply Qnot_le_lt. intros C. apply value_diff_le in C. lia.
Qed.

Lemma value_diff_ge (x y : PyFloat.float) (n : Z) (d : positive) :
  (n # d <= PyFloat.value x - PyFloat.value y)%Q
  <-> n * 2 ^ 1074 <= (PyFloat.ticks x - PyFloat.ticks y) * Zpos d.
Proof.
  unfold Qle, Qminus, Qplus, Qopp, PyFloat.value. cbn [Qnum Qden].
  rewrite Pos2Z.inj_mul.
  replace (Zpos (2 ^ 1074)) with (2 ^ 1074) by (vm_compute; reflexivity).
  assert (P : 0 < 2 ^ 1074) by (apply pow2_pos; lia).
  set (X := 2 ^ 1074) in *. clearbody X.
  replace ((PyFloat.ticks x * X + - PyFloat.ticks y * X) * Zpos d)
    with ((PyFloat.ticks x - PyFloat.ticks y) * Zpos d * X) by ring.
  replace (n * (X * X)) with (n * X * X) by ring.
  symmetry. apply Z.mul_le_mono_pos_r. exact P.
Qed.

Lemma value_lt (x y : PyFloat.float) :
  (PyFloat.value x < PyFloat.value y)%Q <-> PyFloat.ticks x < PyFloat.ticks y.
Proof.
  unfold Qlt, PyFloat.value. cbn [Qnum Qden].
  symmetry. apply Z.mul_lt_mono_pos_r. reflexivity.
Qed.

Lemma value_le (x y : PyFloat.float) :
  (PyFloat.value x <= PyFloat.value y)%Q <-> PyFloat.ticks x <= PyFloat.ticks y.
Proof.
  unfold Qle, PyFloat.value. cbn [Qnum Qden].
  symmetry. apply Z.mul_le_mono_pos_r. reflexivity.
Qed.

Lemma value_ge_1 (x : PyFloat.float) :
  (1 <= PyFloat.value x)%Q <-> 2 ^ 1074 <= PyFloat.ticks x.
Proof.
  unfold Qle, PyFloat.value. cbn [Qnum Qden].
  replace (Zpos (2 ^ 1074)) with (2 ^ 1074) by (vm_compute; reflexivity).
  rewrite Z.mul_1_l, Z.mul_1_r. reflexivity.
Qed.

(** The edge in units of [2^-1074]. *)
Lemma edge_ticks (D : Z) :
  2 * D <= 10808639105689189 * 2 ^ 1020
  <-> D * 36028797018963968 <= 10808639105689189 * 2 ^ 1074.
Proof.
  assert (E : 2 ^ 1074 = 18014398509481984 * 2 ^ 1020) by (vm_compute; reflexivity).
  rewrite E. assert (P : 0 < 2 ^ 1020) by (apply pow2_pos; lia).
  set (X := 2 ^ 1020) in *. clearbody X. lia.
Qed.

(** ** The cooldown gate *)

(** The test of the code on doubles, in exact terms: a press is in the
    cooldown when its reading is at most [cooldown_edge] after the stamp. *)
Lemma in_cooldown_exact (t : PyFloat.float) (a : calculator) :
  PyFloat.is_double t = true -> PyFloat.is_double (last_touch_time a) = true ->
  in_cooldown t a = true
  <-> (PyFloat.value t - PyFloat.value (last_touch_time a) <= cooldown_edge)%Q.
Proof.
  intros Ht Ha. unfold in_cooldown, cooldown_edge.
  rewrite value_diff_le, <- edge_ticks.
  exact (sub_below t (last_touch_time a) Ht Ha).
Qed.

Lemma in_cooldown_ticks (t : PyFloat.float) (a : calculator) :
  PyFloat.is_double t = true -> PyFloat.is_double (last_touch_time a) = true ->
  in_cooldown t a = false ->
  10808639105689189 * 2 ^ 1020 < 2 * (PyFloat.ticks t - PyFloat.ticks (last_touch_time a)).
Proof.
  intros Ht Ha H. apply Z.nle_gt. intros C.
  apply (sub_below t (last_touch_time a) Ht Ha) in C.
  unfold in_cooldown, PyFloat.ltb, PyFloat.sub in H.
  change touch_cooldown with (S754_finite false 5404319552844595 (-54)) in H.
  change PyFloat.prec with 53 in H. change PyFloat.emax with 1024 in H.
  rewrite C in H. discriminate H.
Qed.

Lemma process_dropped (t : PyFloat.float) (b : string) (a : calculator) :
  in_cooldown t a = true -> process_button_press t b a = a.
Proof. intros H. unfold process_button_press. now rewrite H. Qed.

Lemma process_accepted (t : PyFloat.float) (b : string) (a : calculator) :
  in_cooldown t a = false ->
  calc (process_button_press t b a) = press b (calc a)
  /\ last_touch_time (process_button_press t b a) = t
  /\ stdout (process_button_press t b a)
     = (stdout a ++ [printed b])%list.
Proof.
  intros H. unfold process_button_press. rewrite H.
  destruct (dict_mem b (buttons a)); repeat split.
Qed.

(** Doubles of at least 1 are whole multiples of [2^-52]. *)
Lemma double_grid (x : PyFloat.float) :
  PyFloat.is_double x = true -> 2 ^ 1074 <= PyFloat.ticks x ->
  exists k : Z, PyFloat.ticks x = k * 2 ^ 1022.
Proof.
  intros Hx H1. assert (P : 0 < 2 ^ 1074) by (apply pow2_pos; lia).
  destruct x as [s | s | | s m e]; cbn [PyFloat.ticks] in *; try lia.
  destruct (canonical_bounds m e (is_double_canonical s m e Hx)) as (He & Hm & _).
  assert (Pe : 0 < 2 ^ (e + 1074)) by (apply pow2_pos; lia).
  destruct s; cbn [cond_Zopp] in *; [nia|].
  assert (He52 : -52 <= e).
  { destruct (Z_lt_le_dec e (-52)) as [L | G]; [exfalso | exact G].
    assert (H2 : 2 ^ (e + 1074) <= 2 ^ 1021) by (apply pow2_le; lia).
    assert (H3 : 2 ^ 53 * 2 ^ 1021 = 2 ^ 1074) by (rewrite <- pow2_add by lia; reflexivity).
    assert (Zpos m * 2 ^ (e + 1074) < 2 ^ 53 * 2 ^ 1021); [| lia].
    apply Z.le_lt_trans with (Zpos m * 2 ^ 1021);
      [apply Z.mul_le_mono_nonneg_l; lia | apply Z.mul_lt_mono_pos_r; [apply pow2_pos|]; lia]. }
  exists (Zpos m * 2 ^ (e + 52)).
  rewrite <- Z.mul_assoc, <- pow2_add by lia. do 2 f_equal. lia.
Qed.

(** On that grid, a difference above the edge is 3/10 at least. *)
Lemma edge_grid (k : Z) :
  10808639105689189 * 2 ^ 1020 < 2 * (k * 2 ^ 1022) ->
  3 * 2 ^ 1074 <= k * 2 ^ 1022 * 10.
Proof.
  assert (E0 : 2 ^ 1020 = 2 * 2 ^ 1019) by (vm_compute; reflexivity).
  assert (E2 : 2 ^ 1022 = 8 * 2 ^ 1019) by (vm_compute; reflexivity).
  assert (E4 : 2 ^ 1074 = 36028797018963968 * 2 ^ 1019) by (vm_compute; reflexivity).
  rewrite E0, E2, E4. assert (P : 0 < 2 ^ 1019) by (apply pow2_pos; lia).
  set (X := 2 ^ 1019) in *. clearbody X. intros H.
  assert (Hk : 1351079888211149 <= k) by nia.
  nia.
Qed.

(** With a stamp of at least one second, a reading less than 3/10 after
    it is in the cooldown. *)
Lemma in_cooldown_300ms (t : PyFloat.float) (a : calculator) :
  PyFloat.is_double t = true -> PyFloat.is_double (last_touch_time a) = true ->
  (1 <= PyFloat.value (last_touch_time a))%Q ->
  (PyFloat.value t - PyFloat.value (last_touch_time a) < 3 # 10)%Q ->
  in_cooldown t a = true.
Proof.
  intros Ht Ha H1 Hlt.
  destruct (in_cooldown t a) eqn:Hc; [reflexivity | exfalso].
  pose proof (in_cooldown_ticks t a Ht Ha Hc) as He.
  apply value_ge_1 in H1.
  assert (PT : 0 < 2 ^ 1020) by (apply pow2_pos; lia).
  assert (H1t : 2 ^ 1074 <= PyFloat.ticks t) by lia.
  destruct (double_grid _ Ha H1) as [k1 E1].
  destruct (double_grid _ Ht H1t) as [k2 E2].
  apply (Qlt_not_le _ _ Hlt). apply value_diff_ge.
  rewrite E1, E2 in *.
  replace (k2 * 2 ^ 1022 - k1 * 2 ^ 1022) with ((k2 - k1) * 2 ^ 1022) in * by ring.
  apply edge_grid. exact He.
Qed.

(** After a press stamped at the double 0.3, a press at the double 0.6 is
    accepted too, with readings that are less than 3/10 apart. *)
Lemma gap_below_300ms_is_accepted :
  last_touch_time (process_button_press (double_of "0.3") "7" init) = double_of "0.3"
  /\ (0 < PyFloat.value (double_of "0.6") - PyFloat.value (double_of "0.3"))%Q
  /\ (PyFloat.value (double_of "0.6") - PyFloat.value (double_of "0.3") < 3 # 10)%Q
  /\ last_touch_time
       (process_button_press (double_of "0.6") "8"
          (process_button_press (double_of "0.3") "7" init)) = double_of "0.6"
  /\ stdout
       (process_button_press (double_of "0.6") "8"
          (process_button_press (double_of "0.3") "7" init))
     = [printed "7"; printed "8"].
Proof.
  split; [vm_compute; reflexivity|]. split; [vm_compute; reflexivity|].
  split; [vm_compute; reflexivity|]. split; vm_compute; reflexivity.
Qed.

(** C10, amended.  An activation that passes the cooldown check stamps the
    current time whatever the button does to the calculator, and any
    activation that the test of the code finds less than the double 0.3
    after that stamp is dropped: the whole object is left as it was.  For
    readings that are doubles this is every reading at most
    [cooldown_edge] after the stamp, a later one being accepted; and with
    a stamp of at least one second it is every reading less than 3/10
    after the stamp. *)
Theorem accepted_press_stamps_and_blocks (t : PyFloat.float) (b : string) (a : calculator) :
  in_cooldown t a = false ->
  last_touch_time (process_button_press t b a) = t
  /\ (forall (t' : PyFloat.float) (b' : string),
         PyFloat.ltb (PyFloat.sub t' t) touch_cooldown = true ->
         process_button_press t' b' (process_button_press t b a)
         = process_button_press t b a)
  /\ (PyFloat.is_double t = true ->
      forall (t' : PyFloat.float) (b' : string),
        PyFloat.is_double t' = true ->
        ((PyFloat.value t' - PyFloat.value t <= cooldown_edge)%Q ->
         process_button_press t' b' (process_button_press t b a)
         = process_button_press t b a)
        /\ ((1 <= PyFloat.value t)%Q ->
            (PyFloat.value t' - PyFloat.value t < 3 # 10)%Q ->
            process_button_press t' b' (process_button_press t b a)
            = process_button_press t b a)
        /\ ((cooldown_edge < PyFloat.value t' - PyFloat.value t)%Q ->
            last_touch_time (process_button_press t' b' (process_button_press t b a)) = t')).
Proof.
  intros H. destruct (process_accepted t b a H) as (_ & Hl & _).
  split; [exact Hl|]. split.
  - intros t' b' Ht. apply process_dropped. unfold in_cooldown. rewrite Hl. exact Ht.
  - intros Hd t' b' Hd'.
    assert (Hs : PyFloat.is_double (last_touch_time (process_button_press t b a)) = true)
      by (rewrite Hl; exact Hd).
    split; [| split].
    + intros Hle. apply process_dropped.
      apply (in_cooldown_exact t' _ Hd' Hs). rewrite Hl. exact Hle.
    + intros H1 Hlt. apply process_dropped.
      apply (in_cooldown_300ms t' _ Hd' Hs); rewrite Hl; assumption.
    + intros Hgt.
      apply (process_accepted t' b' (process_button_press t b a)).
      destruct (in_cooldown t' (process_button_press t b a)) eqn:Hc; [exfalso | reflexivity].
      apply (in_cooldown_exact t' _ Hd' Hs) in Hc. rewrite Hl in Hc.
      apply (Qle_not_lt _ _ Hc Hgt).
Qed.

(** The stamp is set by [=] pressed on the fresh calculator, which changes
    nothing else of the calculator, and a press a quarter of a second
    later is dropped. *)
Lemma accepted_press_stamps_and_blocks_witness :
  calc (process_button_press (double_of "1700000000.5") "=" init) = calc init
  /\ last_touch_time (process_button_press (double_of "1700000000.5") "=" init)
     = double_of "1700000000.5"
  /\ process_button_press (double_of "1700000000.75") "7"
       (process_button_press (double_of "1700000000.5") "=" init)
     = process_button_press (double_of "1700000000.5") "=" init.
Proof.
  split; [reflexivity|].
  destruct (accepted_press_stamps_and_blocks (double_of "1700000000.5") "=" init)
    as (H1 & _ & H3).
  - vm_compute. reflexivity.
  - split; [exact H1|].
    apply (proj1 (proj2 (H3 eq_refl (double_of "1700000000.75") "7" eq_refl))).
    + vm_compute. discriminate.
    + vm_compute. reflexivity.
Defined.

(** ** [=] with a missing part *)

(** C9.  When the current operand, the pending operator or the previous
    operand is empty, [=] leaves the calculator (operands, operator,
    display, flag and history) as it was, also through
    [process_button_press]. *)
Theorem equals_without_operands_is_noop (c : calc_state) :
  current_number c = "" \/ operation c = "" \/ previous_number c = "" ->
  press "=" c = c
  /\ forall (t : PyFloat.float) (a : calculator),
       calc a = c -> calc (process_button_press t "=" a) = c.
Proof.
  intros H.
  assert (E : press "=" c = c).
  { unfold press. cbn [PyStr.isdigit PyStr.truthy PyStr.all_digits PyStr.is_digit].
    change (PyStr.isdigit "=") with false. change (String.eqb "=" ".") with false.
    change (is_operator "=") with false. change (String.eqb "=" "=") with true.
    cbv iota.
    destruct H as [H | [H | H]]; rewrite H; cbn [PyStr.truthy andb];
      rewrite ?andb_false_r; reflexivity. }
  split; [exact E|].
  intros t a Ha. unfold process_button_press.
  destruct (in_cooldown t a); [exact Ha|].
  destruct (dict_mem "=" (buttons a)); cbn [calc]; rewrite Ha; exact E.
Qed.

Lemma equals_without_operands_is_noop_witness :
  press "=" (press_all ["5"; "+"] init_calc) = press_all ["5"; "+"] init_calc.
Proof.
  apply (equals_without_operands_is_noop (press_all ["5"; "+"] init_calc)).
  left. reflexivity.
Defined.

(** ** The display *)

(** C1.  The display does not stay a numeral: after [5], [±], [del] it is
    a lone minus sign, and one more [±] leaves it empty. *)
Theorem display_lone_sign_then_empty :
  display (press_all ["5"; "±"; "del"] init_calc) = "-"
  /\ display (press_all ["5"; "±"; "del"; "±"] init_calc) = "".
Proof. split; vm_compute; reflexivity. Qed.

(** ** The scenario [5 ÷ 0 =] *)

(** The digit typed after an operator is appended to the operand still on
    display, so the division evaluated is 5 ÷ 50: the display is not the
    error marker and the history is not left unchanged. *)
Lemma five_div_zero_scenario_differs :
  display (press_all ["5"; "÷"; "0"; "="] init_calc) = "0.1"
  /\ history (press_all ["5"; "÷"; "0"; "="] init_calc) = ["5 ÷ 50 = 0.1"]
  /\ ~ (display (press_all ["5"; "÷"; "0"; "="] init_calc) = "Error"
        /\ previous_number (press_all ["5"; "÷"; "0"; "="] init_calc) = ""
        /\ history (press_all ["5"; "÷"; "0"; "="] init_calc)
           = history init_calc).
Proof.
  split; [vm_compute; reflexivity|].
  split; [vm_compute; reflexivity|].
  intros (H & _). vm_compute in H. discriminate H.
Qed.

(** C2, amended.  [5 ÷ 0 =] on the fresh calculator clears the previous
    operand and the pending operator, sets the flag, and gives the history
    exactly one entry; an evaluation is recorded also when it fails, as
    [=] on the operands 5 and 0 shows. *)
Theorem five_div_zero_scenario :
  previous_number (press_all ["5"; "÷"; "0"; "="] init_calc) = ""
  /\ operation (press_all ["5"; "÷"; "0"; "="] init_calc) = ""
  /\ just_calculated (press_all ["5"; "÷"; "0"; "="] init_calc) = true
  /\ List.length (history (press_all ["5"; "÷"; "0"; "="] init_calc)) = 1%nat
  /\ press "=" (mk_calc "0" "5" "÷" "0" [] false)
     = mk_calc "" "" "" "Error" ["5 ÷ 0 = Error"] true.
Proof. repeat split; vm_compute; reflexivity. Qed.

(** ** Formatting of results *)

Lemma eq_int_integer_part (s : bool) (m : positive) (e : Z) :
  PyFloat.eq_int (S754_finite s m e) (integer_part (S754_finite s m e))
  = is_integral (S754_finite s m e).
Proof.
  unfold PyFloat.eq_int, integer_part, is_integral.
  destruct (Z.leb_spec 0 e) as [He | He]; cbn [orb].
  - apply Z.eqb_refl.
  - assert (Hp : 0 < 2 ^ (- e)) by (apply Z.pow_pos_nonneg; lia).
    pose proof (Z.div_mod (Zpos m) (2 ^ (- e)) ltac:(lia)) as Hd.
    pose proof (Z.mod_pos_bound (Zpos m) (2 ^ (- e)) Hp) as Hb.
    destruct (Z.eqb_spec (Z.pos m mod 2 ^ (- e)) 0) as [Hz | Hz];
      [apply Z.eqb_eq | apply Z.eqb_neq]; destruct s; cbn [cond_Zopp]; lia.
Qed.

Lemma eq_int_zero (r : PyFloat.float) : PyFloat.eq_int r 0 = is_zero r.
Proof.
  destruct r as [s | s | | s m e]; try reflexivity.
  unfold PyFloat.eq_int, is_zero.
  destruct (Z.leb_spec 0 e) as [He | He]; apply Z.eqb_neq.
  - assert (0 < Z.pos m * 2 ^ e).
    { apply Z.mul_pos_pos; [lia | apply Z.pow_pos_nonneg; lia]. }
    destruct s; cbn [cond_Zopp]; lia.
  - destruct s; cbn [cond_Zopp]; lia.
Qed.

(** On a finite float the end of [calculate] is the policy with the bound
    999999999. *)
Lemma format_result_finite (r : PyFloat.float) :
  is_finite r = true -> format_result r = Ok (format_policy 999999999 r).
Proof.
  intros Hf. unfold format_result, format_policy. rewrite eq_int_zero.
  destruct (PyFloat.gt_int (PyFloat.fabs r) 999999999
            || PyFloat.ltb (PyFloat.fabs r) lit_0_000001 && negb (is_zero r));
    [reflexivity|].
  destruct r as [s | s | | s m e]; try discriminate Hf.
  - reflexivity.
  - unfold PyFloat.to_int, bind.
    change (cond_Zopp s (if 0 <=? e then Z.pos m * 2 ^ e else Z.pos m / 2 ^ (- e)))
      with (integer_part (S754_finite s m e)).
    rewrite eq_int_integer_part.
    destruct (is_integral (S754_finite s m e)); reflexivity.
Qed.

Lemma is_operator_cases (op : string) :
  is_operator op = true -> op = "+" \/ op = "-" \/ op = "×" \/ op = "÷".
Proof.
  unfold is_operator. intros H.
  destruct (String.eqb_spec op "+"); [now left|].
  destruct (String.eqb_spec op "-"); [now right; left|].
  destruct (String.eqb_spec op "×"); [now right; right; left|].
  destruct (String.eqb_spec op "÷"); [now right; right; right|].
  discriminate H.
Qed.

(** The threshold of case (a) is 999999999, not 1e9: the sum 999999999 + 1
    is exactly 1e9, which does not exceed 1e9, and it is shown in
    scientific notation where the stated policy gives the bare integer. *)
Lemma billion_is_scientific :
  PyFloat.of_string "999999999" = Ok (S754_finite false 8388607991611392 (-23))
  /\ PyFloat.of_string "1" = Ok (S754_finite false 4503599627370496 (-52))
  /\ ieee_result "+" (S754_finite false 8388607991611392 (-23))
                     (S754_finite false 4503599627370496 (-52))
     = S754_finite false 8388608000000000 (-23)
  /\ PyFloat.eq_int (S754_finite false 8388608000000000 (-23)) (10 ^ 9) = true
  /\ calculate "999999999" "+" "1" = "1.00e+09"
  /\ format_policy (10 ^ 9) (S754_finite false 8388608000000000 (-23)) = "1000000000"
  /\ calculate "999999999" "+" "1"
     <> format_policy (10 ^ 9) (S754_finite false 8388608000000000 (-23)).
Proof. repeat split; try (vm_compute; reflexivity). vm_compute. discriminate. Qed.

(** C3, amended.  For operands that parse and an operator among the four
    (the divisor not zero), when the IEEE double result is finite,
    [calculate] formats it by the policy with the bound 999999999:
    scientific notation with 2 fractional digits exactly when the magnitude
    exceeds 999999999 or is below 1e-6 and not zero, else the bare integer
    exactly when the result is integral, else 8 fractional digits
    stripped. *)
Theorem calculate_formats_by_policy (a b op : string) (n1 n2 : PyFloat.float) :
  PyFloat.of_string a = Ok n1 ->
  PyFloat.of_string b = Ok n2 ->
  is_operator op = true ->
  (op = "÷" -> is_zero n2 = false) ->
  is_finite (ieee_result op n1 n2) = true ->
  calculate a op b = format_policy 999999999 (ieee_result op n1 n2).
Proof.
  intros Ha Hb Hop Hz Hfin.
  unfold calculate, calculate_try. rewrite Ha, Hb. cbn [bind].
  destruct (is_operator_cases op Hop) as [E | [E | [E | E]]]; subst op.
  - change (ieee_result "+" n1 n2) with (PyFloat.add n1 n2) in *.
    change (String.eqb "+" "+") with true. cbv iota.
    rewrite (format_result_finite _ Hfin). reflexivity.
  - change (ieee_result "-" n1 n2) with (PyFloat.sub n1 n2) in *.
    change (String.eqb "-" "+") with false. change (String.eqb "-" "-") with true.
    cbv iota. rewrite (format_result_finite _ Hfin). reflexivity.
  - change (ieee_result "×" n1 n2) with (PyFloat.mul n1 n2) in *.
    change (String.eqb "×" "+") with false. change (String.eqb "×" "-") with false.
    change (String.eqb "×" "×") with true.
    cbv iota. rewrite (format_result_finite _ Hfin). reflexivity.
  - change (ieee_result "÷" n1 n2) with (PyFloat.div n1 n2) in *.
    change (String.eqb "÷" "+") with false. change (String.eqb "÷" "-") with false.
    change (String.eqb "÷" "×") with false. change (String.eqb "÷" "÷") with true.
    cbv iota. rewrite eq_int_zero, (Hz eq_refl).
    rewrite (format_result_finite _ Hfin). reflexivity.
Qed.

Lemma calculate_formats_by_policy_witness :
  calculate "1" "÷" "3"
  = format_policy 999999999
      (ieee_result "÷" (S754_finite false 4503599627370496 (-52))
                       (S754_finite false 6755399441055744 (-51)))
  /\ format_policy 999999999
       (ieee_result "÷" (S754_finite false 4503599627370496 (-52))
                        (S754_finite false 6755399441055744 (-51)))
     = "0.33333333".
Proof.
  split.
  - apply (calculate_formats_by_policy "1" "3" "÷").
    + vm_compute; reflexivity.
    + vm_compute; reflexivity.
    + reflexivity.
    + intros _. reflexivity.
    + vm_compute; reflexivity.
  - vm_compute; reflexivity.
Defined.

(** ** Percent *)

(** [%] on 500 shows 5.0, where the binary evaluation of the same division
    shows 5. *)
Lemma percent_is_not_the_policy :
  display (press "%" (press_all ["5"; "0"; "0"] init_calc)) = "5.0"
  /\ current_number (press "%" (press_all ["5"; "0"; "0"] init_calc)) = "5.0"
  /\ PyFloat.of_string "500" = Ok (S754_finite false 8796093022208000 (-44))
  /\ format_result (PyFloat.div (S754_finite false 8796093022208000 (-44)) hundred)
     = Ok "5"
  /\ calculate "500" "÷" "100" = "5".
Proof. repeat split; vm_compute; reflexivity. Qed.

Lemma press_percent (c : calc_state) :
  press "%" c =
  if PyStr.truthy (current_number c) then
    match percent (current_number c) with
    | Ok result =>
        mk_calc result (previous_number c) (operation c) result (history c)
                (just_calculated c)
    | Raise _ =>
        mk_calc (current_number c) (previous_number c) (operation c) "Error"
                (history c) (just_calculated c)
    end
  else c.
Proof. reflexivity. Qed.

(** C8, amended.  [%] with a non-empty current operand that parses sets
    the operand and the display to [str] of the operand divided by 100,
    Python's shortest round-trip text of the float (5.0 for 500) and not
    the policy of binary results; when the operand does not parse, the
    display becomes the error marker and the operand stays. *)
Theorem percent_shows_str_of_quotient (c : calc_state) :
  current_number c <> "" ->
  (forall x : PyFloat.float,
      PyFloat.of_string (current_number c) = Ok x ->
      display (press "%" c) = PyFloat.repr (PyFloat.div x hundred)
      /\ current_number (press "%" c) = PyFloat.repr (PyFloat.div x hundred))
  /\ (forall e : exn,
      PyFloat.of_string (current_number c) = Raise e ->
      display (press "%" c) = "Error"
      /\ current_number (press "%" c) = current_number c).
Proof.
  intros Hne. rewrite press_percent.
  destruct (current_number c) as [| ch rest] eqn:Hc; [contradiction|].
  cbn [PyStr.truthy]. unfold percent.
  split; intros x Hx; rewrite Hx; cbn [bind display current_number]; auto.
Qed.

Lemma percent_shows_str_of_quotient_witness :
  display (press "%" (mk_calc "500" "" "" "500" [] false)) = "5.0"
  /\ display (press "%" (mk_calc "-" "" "" "-" [] false)) = "Error".
Proof.
  split.
  - destruct (percent_shows_str_of_quotient (mk_calc "500" "" "" "500" [] false))
      as [H _]; [discriminate|].
    destruct (H (S754_finite false 8796093022208000 (-44))) as [Hd _];
      [vm_compute; reflexivity|].
    rewrite Hd. vm_compute. reflexivity.
  - destruct (percent_shows_str_of_quotient (mk_calc "-" "" "" "-" [] false))
      as [_ H]; [discriminate|].
    destruct (H ValueError) as [Hd _]; [vm_compute; reflexivity|exact Hd].
Defined.

(** ** The history log *)

Lemma tl_skipn {A : Type} (k : nat) (l : list A) : tl (skipn k l) = skipn (S k) l.
Proof.
  revert l. induction k as [| k IH]; intros [| x l]; try reflexivity.
  cbn [skipn]. rewrite IH. destruct l; reflexivity.
Qed.

(** Appending with eviction keeps the last ten of what was recorded. *)
Lemma skipn_snoc {A : Type} (k : nat) (l : list A) (x : A) :
  (k <= List.length l)%nat -> (skipn k l ++ [x] = skipn k (l ++ [x]))%list.
Proof.
  intros H. rewrite skipn_app.
  replace (k - List.length l)%nat with 0%nat by lia. reflexivity.
Qed.

Lemma history_append_keep_last (e : string) (rec : list string) :
  history_append e (keep_last 10 rec) = keep_last 10 (rec ++ [e])%list.
Proof.
  unfold history_append, keep_last.
  rewrite skipn_snoc by lia.
  rewrite length_skipn, !length_app. cbn [List.length].
  destruct (Nat.ltb_spec 10 (List.length rec + 1 - (List.length rec - 10))%nat) as [H | H].
  - rewrite tl_skipn. f_equal. lia.
  - f_equal. lia.
Qed.

(** The history after a press is the history before, given what the press
    records. *)
Lemma history_press (b : string) (c : calc_state) :
  history (press b c) = fold_left (fun h e => history_append e h) (recorded_by b c) (history c).
Proof.
  unfold recorded_by, press.
  destruct (String.eqb_spec b "=") as [-> | Hne].
  - change (PyStr.isdigit "=") with false. change (String.eqb "=" ".") with false.
    change (is_operator "=") with false. cbv iota. cbn [andb].
    destruct (PyStr.truthy (current_number c) && PyStr.truthy (operation c)
              && PyStr.truthy (previous_number c)); reflexivity.
  - cbn [andb fold_left].
    repeat match goal with
           | |- context [if ?x then _ else _] => destruct x
           | |- context [match ?x with Ok _ => _ | Raise _ => _ end] => destruct x
           end; reflexivity.
Qed.

Lemma history_press_keep_last (b : string) (c : calc_state) (rec : list string) :
  history c = keep_last 10 rec ->
  history (press b c) = keep_last 10 (rec ++ recorded_by b c)%list.
Proof.
  intros H. rewrite history_press, H. unfold recorded_by.
  destruct (String.eqb b "=" && PyStr.truthy (current_number c)
            && PyStr.truthy (operation c) && PyStr.truthy (previous_number c)).
  - cbn [fold_left]. apply history_append_keep_last.
  - cbn [fold_left]. now rewrite app_nil_r.
Qed.

Lemma history_press_all (bs : list string) (c : calc_state) (rec : list string) :
  history c = keep_last 10 rec ->
  history (press_all bs c) = keep_last 10 (rec ++ recorded bs c)%list.
Proof.
  revert c rec. induction bs as [| b bs IH]; intros c rec H.
  - cbn [press_all fold_left recorded]. now rewrite app_nil_r.
  - cbn [recorded]. rewrite app_assoc.
    change (press_all (b :: bs) c) with (press_all bs (press b c)).
    apply IH. now apply history_press_keep_last.
Qed.

Lemma keep_last_length {A : Type} (n : nat) (l : list A) :
  (List.length (keep_last n l) <= n)%nat.
Proof. unfold keep_last. rewrite length_skipn. lia. Qed.

(** Ten successful evaluations, then [5 ÷ 0 =], which fails, then an
    eleventh success: twelve entries were recorded, the failed one among
    them, and the log holds the 3rd to the 12th. *)
Lemma failed_evaluation_is_logged :
  successes (["1"; "+"; "1"; "="] ++ List.concat (repeat ["+"; "1"; "="] 9)
             ++ ["5"; "÷"; "del"; "0"; "="] ++ ["2"; "+"; "1"; "="]) init_calc = 11%nat
  /\ List.length
       (recorded (["1"; "+"; "1"; "="] ++ List.concat (repeat ["+"; "1"; "="] 9)
                  ++ ["5"; "÷"; "del"; "0"; "="] ++ ["2"; "+"; "1"; "="]) init_calc) = 12%nat
  /\ In "5 ÷ 0 = Error"
        (history
           (press_all (["1"; "+"; "1"; "="] ++ List.concat (repeat ["+"; "1"; "="] 9)
                       ++ ["5"; "÷"; "del"; "0"; "="] ++ ["2"; "+"; "1"; "="]) init_calc))
  /\ history
       (press_all (["1"; "+"; "1"; "="] ++ List.concat (repeat ["+"; "1"; "="] 9)
                   ++ ["5"; "÷"; "del"; "0"; "="] ++ ["2"; "+"; "1"; "="]) init_calc)
     = skipn 2
         (recorded (["1"; "+"; "1"; "="] ++ List.concat (repeat ["+"; "1"; "="] 9)
                    ++ ["5"; "÷"; "del"; "0"; "="] ++ ["2"; "+"; "1"; "="]) init_calc)
  /\ history
       (press_all (["1"; "+"; "1"; "="] ++ List.concat (repeat ["+"; "1"; "="] 9)
                   ++ ["5"; "÷"; "del"; "0"; "="] ++ ["2"; "+"; "1"; "="]) init_calc)
     <> firstn 10
          (tl (recorded (["1"; "+"; "1"; "="] ++ List.concat (repeat ["+"; "1"; "="] 9)
                         ++ ["5"; "÷"; "del"; "0"; "="] ++ ["2"; "+"; "1"; "="]) init_calc)).
Proof.
  split; [vm_compute; reflexivity|]. split; [vm_compute; reflexivity|].
  split; [vm_compute; tauto|]. split; [vm_compute; reflexivity|].
  vm_compute. discriminate.
Qed.

Lemma keep_last_short {A : Type} (n : nat) (l : list A) :
  (List.length l <= n)%nat -> keep_last n l = l.
Proof.
  intros H. unfold keep_last.
  replace (List.length l - n)%nat with 0%nat by lia. reflexivity.
Qed.

Lemma keep_last_full {A : Type} (n : nat) (l : list A) :
  (n <= List.length l)%nat -> List.length (keep_last n l) = n.
Proof. intros H. unfold keep_last. rewrite length_skipn. lia. Qed.

(** C4, amended.  An [=] that evaluates appends its entry, the result
    being the error marker or not, and keeps the last ten; no other
    activation touches the log.  So after any run of activations the log
    holds at most 10 entries, namely the last 10 of the entries recorded so
    far in their order: ten of them as soon as ten were recorded, and once
    11 entries have been recorded the first one is gone and the log is
    exactly the 2nd to the 11th. *)
Theorem history_keeps_last_ten (bs : list string) :
  (forall c : calc_state,
      evaluates c = true -> (List.length (history c) <= 10)%nat ->
      history (press "=" c) = keep_last 10 (history c ++ [entry c])
      /\ last (history (press "=" c)) "" = entry c)
  /\ (forall (b : string) (c : calc_state),
         b <> "=" \/ evaluates c = false -> history (press b c) = history c)
  /\ (List.length (history (press_all bs init_calc)) <= 10)%nat
  /\ history (press_all bs init_calc) = keep_last 10 (recorded bs init_calc)
  /\ ((10 <= List.length (recorded bs init_calc))%nat ->
      List.length (history (press_all bs init_calc)) = 10%nat)
  /\ (List.length (recorded bs init_calc) = 11%nat ->
      history (press_all bs init_calc) = tl (recorded bs init_calc)).
Proof.
  assert (E : history (press_all bs init_calc) = keep_last 10 (recorded bs init_calc)).
  { apply (history_press_all bs init_calc []). reflexivity. }
  split; [| split; [| split; [| split; [| split]]]].
  - intros c Hev Hlen.
    assert (Hh : history (press "=" c) = keep_last 10 (history c ++ [entry c])).
    { rewrite (history_press_keep_last "=" c (history c)) by (symmetry; now apply keep_last_short).
      unfold recorded_by, entry. unfold evaluates in Hev.
      change (String.eqb "=" "=") with true. cbn [andb]. now rewrite Hev. }
    split; [exact Hh|]. rewrite Hh. unfold keep_last.
    rewrite length_app. cbn [List.length].
    rewrite <- skipn_snoc by lia. apply last_last.
  - intros b c Hb. rewrite history_press. unfold recorded_by.
    destruct (String.eqb_spec b "=") as [-> | Hne].
    + destruct Hb as [Hb | Hb]; [contradiction|]. unfold evaluates in Hb.
      cbn [andb]. now rewrite Hb.
    + reflexivity.
  - rewrite E. apply keep_last_length.
  - exact E.
  - intros H. rewrite E. now apply keep_last_full.
  - intros H. rewrite E. unfold keep_last. rewrite H.
    change (11 - 10)%nat with 1%nat. destruct (recorded bs init_calc); reflexivity.
Qed.

(** Eleven evaluations in a row: 1 + 1 =, and ten times + 1 =. *)
Lemma history_keeps_last_ten_witness :
  history (press_all (["1"; "+"; "1"; "="]
                      ++ List.concat (repeat ["+"; "1"; "="] 10)) init_calc)
  = tl (recorded (["1"; "+"; "1"; "="]
                  ++ List.concat (repeat ["+"; "1"; "="] 10)) init_calc)
  /\ List.length
       (history (press_all (["1"; "+"; "1"; "="]
                            ++ List.concat (repeat ["+"; "1"; "="] 10)) init_calc)) = 10%nat
  /\ hd "" (history (press_all (["1"; "+"; "1"; "="]
                               ++ List.concat (repeat ["+"; "1"; "="] 10)) init_calc))
     = "12 + 121 = 133".
Proof.
  split; [| split; [| vm_compute; reflexivity]].
  - apply (history_keeps_last_ten
             (["1"; "+"; "1"; "="] ++ List.concat (repeat ["+"; "1"; "="] 10))).
    vm_compute. reflexivity.
  - apply (proj1 (proj2 (proj2 (proj2 (proj2 (history_keeps_last_ten
             (["1"; "+"; "1"; "="] ++ List.concat (repeat ["+"; "1"; "="] 10)))))))).
    vm_compute. lia.
Defined.

(** ** Debouncing *)

Lemma observe_sample_cases (s : sample) (a : calculator) :
  (emitted s a = false /\ observe_sample s a = a)
  \/ (emitted s a = true
      /\ isPointing s = true
      /\ (exists b, candidate s = Some b /\ b <> ""
                    /\ calc (observe_sample s a) = press b (calc a)
                    /\ stdout (observe_sample s a) = (stdout a ++ [printed b])%list)
      /\ in_cooldown (now s) a = false
      /\ last_touch_time (observe_sample s a) = now s).
Proof.
  unfold emitted, observe_sample, observe.
  destruct (candidate s) as [b |]; [| left; split; [now rewrite Nat.eqb_refl | reflexivity]].
  destruct (isPointing s); [| left; split; [now rewrite Nat.eqb_refl | reflexivity]].
  destruct b as [| ch r]; [left; split; [now rewrite Nat.eqb_refl | reflexivity]|].
  cbn [PyStr.truthy andb].
  destruct (in_cooldown (now s) a) eqn:Hc.
  - left. rewrite (process_dropped _ _ _ Hc). split; [now rewrite Nat.eqb_refl | reflexivity].
  - right. destruct (process_accepted (now s) (String ch r) a Hc) as (Hp & Hl & Ho).
    rewrite Ho, length_app. cbn [List.length].
    split; [apply negb_true_iff, Nat.eqb_neq; lia|].
    split; [reflexivity|].
    split; [exists (String ch r); repeat split; auto; discriminate|].
    split; [reflexivity | exact Hl].
Qed.

(** With readings that are doubles, every activation of a run comes more
    than the edge after the stamp the run started with, and the
    activations are pairwise more than the edge apart, in the order of
    emission; counted in units of [2^-1074]. *)
Lemma activations_spaced (ss : list sample) (a : calculator) :
  Forall (fun s => PyFloat.is_double (now s) = true) ss ->
  PyFloat.is_double (last_touch_time a) = true ->
  Forall (fun e => PyFloat.is_double (fst e) = true
                   /\ 10808639105689189 * 2 ^ 1020
                      < 2 * (PyFloat.ticks (fst e) - PyFloat.ticks (last_touch_time a)))
         (activations ss a)
  /\ ForallOrdPairs (fun e1 e2 => 10808639105689189 * 2 ^ 1020
                                  < 2 * (PyFloat.ticks (fst e2) - PyFloat.ticks (fst e1)))
                    (activations ss a).
Proof.
  pose proof edge_pos as HT. set (T := 10808639105689189 * 2 ^ 1020) in *.
  intros Hss. revert a. induction Hss as [| s ss Hs Hss IH]; intros a Ha.
  - split; constructor.
  - cbn [activations].
    destruct (observe_sample_cases s a) as [(He & Hsame) | (He & _ & _ & Hc & Hl)];
      rewrite He.
    + rewrite Hsame. apply IH. exact Ha.
    + pose proof (in_cooldown_ticks (now s) a Hs Ha Hc) as Hgap. fold T in Hgap.
      assert (Ha' : PyFloat.is_double (last_touch_time (observe_sample s a)) = true)
        by (rewrite Hl; exact Hs).
      destruct (IH (observe_sample s a) Ha') as [IH1 IH2]. rewrite Hl in IH1.
      cbn [List.app]. split.
      * constructor; [cbn [fst]; split; [exact Hs | exact Hgap]|].
        revert IH1. apply Forall_impl. intros e [Hd H]. split; [exact Hd|].
        clearbody T. lia.
      * constructor; [| exact IH2].
        revert IH1. apply Forall_impl. intros e [_ H]. cbn [fst]. exact H.
Qed.

(** Two samples at the doubles 0.3 and 0.6 are both emitted, less than
    3/10 apart. *)
Lemma two_activations_within_300ms :
  activations [mk_sample true (Some "7") (double_of "0.3");
               mk_sample true (Some "7") (double_of "0.6")] init
  = [(double_of "0.3", Some "7"); (double_of "0.6", Some "7")]
  /\ (PyFloat.value (double_of "0.3") < PyFloat.value (double_of "0.6"))%Q
  /\ (PyFloat.value (double_of "0.6") - PyFloat.value (double_of "0.3") < 3 # 10)%Q.
Proof.
  split; [vm_compute; reflexivity|]. split; vm_compute; reflexivity.
Qed.

(** C5, amended.  In any run of samples whose clock readings are doubles,
    from any state whose stamp is one, two emitted activations at times
    [t1 < t2] are more than [cooldown_edge] (0.29999999999999996 s) apart,
    and at least 3/10 s apart when [t1] is one second or more, however
    many samples lie between them and whatever they hold; and a sample
    emits only when the gesture is a pointing one, a button is under the
    finger, and the difference to the last stamp is not below the double
    0.3, that is, more than [cooldown_edge] has passed. *)
Theorem debounce_one_per_cooldown (ss : list sample) (a : calculator) :
  Forall (fun s => PyFloat.is_double (now s) = true) ss ->
  PyFloat.is_double (last_touch_time a) = true ->
  (forall e1 e2 : PyFloat.float * option string,
      In e1 (activations ss a) -> In e2 (activations ss a) ->
      (PyFloat.value (fst e1) < PyFloat.value (fst e2))%Q ->
      (cooldown_edge < PyFloat.value (fst e2) - PyFloat.value (fst e1))%Q
      /\ ((1 <= PyFloat.value (fst e1))%Q ->
          (3 # 10 <= PyFloat.value (fst e2) - PyFloat.value (fst e1))%Q))
  /\ (forall (s : sample) (a' : calculator),
      emitted s a' = true ->
      isPointing s = true
      /\ (exists b, candidate s = Some b /\ b <> "")
      /\ PyFloat.ltb (PyFloat.sub (now s) (last_touch_time a')) touch_cooldown = false
      /\ (PyFloat.is_double (now s) = true ->
          PyFloat.is_double (last_touch_time a') = true ->
          (cooldown_edge < PyFloat.value (now s) - PyFloat.value (last_touch_time a'))%Q)).
Proof.
  intros Hss Ha. split.
  - intros e1 e2 H1 H2 Hlt.
    destruct (activations_spaced ss a Hss Ha) as [Hd Hp].
    rewrite Forall_forall in Hd.
    destruct (Hd e1 H1) as [D1 _]. destruct (Hd e2 H2) as [D2 _].
    apply value_lt in Hlt.
    assert (Hgap : 10808639105689189 * 2 ^ 1020
                   < 2 * (PyFloat.ticks (fst e2) - PyFloat.ticks (fst e1))).
    { pose proof edge_pos as HT.
      destruct (ForallOrdPairs_In Hp e1 e2 H1 H2) as [E | [Hp12 | Hp21]].
      - subst e2. lia.
      - exact Hp12.
      - lia. }
    split.
    + unfold cooldown_edge. apply value_diff_lt. apply Z.nle_gt. intros C.
      apply edge_ticks in C. lia.
    + intros Hone. apply value_ge_1 in Hone.
      destruct (double_grid _ D1 Hone) as [k1 E1].
      destruct (double_grid _ D2 ltac:(lia)) as [k2 E2].
      apply value_diff_ge. rewrite E1, E2 in *.
      replace (k2 * 2 ^ 1022 - k1 * 2 ^ 1022) with ((k2 - k1) * 2 ^ 1022) in * by ring.
      apply edge_grid. exact Hgap.
  - intros s a' He.
    destruct (observe_sample_cases s a') as [(He' & _) | (_ & Hp & (b & Hb & Hne & _) & Hc & _)].
    + rewrite He in He'. discriminate He'.
    + split; [exact Hp|]. split; [exists b; split; assumption|].
      split; [exact Hc|].
      intros Hs Ha'. apply Qnot_le_lt. intros C.
      apply (in_cooldown_exact (now s) a' Hs Ha') in C. rewrite Hc in C. discriminate C.
Qed.

(** The finger stays on [7] through five samples about 0.1 s apart: the
    first and the fifth are emitted, the fourth coming a little less than
    0.3 s after the first. *)
Lemma debounce_one_per_cooldown_witness :
  activations [mk_sample true (Some "7") (double_of "1700000000.0");
               mk_sample true (Some "7") (double_of "1700000000.1");
               mk_sample true (Some "7") (double_of "1700000000.2");
               mk_sample true (Some "7") (double_of "1700000000.3");
               mk_sample true (Some "7") (double_of "1700000000.4")] init
  = [(double_of "1700000000.0", Some "7"); (double_of "1700000000.4", Some "7")]
  /\ (3 # 10 <= PyFloat.value (double_of "1700000000.4")
                 - PyFloat.value (double_of "1700000000.0"))%Q.
Proof.
  split; [vm_compute; reflexivity|].
  refine (proj2 (proj1 (debounce_one_per_cooldown
           [mk_sample true (Some "7") (double_of "1700000000.0");
            mk_sample true (Some "7") (double_of "1700000000.1");
            mk_sample true (Some "7") (double_of "1700000000.2");
            mk_sample true (Some "7") (double_of "1700000000.3");
            mk_sample true (Some "7") (double_of "1700000000.4")] init _ _)
           (double_of "1700000000.0", Some "7") (double_of "1700000000.4", Some "7")
           _ _ _) _).
  - repeat constructor.
  - reflexivity.
  - vm_compute. left. reflexivity.
  - vm_compute. right. left. reflexivity.
  - vm_compute. reflexivity.
  - vm_compute. discriminate.
Defined.

(** ** Digit entry *)

Lemma contains_error_digits (s : string) :
  PyStr.all_digits s = true -> PyStr.contains "Error" s = false.
Proof.
  induction s as [| ch r IH]; [reflexivity|].
  cbn [PyStr.all_digits]. intros H. apply andb_true_iff in H as [Hd Hr].
  cbn [PyStr.contains]. rewrite (IH Hr), orb_false_r.
  cbn [prefix]. destruct (ascii_dec "E" ch) as [<- | Hne]; [discriminate Hd | reflexivity].
Qed.

Lemma isdigit_key (ch : ascii) : PyStr.is_digit ch = true -> PyStr.isdigit (key ch) = true.
Proof. intros H. unfold PyStr.isdigit, key. cbn. now rewrite H. Qed.

Lemma all_digits_app (s t : string) :
  PyStr.all_digits (s ++ t) = PyStr.all_digits s && PyStr.all_digits t.
Proof.
  induction s as [| ch r IH]; [reflexivity|].
  cbn. rewrite IH. apply andb_assoc.
Qed.

Lemma length_append (s t : string) : length (s ++ t) = (length s + length t)%nat.
Proof. induction s as [| ch r IH]; cbn; [reflexivity | now rewrite IH]. Qed.

Lemma append_assoc (s t u : string) : (s ++ t) ++ u = s ++ (t ++ u).
Proof. induction s as [| ch r IH]; cbn; [reflexivity | now rewrite IH]. Qed.

Lemma take_append_full (n : nat) (s t : string) :
  length s = n -> PyStr.take n (s ++ t) = s.
Proof.
  revert s. induction n as [| n IH]; intros [| ch r] H; try discriminate H.
  - destruct t; reflexivity.
  - cbn. f_equal. apply IH. now injection H.
Qed.

(** A digit pressed while a number other than [0] is being typed. *)
Lemma press_digit_typing (ch : ascii) (c : calc_state) :
  PyStr.is_digit ch = true ->
  just_calculated c = false ->
  PyStr.all_digits (display c) = true ->
  display c <> "0" ->
  display (press (key ch) c)
  = (if (length (display c) <? 12)%nat then display c ++ key ch else display c)
  /\ just_calculated (press (key ch) c) = false.
Proof.
  intros Hd Hj Ha Hz. unfold press. rewrite (isdigit_key ch Hd), Hj.
  rewrite (contains_error_digits _ Ha).
  destruct (String.eqb_spec (display c) "0") as [E | _]; [contradiction|].
  cbn [orb display just_calculated]. split; reflexivity.
Qed.

Lemma typing_digits (ds : list ascii) (c : calc_state) :
  Forall (fun ch => PyStr.is_digit ch = true) ds ->
  just_calculated c = false ->
  PyStr.all_digits (display c) = true ->
  display c <> "0" -> display c <> "" ->
  (length (display c) <= 12)%nat ->
  display (press_all (map key ds) c)
  = PyStr.take 12 (display c ++ string_of_list_ascii ds).
Proof.
  intros Hds. revert c. induction Hds as [| ch ds Hd Hds IH]; intros c Hj Ha Hz He Hl.
  - cbn [map press_all fold_left string_of_list_ascii].
    destruct (Nat.eq_dec (length (display c)) 12) as [E | E].
    + now rewrite take_append_full.
    + replace (display c ++ "") with (display c)
        by (clear; induction (display c); cbn; congruence).
      clear - Hl. revert Hl. generalize 12%nat.
      induction (display c) as [| x r IHs]; intros [| n] H; cbn in *; try reflexivity;
        try lia. f_equal. apply IHs. lia.
  - change (press_all (map key (ch :: ds)) c)
      with (press_all (map key ds) (press (key ch) c)).
    destruct (press_digit_typing ch c Hd Hj Ha Hz) as [Hdisp Hj'].
    destruct (Nat.ltb_spec (length (display c)) 12) as [Hlt | Hge].
    + rewrite IH; rewrite ?Hdisp; auto.
      * cbn [string_of_list_ascii]. now rewrite append_assoc.
      * rewrite all_digits_app, Ha. cbn. now rewrite Hd.
      * destruct (display c); [contradiction | destruct s; discriminate].
      * destruct (display c); discriminate.
      * rewrite length_append. cbn. lia.
    + assert (E : length (display c) = 12%nat) by lia.
      rewrite IH; rewrite ?Hdisp; auto.
      now rewrite !take_append_full.
Qed.

(** Leading zeros are typed over. *)
Lemma press_digit_on_zero (ch : ascii) (c : calc_state) :
  PyStr.is_digit ch = true ->
  just_calculated c = false ->
  display c = "0" ->
  display (press (key ch) c) = key ch /\ just_calculated (press (key ch) c) = false.
Proof.
  intros Hd Hj Hz. unfold press. rewrite (isdigit_key ch Hd), Hj, Hz.
  cbn [String.eqb orb display just_calculated]. split; reflexivity.
Qed.

(** [0] then [5] shows 5, not 05. *)
Lemma leading_zero_is_replaced :
  display (press_all [key "0"; key "5"] init_calc) = "5"
  /\ display (press_all [key "0"; key "5"] init_calc)
     <> PyStr.take 12 (key "0" ++ key "5").
Proof. split; [vm_compute; reflexivity | vm_compute; discriminate]. Qed.

(** C6, amended.  Digits typed into a calculator that shows [0] and has
    not just evaluated give the display the concatenation of those digits
    with the leading zeros dropped ([0] when nothing is left), cut at 12
    characters; this holds for runs of any length. *)
Theorem digits_fill_display (ds : list ascii) (c : calc_state) :
  Forall (fun ch => PyStr.is_digit ch = true) ds ->
  just_calculated c = false ->
  display c = "0" ->
  display (press_all (map key ds) c) = typed_number ds.
Proof.
  intros Hds. revert c. induction Hds as [| ch ds Hd Hds IH]; intros c Hj Hz.
  - exact Hz.
  - change (press_all (map key (ch :: ds)) c)
      with (press_all (map key ds) (press (key ch) c)).
    destruct (press_digit_on_zero ch c Hd Hj Hz) as [Hdisp Hj'].
    unfold typed_number. cbn [drop_zeros].
    destruct (Ascii.eqb_spec ch "0") as [-> | Hne].
    + apply IH; assumption.
    + rewrite typing_digits; rewrite ?Hdisp; auto.
      * cbn. now rewrite Hd.
      * unfold key. congruence.
      * discriminate.
      * cbn. lia.
Qed.

Lemma digits_fill_display_witness :
  display (press_all (map key (list_ascii_of_string "0012345678901234")) init_calc)
  = "123456789012".
Proof.
  rewrite (digits_fill_display (list_ascii_of_string "0012345678901234") init_calc).
  - vm_compute. reflexivity.
  - repeat constructor.
  - reflexivity.
  - reflexivity.
Defined.

(** ** Hit test *)

Lemma ltb_trans (x y z : PyFloat.float) :
  PyFloat.ltb x y = true -> PyFloat.ltb y z = true -> PyFloat.ltb x z = true.
Proof.
  unfold PyFloat.ltb, SFltb, SFcompare.
  change (Pos.compare_cont Eq) with Pos.compare.
  destruct x as [sx|sx| |sx mx ex], y as [sy|sy| |sy my ey], z as [sz|sz| |sz mz ez];
    try discriminate;
    try (destruct sx; try discriminate); try (destruct sy; try discriminate);
    try (destruct sz; try discriminate); try reflexivity; try discriminate.
  all: destruct (Z.compare_spec ex ey), (Z.compare_spec ey ez), (Z.compare_spec ex ez);
    try discriminate; try reflexivity; try lia; subst.
  all: destruct (Pos.compare_spec mx my), (Pos.compare_spec my mz), (Pos.compare_spec mx mz);
    simpl; try discriminate; try reflexivity; try lia.
Qed.

Lemma ltb_irrefl (x : PyFloat.float) : PyFloat.ltb x x = false.
Proof.
  unfold PyFloat.ltb, SFltb, SFcompare.
  change (Pos.compare_cont Eq) with Pos.compare.
  destruct x as [s|s| |s m e]; try reflexivity; try (destruct s; reflexivity).
  destruct s; rewrite Z.compare_refl, Pos.compare_refl; reflexivity.
Qed.

Lemma ltb_asym (x y : PyFloat.float) :
  PyFloat.ltb x y = true -> PyFloat.ltb y x = false.
Proof.
  intros H. destruct (PyFloat.ltb y x) eqn:E; [| reflexivity].
  rewrite <- (ltb_irrefl x). symmetry. exact (ltb_trans x y x H E).
Qed.

(** A distance below the radius is below [float('inf')]. *)
Lemma lt_int_ltb_inf (d : PyFloat.float) (n : Z) :
  lt_int d n = true -> PyFloat.ltb d PyFloat.inf = true.
Proof. destruct d as [s|s| |s m e]; try discriminate; try reflexivity. destruct s; [reflexivity | discriminate]. Qed.

Lemma calculate_distance_ok (p q : point) :
  dist2 p q < 2 ^ 1024 - 2 ^ 970 ->
  exists d, calculate_distance p q = Ok d.
Proof.
  intros H. unfold calculate_distance, PyFloat.of_int.
  fold (dist2 p q).
  assert (0 <= dist2 p q) by (unfold dist2; nia).
  rewrite Z.abs_eq by assumption.
  destruct (Z.leb_spec (2 ^ 1024 - 2 ^ 970) (dist2 p q)); [lia|].
  cbn [bind]. eauto.
Qed.

Lemma no_overflow_check (p : point) (bs : buttons_t) :
  forallb (fun kv => dist2 p (center (snd kv)) <? 2 ^ 1024 - 2 ^ 970) bs = true ->
  no_overflow p bs.
Proof.
  intros H. apply Forall_forall. intros kv Hin.
  apply Z.ltb_lt. revert kv Hin. now apply forallb_forall.
Qed.

(** In the order of the floats that are numbers: what is not below [y] is
    above what is below [y]. *)
Lemma ltb_below (x y z : PyFloat.float) :
  PyFloat.ltb x y = true -> PyFloat.ltb z y = false -> z <> S754_nan ->
  PyFloat.ltb x z = true.
Proof.
  unfold PyFloat.ltb, SFltb, SFcompare.
  change (Pos.compare_cont Eq) with Pos.compare.
  destruct x as [sx|sx| |sx mx ex], y as [sy|sy| |sy my ey], z as [sz|sz| |sz mz ez];
    intros H1 H2 Hn; try discriminate; try congruence;
    try (destruct sx; try discriminate); try (destruct sy; try discriminate);
    try (destruct sz; try discriminate); try reflexivity; try discriminate.
  all: revert H1 H2;
    destruct (Z.compare_spec ex ey), (Z.compare_spec ez ey), (Z.compare_spec ex ez);
    try discriminate; try reflexivity; try lia; subst.
  all: destruct (Pos.compare_spec mx my), (Pos.compare_spec mz my), (Pos.compare_spec mx mz);
    simpl; try discriminate; try reflexivity; try lia.
Qed.

Lemma lt_int_not_nan (d : PyFloat.float) (n : Z) : lt_int d n = true -> d <> S754_nan.
Proof. intros H E. subst d. discriminate H. Qed.

Lemma candidate_distance (p : point) (data : button_data) (d d' : PyFloat.float) :
  is_candidate p data d -> is_candidate p data d' -> d' = d.
Proof. intros (_ & H & _) (_ & H' & _). congruence. Qed.

(** The loop returns normally.  It keeps the running button when no
    candidate is below the running minimum; otherwise it returns the
    first of the nearest candidates: a candidate below the running
    minimum, with every candidate before it farther and no candidate
    after it nearer. *)
Lemma touch_loop_first (p : point) (bs : buttons_t) :
  no_overflow p bs ->
  forall (t : option string) (m : PyFloat.float),
  exists r bs',
    touch_loop p bs t m = Ok (r, bs')
    /\ ((r = t
         /\ forall k data d, In (k, data) bs -> is_candidate p data d ->
                             PyFloat.ltb d m = false)
        \/ (exists pre k data post d,
              bs = (pre ++ (k, data) :: post)%list /\ r = Some k
              /\ is_candidate p data d /\ PyFloat.ltb d m = true
              /\ (forall k' data' d', In (k', data') pre -> is_candidate p data' d' ->
                                      PyFloat.ltb d d' = true)
              /\ (forall k' data' d', In (k', data') post -> is_candidate p data' d' ->
                                      PyFloat.ltb d' d = false))).
Proof.
  intros Hb. induction Hb as [| [k data] rest Hk Hrest IH]; intros t m.
  - exists t, []. split; [reflexivity|]. left. split; [reflexivity|]. intros ? ? ? [].
  - cbn [snd] in Hk. cbn [touch_loop].
    destruct (is_point_in_rect p (rect data)) eqn:Hin.
    + destruct (calculate_distance_ok p (center data) Hk) as [d Hd].
      rewrite Hd. cbn [bind].
      destruct (lt_int d touch_threshold && PyFloat.ltb d m) eqn:Hc.
      * apply andb_true_iff in Hc as [Hr Hlt].
        assert (Hcand : is_candidate p data d) by (split; [exact Hin | split; assumption]).
        destruct (IH (Some k) d) as (r & bs' & Hl & Hcase).
        rewrite Hl. cbn [bind fst snd].
        exists r, ((k, set_hover true data) :: bs').
        split; [reflexivity|]. right.
        destruct Hcase as [[-> Hnone]
                          | (pre & k2 & data2 & post & d2 & -> & -> & Hc2 & Hlt2 & Hpre & Hpost)].
        -- exists [], k, data, rest, d.
           split; [reflexivity|]. split; [reflexivity|]. split; [exact Hcand|].
           split; [exact Hlt|]. split; [intros ? ? ? [] | exact Hnone].
        -- exists ((k, data) :: pre), k2, data2, post, d2.
           split; [reflexivity|]. split; [reflexivity|]. split; [exact Hc2|].
           split; [exact (ltb_trans _ _ _ Hlt2 Hlt)|]. split; [| exact Hpost].
           intros k' data' d' [E | Hin'] Hc'.
           ++ injection E as <- <-. rewrite (candidate_distance p data d d' Hcand Hc').
              exact Hlt2.
           ++ exact (Hpre k' data' d' Hin' Hc').
      * destruct (IH t m) as (r & bs' & Hl & Hcase).
        rewrite Hl. cbn [bind fst snd].
        exists r, ((k, set_hover false data) :: bs').
        split; [reflexivity|].
        assert (Hhead : forall d', is_candidate p data d' -> PyFloat.ltb d' m = false).
        { intros d' (_ & Hd' & Hr'). rewrite Hd in Hd'. injection Hd' as <-.
          rewrite Hr' in Hc. exact Hc. }
        destruct Hcase as [[-> Hnone]
                          | (pre & k2 & data2 & post & d2 & -> & -> & Hc2 & Hlt2 & Hpre & Hpost)].
        -- left. split; [reflexivity|].
           intros k' data' d' [E | Hin'] Hc'.
           ++ injection E as <- <-. exact (Hhead d' Hc').
           ++ exact (Hnone k' data' d' Hin' Hc').
        -- right. exists ((k, data) :: pre), k2, data2, post, d2.
           split; [reflexivity|]. split; [reflexivity|]. split; [exact Hc2|].
           split; [exact Hlt2|]. split; [| exact Hpost].
           intros k' data' d' [E | Hin'] Hc'.
           ++ injection E as <- <-.
              apply (ltb_below d2 m d' Hlt2 (Hhead d' Hc')).
              destruct Hc' as (_ & _ & Hr'). exact (lt_int_not_nan d' _ Hr').
           ++ exact (Hpre k' data' d' Hin' Hc').
    + destruct (IH t m) as (r & bs' & Hl & Hcase).
      rewrite Hl. cbn [bind fst snd].
      exists r, ((k, set_hover false data) :: bs').
      split; [reflexivity|].
      assert (Hhead : forall d', ~ is_candidate p data d').
      { intros d' (Hin' & _). congruence. }
      destruct Hcase as [[-> Hnone]
                        | (pre & k2 & data2 & post & d2 & -> & -> & Hc2 & Hlt2 & Hpre & Hpost)].
      * left. split; [reflexivity|].
        intros k' data' d' [E | Hin'] Hc'.
        -- injection E as <- <-. destruct (Hhead d' Hc').
        -- exact (Hnone k' data' d' Hin' Hc').
      * right. exists ((k, data) :: pre), k2, data2, post, d2.
        split; [reflexivity|]. split; [reflexivity|]. split; [exact Hc2|].
        split; [exact Hlt2|]. split; [| exact Hpost].
        intros k' data' d' [E | Hin'] Hc'.
        -- injection E as <- <-. destruct (Hhead d' Hc').
        -- exact (Hpre k' data' d' Hin' Hc').
Qed.

(** On the layout of a 1280 x 720 frame the point (970, 230) lies in the
    rectangle of [C], exactly 30 from its centre, which is not farther than
    the radius; the hit test returns no button. *)
Lemma radius_itself_is_outside :
  is_point_in_rect (970, 230) (900, 200, 980, 260) = true
  /\ In ("C", mk_button (900, 200, 980, 260) (940, 230) false false)
        (setup_buttons 1280 720)
  /\ calculate_distance (970, 230) (940, 230)
     = Ok (S754_finite false 8444249301319680 (-48))
  /\ PyFloat.eq_int (S754_finite false 8444249301319680 (-48)) 30 = true
  /\ PyFloat.gt_int (S754_finite false 8444249301319680 (-48)) 30 = false
  /\ touched (detect_button_touch (setup_buttons 1280 720) (Some (970, 230))) = Ok None.
Proof.
  split; [reflexivity|]. split; [left; reflexivity|].
  repeat split; vm_compute; reflexivity.
Qed.

(** C7, amended.  For a layout and a point whose squared distances to the
    centres a float can hold, the hit test returns normally.  It returns no
    button exactly when no button is a candidate, a candidate being a
    button whose rectangle contains the point and whose centre is at a
    distance below 30 (a centre at 30 or more is discarded); otherwise it
    returns the first of the nearest candidates in layout order: a
    candidate such that every candidate before it is farther and no
    candidate after it is nearer, so that no candidate at all is nearer.
    With no point it returns no button.  Of two candidates at different
    distances, so at 10 and 25, the nearer one is returned in either
    order, and of two candidates of which the second is not nearer the
    first is returned. *)
Theorem hit_test_nearest_below_radius :
  (forall (bs : buttons_t) (p : point),
      no_overflow p bs ->
      exists r,
        touched (detect_button_touch bs (Some p)) = Ok r
        /\ match r with
           | None =>
               forall k data d, In (k, data) bs -> ~ is_candidate p data d
           | Some k =>
               exists pre data post d,
                 bs = (pre ++ (k, data) :: post)%list
                 /\ is_candidate p data d
                 /\ (forall k' data' d',
                        In (k', data') pre -> is_candidate p data' d' ->
                        PyFloat.ltb d d' = true)
                 /\ (forall k' data' d',
                        In (k', data') post -> is_candidate p data' d' ->
                        PyFloat.ltb d' d = false)
                 /\ (forall k' data' d',
                        In (k', data') bs -> is_candidate p data' d' ->
                        PyFloat.ltb d' d = false)
           end)
  /\ (forall bs : buttons_t, touched (detect_button_touch bs None) = Ok None)
  /\ (forall (p : point) (k1 k2 : string) (b1 b2 : button_data)
             (d1 d2 : PyFloat.float),
         is_candidate p b1 d1 -> is_candidate p b2 d2 ->
         (PyFloat.ltb d1 d2 = true ->
          touched (detect_button_touch [(k1, b1); (k2, b2)] (Some p)) = Ok (Some k1)
          /\ touched (detect_button_touch [(k2, b2); (k1, b1)] (Some p)) = Ok (Some k1))
         /\ (PyFloat.ltb d2 d1 = false ->
             touched (detect_button_touch [(k1, b1); (k2, b2)] (Some p)) = Ok (Some k1))).
Proof.
  split; [| split].
  - intros bs p Hb. unfold detect_button_touch.
    destruct (touch_loop_first p bs Hb None PyFloat.inf) as (r & bs' & Hl & Hcase).
    exists r. rewrite Hl. split; [reflexivity|].
    destruct Hcase as [[-> Hnone] | (pre & k & data & post & d & E & -> & Hc & _ & Hpre & Hpost)].
    + intros k data d Hin Hc. pose proof (Hnone k data d Hin Hc) as H.
      destruct Hc as (_ & _ & Hr). rewrite (lt_int_ltb_inf d _ Hr) in H.
      discriminate H.
    + exists pre, data, post, d. split; [exact E|]. split; [exact Hc|].
      split; [exact Hpre|]. split; [exact Hpost|].
      intros k' data' d' Hin Hc'. rewrite E in Hin.
      apply in_app_or in Hin as [Hin | [Eq | Hin]].
      * apply ltb_asym. exact (Hpre k' data' d' Hin Hc').
      * injection Eq as <- <-. rewrite (candidate_distance p data d d' Hc Hc').
        apply ltb_irrefl.
      * exact (Hpost k' data' d' Hin Hc').
  - reflexivity.
  - intros p k1 k2 b1 b2 d1 d2 (Hi1 & Hd1 & Hr1) (Hi2 & Hd2 & Hr2). split.
    + intros Hlt.
      unfold touched, detect_button_touch. simpl touch_loop.
      rewrite Hi1, Hi2, Hd1, Hd2. cbn [bind].
      rewrite Hr1, Hr2, (lt_int_ltb_inf d1 _ Hr1), (lt_int_ltb_inf d2 _ Hr2).
      cbn [andb]. rewrite Hlt, (ltb_asym _ _ Hlt). split; reflexivity.
    + intros Hge.
      unfold touched, detect_button_touch. simpl touch_loop.
      rewrite Hi1, Hi2, Hd1, Hd2. cbn [bind].
      rewrite Hr1, Hr2, (lt_int_ltb_inf d1 _ Hr1). cbn [andb]. rewrite Hge. reflexivity.
Qed.

(** On the layout of a 1280 x 720 frame, a point 29 right of the centre of
    [C]; two overlapping rectangles with centres at 10 and 25 from the
    origin; and two at 25 both, of which the first is returned. *)
Lemma hit_test_nearest_below_radius_witness :
  (exists r,
      touched (detect_button_touch (setup_buttons 1280 720) (Some (969, 230))) = Ok r
      /\ r = Some "C")
  /\ touched (detect_button_touch
                [("far", mk_button (-40, -40, 60, 60) (7, 24) false false);
                 ("near", mk_button (-50, -50, 50, 50) (6, 8) false false)]
                (Some (0, 0))) = Ok (Some "near")
  /\ touched (detect_button_touch
                [("first", mk_button (-40, -40, 60, 60) (7, 24) false false);
                 ("second", mk_button (-50, -50, 50, 50) (24, 7) false false)]
                (Some (0, 0))) = Ok (Some "first").
Proof.
  split; [| split].
  - destruct (proj1 hit_test_nearest_below_radius (setup_buttons 1280 720) (969, 230))
      as (r & Hr & _).
    + apply no_overflow_check. vm_compute. reflexivity.
    + exists r. split; [exact Hr|].
      pose proof Hr as E. vm_compute in E. injection E as <-. reflexivity.
  - refine (proj1 (proj1 (proj2 (proj2 hit_test_nearest_below_radius) (0, 0) "near" "far"
             (mk_button (-50, -50, 50, 50) (6, 8) false false)
             (mk_button (-40, -40, 60, 60) (7, 24) false false)
             (S754_finite false 5629499534213120 (-49))
             (S754_finite false 7036874417766400 (-48)) _ _) _)).
    + repeat split; vm_compute; reflexivity.
    + repeat split; vm_compute; reflexivity.
    + reflexivity.
  - refine (proj2 (proj2 (proj2 hit_test_nearest_below_radius) (0, 0) "first" "second"
             (mk_button (-40, -40, 60, 60) (7, 24) false false)
             (mk_button (-50, -50, 50, 50) (24, 7) false false)
             (S754_finite false 7036874417766400 (-48))
             (S754_finite false 7036874417766400 (-48)) _ _) _).
    + repeat split; vm_compute; reflexivity.
    + repeat split; vm_compute; reflexivity.
    + reflexivity.
Defined.

(** * Further properties *)

(** ** Evaluation errors *)

Lemma is_operator_not_digit (op : string) :
  is_operator op = true ->
  PyStr.isdigit op = false /\ String.eqb op "." = false.
Proof.
  intros H. destruct (is_operator_cases op H) as [-> | [-> | [-> | ->]]];
    split; reflexivity.
Qed.

(** X1.  [calculate] yields the error marker whenever an operand does not
    parse, whenever the operator is not one of the four, and whenever the
    divisor of [÷] parses to a zero, however it is spelled. *)
Theorem calculate_error_cases (a b op : string) :
  (forall e, PyFloat.of_string a = Raise e -> calculate a op b = "Error")
  /\ (forall e, PyFloat.of_string b = Raise e -> calculate a op b = "Error")
  /\ (is_operator op = false -> calculate a op b = "Error")
  /\ (forall n1 n2, PyFloat.of_string a = Ok n1 -> PyFloat.of_string b = Ok n2 ->
                    is_zero n2 = true -> calculate a "÷" b = "Error").
Proof.
  unfold calculate, calculate_try. repeat split.
  - intros e H. now rewrite H.
  - intros e H. rewrite H. destruct (PyFloat.of_string a); reflexivity.
  - unfold is_operator. intros H.
    apply orb_false_iff in H as [H H4]. apply orb_false_iff in H as [H H3].
    apply orb_false_iff in H as [H1 H2]. rewrite H1, H2, H3, H4.
    destruct (PyFloat.of_string a); [| reflexivity].
    destruct (PyFloat.of_string b); reflexivity.
  - intros n1 n2 Ha Hb Hz. rewrite Ha, Hb. cbn [bind].
    change (String.eqb "÷" "+") with false. change (String.eqb "÷" "-") with false.
    change (String.eqb "÷" "×") with false. change (String.eqb "÷" "÷") with true.
    cbv iota. now rewrite eq_int_zero, Hz.
Qed.

Lemma calculate_error_cases_witness :
  calculate "-" "+" "1" = "Error" /\ calculate "1" "+" "1e" = "Error"
  /\ calculate "1" "%" "2" = "Error" /\ calculate "7" "÷" "-0.00" = "Error".
Proof.
  destruct (calculate_error_cases "-" "1" "+") as (H1 & _).
  destruct (calculate_error_cases "1" "1e" "+") as (_ & H2 & _).
  destruct (calculate_error_cases "1" "2" "%") as (_ & _ & H3 & _).
  destruct (calculate_error_cases "7" "-0.00" "÷") as (_ & _ & _ & H4).
  split; [| split; [| split]].
  - apply (H1 ValueError). vm_compute. reflexivity.
  - apply (H2 ValueError). vm_compute. reflexivity.
  - apply H3. reflexivity.
  - apply (H4 (S754_finite false 7881299347898368 (-50)) (S754_zero true));
      vm_compute; reflexivity.
Defined.

(** ** Sign *)

(** X2.  [±] pressed twice gives back the operand: from an operand that is
    not empty, not ["0"] and has no sign, the first press puts a minus sign
    in front on operand and display, and the second takes it off again. *)
Theorem plus_minus_twice (c : calc_state) :
  current_number c <> "" ->
  current_number c <> "0" ->
  PyStr.startswith "-" (current_number c) = false ->
  current_number (press "±" c) = "-" ++ current_number c
  /\ display (press "±" c) = "-" ++ current_number c
  /\ current_number (press "±" (press "±" c)) = current_number c
  /\ display (press "±" (press "±" c)) = current_number c.
Proof.
  intros Hne Hz Hs.
  assert (E : press "±" c
              = mk_calc ("-" ++ current_number c) (previous_number c) (operation c)
                        ("-" ++ current_number c) (history c) (just_calculated c)).
  { unfold press. change (PyStr.isdigit "±") with false.
    change (String.eqb "±" ".") with false. change (is_operator "±") with false.
    change (String.eqb "±" "=") with false. change (String.eqb "±" "C") with false.
    change (String.eqb "±" "del") with false. change (String.eqb "±" "±") with true.
    cbv iota. rewrite Hs.
    destruct (current_number c) as [| ch r]; [contradiction|].
    destruct (String.eqb_spec (String ch r) "0"); [contradiction | reflexivity]. }
  rewrite E. repeat split.
Qed.

Lemma plus_minus_twice_witness :
  current_number (press "±" (press "±" (press_all ["9"] init_calc))) = "9"
  /\ current_number (press "±" (press_all ["9"] init_calc)) = "-9".
Proof.
  destruct (plus_minus_twice (press_all ["9"] init_calc)) as (H1 & _ & H2 & _);
    [discriminate | discriminate | reflexivity |].
  split; [exact H2 | exact H1].
Defined.

(** ** Typing and deleting *)

Lemma press_key_typing (ch : ascii) (c : calc_state) :
  PyStr.is_digit ch = true ->
  just_calculated c = false ->
  press (key ch) c
  = let d := if String.eqb (display c) "0" || PyStr.contains "Error" (display c)
             then key ch
             else if (length (display c) <? 12)%nat then display c ++ key ch
                  else display c in
    mk_calc d (previous_number c) (operation c) d (history c) false.
Proof.
  intros Hd Hj. unfold press. rewrite (isdigit_key ch Hd), Hj. reflexivity.
Qed.

Lemma press_del (c : calc_state) :
  press "del" c
  = if negb (just_calculated c) && (1 <? length (display c))%nat then
      mk_calc (PyStr.drop_last (display c)) (previous_number c) (operation c)
              (PyStr.drop_last (display c)) (history c) (just_calculated c)
    else if (length (display c) =? 1)%nat then
      mk_calc "" (previous_number c) (operation c) "0" (history c) (just_calculated c)
    else c.
Proof. reflexivity. Qed.

Lemma drop_last_snoc (s : string) (ch : ascii) :
  PyStr.drop_last (s ++ key ch) = s.
Proof.
  induction s as [| a r IH]; [reflexivity|].
  cbn [append PyStr.drop_last]. rewrite IH.
  destruct r; reflexivity.
Qed.

(** X3.  A digit typed and then deleted leaves the display as it was: for
    a display that is neither empty nor ["0"], holds no error marker and is
    shorter than 12 characters, outside the state just after [=].  The
    operand then mirrors the display. *)
Theorem digit_then_del (c : calc_state) (ch : ascii) :
  PyStr.is_digit ch = true ->
  just_calculated c = false ->
  display c <> "" -> display c <> "0" ->
  PyStr.contains "Error" (display c) = false ->
  (length (display c) < 12)%nat ->
  display (press "del" (press (key ch) c)) = display c
  /\ current_number (press "del" (press (key ch) c)) = display c.
Proof.
  intros Hd Hj Hne Hz He Hl.
  rewrite (press_key_typing ch c Hd Hj), He.
  destruct (String.eqb_spec (display c) "0") as [E | _]; [contradiction|].
  destruct (Nat.ltb_spec (length (display c)) 12) as [_ | H]; [| lia].
  cbn [orb]. cbv zeta. rewrite press_del. cbn [just_calculated display negb andb].
  rewrite length_append. cbn [length key].
  destruct (Nat.ltb_spec 1 (length (display c) + 1)) as [_ | H].
  - cbn [display current_number]. rewrite drop_last_snoc. split; reflexivity.
  - destruct (display c); [contradiction | cbn [length] in H; lia].
Qed.

Lemma digit_then_del_witness :
  display (press "del" (press (key "7") (press_all ["4"; "2"] init_calc))) = "42".
Proof.
  refine (proj1 (digit_then_del (press_all ["4"; "2"] init_calc) "7"
                   eq_refl eq_refl _ _ eq_refl _)).
  - discriminate.
  - discriminate.
  - apply Nat.ltb_lt. reflexivity.
Defined.

(** ** After an evaluation *)

Lemma press_equals (c : calc_state) :
  PyStr.truthy (current_number c) && PyStr.truthy (operation c)
  && PyStr.truthy (previous_number c) = true ->
  press "=" c
  = let result := calculate (previous_number c) (operation c) (current_number c) in
    mk_calc (if negb (PyStr.contains "Error" result) then result else "") "" "" result
            (history_append
               (previous_number c ++ " " ++ operation c ++ " " ++ current_number c
                ++ " = " ++ result) (history c)) true.
Proof.
  intros H. unfold press. change (PyStr.isdigit "=") with false.
  change (String.eqb "=" ".") with false. change (is_operator "=") with false.
  change (String.eqb "=" "=") with true. cbv iota. now rewrite H.
Qed.

(** X4.  Right after an evaluated [=] the flag is set, the display is the
    result, a digit starts a new number in place of the result, [.] is
    ignored, and [del] is ignored unless the result is a single
    character. *)
Theorem after_equals (c : calc_state) :
  PyStr.truthy (current_number c) && PyStr.truthy (operation c)
  && PyStr.truthy (previous_number c) = true ->
  just_calculated (press "=" c) = true
  /\ display (press "=" c)
     = calculate (previous_number c) (operation c) (current_number c)
  /\ (forall b : string,
         PyStr.isdigit b = true ->
         press b (press "=" c)
         = mk_calc b "" "" b (history (press "=" c)) false)
  /\ press "." (press "=" c) = press "=" c
  /\ ((length (display (press "=" c)) <> 1)%nat ->
      press "del" (press "=" c) = press "=" c).
Proof.
  intros H. rewrite (press_equals c H). cbv zeta.
  split; [reflexivity|]. split; [reflexivity|]. split; [| split].
  - intros b Hb. unfold press at 1. rewrite Hb. reflexivity.
  - unfold press at 1. change (PyStr.isdigit ".") with false.
    change (String.eqb "." ".") with true. cbv iota.
    cbn [just_calculated negb]. now rewrite andb_false_r.
  - cbn [display]. intros Hl. rewrite press_del. cbn [just_calculated display negb andb].
    destruct (Nat.eqb_spec
                (length (calculate (previous_number c) (operation c) (current_number c))) 1);
      [contradiction | reflexivity].
Qed.

Lemma after_equals_witness :
  press "3" (press "=" (press_all ["7"; "×"; "2"] init_calc))
  = mk_calc "3" "" "" "3" ["7 × 72 = 504"] false
  /\ press "." (press "=" (press_all ["7"; "×"; "2"] init_calc))
     = press "=" (press_all ["7"; "×"; "2"] init_calc).
Proof.
  destruct (after_equals (press_all ["7"; "×"; "2"] init_calc)) as (_ & _ & H1 & H2 & _);
    [reflexivity|].
  split; [| exact H2].
  rewrite (H1 "3" eq_refl). vm_compute. reflexivity.
Defined.

(** ** Operators *)

Lemma press_operator (op : string) (c : calc_state) :
  is_operator op = true ->
  press op c
  = if PyStr.truthy (current_number c) then
      if PyStr.truthy (operation c) && PyStr.truthy (previous_number c) then
        let result := calculate (previous_number c) (operation c) (current_number c) in
        if negb (PyStr.contains "Error" result) then
          mk_calc "" result op result (history c) false
        else
          mk_calc (current_number c) (previous_number c) (operation c) result
                  (history c) (just_calculated c)
      else
        mk_calc "" (current_number c) op (display c) (history c) false
    else c.
Proof.
  intros H. destruct (is_operator_not_digit op H) as [H1 H2].
  unfold press. now rewrite H1, H2, H.
Qed.

(** X5.  An operator once taken cannot be changed: when an operator press
    is accepted (an operand is there, and a pending operation, if any,
    evaluates without error), the operator is recorded and the operand is
    cleared, so that the next operator press, whichever it is, does
    nothing. *)
Theorem operator_is_not_replaced (c : calc_state) (op1 op2 : string) :
  is_operator op1 = true -> is_operator op2 = true ->
  current_number c <> "" ->
  (PyStr.truthy (operation c) && PyStr.truthy (previous_number c) = true ->
   PyStr.contains "Error"
     (calculate (previous_number c) (operation c) (current_number c)) = false) ->
  operation (press op1 c) = op1
  /\ current_number (press op1 c) = ""
  /\ press op2 (press op1 c) = press op1 c.
Proof.
  intros H1 H2 Hne Herr.
  rewrite (press_operator op1 c H1).
  destruct (current_number c) as [| ch r] eqn:Hc; [contradiction|].
  cbn [PyStr.truthy].
  destruct (PyStr.truthy (operation c) && PyStr.truthy (previous_number c)).
  - cbv zeta. rewrite (Herr eq_refl). cbn [negb].
    repeat split. now rewrite (press_operator op2 _ H2).
  - repeat split. now rewrite (press_operator op2 _ H2).
Qed.

Lemma operator_is_not_replaced_witness :
  press "×" (press "+" (press_all ["5"] init_calc)) = press "+" (press_all ["5"] init_calc)
  /\ operation (press "+" (press_all ["5"] init_calc)) = "+".
Proof.
  destruct (operator_is_not_replaced (press_all ["5"] init_calc) "+" "×")
    as (H1 & _ & H2); try reflexivity; try discriminate.
  split; [exact H2 | exact H1].
Defined.

(** ** The second operand *)

Lemma press_all_app (l1 l2 : list string) (c : calc_state) :
  press_all (l1 ++ l2) c = press_all l2 (press_all l1 c).
Proof. apply fold_left_app. Qed.

(** While digits are typed the operand mirrors the display and nothing
    else moves. *)
Lemma typing_state (ds : list ascii) (c : calc_state) :
  Forall (fun ch => PyStr.is_digit ch = true) ds ->
  ds <> [] ->
  just_calculated c = false ->
  press_all (map key ds) c
  = mk_calc (display (press_all (map key ds) c)) (previous_number c) (operation c)
            (display (press_all (map key ds) c)) (history c) false.
Proof.
  intros Hds. revert c. induction Hds as [| ch ds Hd Hds IH]; intros c Hne Hj;
    [contradiction|].
  change (press_all (map key (ch :: ds)) c)
    with (press_all (map key ds) (press (key ch) c)).
  destruct ds as [| ch2 ds].
  - cbn [map press_all fold_left]. rewrite (press_key_typing ch c Hd Hj). reflexivity.
  - rewrite IH at 1; [| discriminate | now rewrite (press_key_typing ch c Hd Hj)].
    rewrite (press_key_typing ch c Hd Hj). reflexivity.
Qed.

Lemma all_digits_of_list (ds : list ascii) :
  Forall (fun ch => PyStr.is_digit ch = true) ds ->
  PyStr.all_digits (string_of_list_ascii ds) = true.
Proof. induction 1 as [| ch ds Hd _ IH]; cbn; [reflexivity | now rewrite Hd]. Qed.

Lemma all_digits_take (n : nat) (s : string) :
  PyStr.all_digits s = true -> PyStr.all_digits (PyStr.take n s) = true.
Proof.
  revert s. induction n as [| n IH]; intros [| ch r] H; try reflexivity.
  cbn in *. apply andb_true_iff in H as [H1 H2]. now rewrite H1, IH.
Qed.

Lemma length_take (n : nat) (s : string) : (length (PyStr.take n s) <= n)%nat.
Proof.
  revert s. induction n as [| n IH]; intros [| ch r]; cbn; try lia.
  specialize (IH r). lia.
Qed.

(** X6.  The digits typed after an operator do not start a new number:
    they are appended to the first operand, which is still on display.
    After a first operand [d1 r1] without leading zero, an operator and the
    digits [ds2], the second operand and the display are the first operand
    followed by [ds2], cut at 12 characters. *)
Theorem second_operand_is_appended (d1 : ascii) (r1 ds2 : list ascii) (op : string) :
  PyStr.is_digit d1 = true -> d1 <> "0"%char ->
  Forall (fun ch => PyStr.is_digit ch = true) r1 ->
  Forall (fun ch => PyStr.is_digit ch = true) ds2 -> ds2 <> [] ->
  is_operator op = true ->
  press_all (map key (d1 :: r1) ++ op :: map key ds2) init_calc
  = let first := PyStr.take 12 (string_of_list_ascii (d1 :: r1)) in
    let second := PyStr.take 12 (first ++ string_of_list_ascii ds2) in
    mk_calc second first op second [] false.
Proof.
  intros Hd1 Hnz Hr1 Hds2 Hne Hop. cbv zeta.
  rewrite press_all_app.
  set (first := PyStr.take 12 (string_of_list_ascii (d1 :: r1))).
  assert (E1 : press_all (map key (d1 :: r1)) init_calc
               = mk_calc first "" "" first [] false).
  { rewrite typing_state; [| now constructor | discriminate | reflexivity].
    change (press_all (map key (d1 :: r1)) init_calc)
      with (press_all (map key r1) (press (key d1) init_calc)).
    rewrite (press_key_typing d1 init_calc Hd1 eq_refl).
    rewrite typing_digits; try assumption; try reflexivity.
    - cbn. now rewrite Hd1.
    - cbn. unfold key. congruence.
    - discriminate.
    - cbn. lia. }
  rewrite E1.
  change (press_all (op :: map key ds2) (mk_calc first "" "" first [] false))
    with (press_all (map key ds2) (press op (mk_calc first "" "" first [] false))).
  rewrite (press_operator op _ Hop). cbn [current_number operation PyStr.truthy andb display history].
  assert (Hf : first = String d1 (PyStr.take 11 (string_of_list_ascii r1))) by reflexivity.
  rewrite Hf at 1. cbn [PyStr.truthy].
  rewrite typing_state; [| assumption | assumption | reflexivity].
  cbn [previous_number operation history].
  rewrite typing_digits; try assumption; try reflexivity; cbn [display].
  - unfold first. apply all_digits_take. apply all_digits_of_list. now constructor.
  - rewrite Hf. destruct (PyStr.take 11 (string_of_list_ascii r1)); congruence.
  - rewrite Hf. discriminate.
  - apply length_take.
Qed.

Lemma second_operand_is_appended_witness :
  press_all ["7"; "+"; "3"; "="] init_calc
  = mk_calc "80" "" "" "80" ["7 + 73 = 80"] true.
Proof.
  change ["7"; "+"; "3"; "="] with ((map key ["7"%char] ++ "+" :: map key ["3"%char]) ++ ["="])%list.
  rewrite press_all_app.
  rewrite (second_operand_is_appended "7" [] ["3"%char] "+");
    [| reflexivity | discriminate | constructor | repeat constructor | discriminate
     | reflexivity].
  vm_compute. reflexivity.
Defined.

(** ** The length of the display *)

Lemma length_drop_last (s : string) : length (PyStr.drop_last s) = (length s - 1)%nat.
Proof.
  induction s as [| a r IH]; [reflexivity|].
  cbn [PyStr.drop_last]. destruct r as [| b r']; [reflexivity|].
  cbn [length] in *. rewrite IH. lia.
Qed.

Lemma has_char_snoc (c : ascii) (s : string) :
  PyStr.has_char c (s ++ String c "") = true.
Proof.
  induction s as [| a r IH]; cbn.
  - now rewrite Ascii.eqb_refl.
  - rewrite IH. apply orb_true_r.
Qed.

Lemma typed_bound_press (b : string) (c : calc_state) :
  typing_key b -> typed_bound c -> typed_bound (press b c).
Proof.
  intros Hk (Hj & H13 & H12). unfold typed_bound.
  destruct Hk as [(ch & Hd & ->) | [-> | [-> | ->]]].
  - rewrite (press_key_typing ch c Hd Hj). cbv zeta. cbn [just_calculated display].
    split; [reflexivity|].
    destruct (String.eqb (display c) "0" || PyStr.contains "Error" (display c)).
    + cbn. split; intros; lia.
    + destruct (Nat.ltb_spec (length (display c)) 12) as [Hl | Hl].
      * rewrite length_append. cbn [length key]. split; intros; lia.
      * split; [exact H13 | exact H12].
  - unfold press. change (PyStr.isdigit ".") with false.
    change (String.eqb "." ".") with true. cbv iota. rewrite Hj. cbn [negb].
    rewrite andb_true_r.
    destruct (PyStr.has_char "." (display c)) eqn:Hp; cbn [negb].
    + split; [first [exact Hj | reflexivity]|]. split; [exact H13 | now rewrite Hp].
    + cbn [just_calculated display]. split; [first [exact Hj | reflexivity]|].
      destruct (String.eqb (display c) "0").
      * cbn. split; intros; lia.
      * rewrite length_append, has_char_snoc. cbn [length].
        specialize (H12 eq_refl). split; [lia | discriminate].
  - rewrite press_del, Hj. cbn [negb andb].
    destruct (Nat.ltb_spec 1 (length (display c))) as [Hl | Hl].
    + cbn [just_calculated display]. rewrite length_drop_last.
      split; [first [exact Hj | reflexivity]|]. split; intros; lia.
    + destruct (length (display c) =? 1)%nat.
      * cbn. split; [first [exact Hj | reflexivity]|]. split; intros; lia.
      * split; [first [exact Hj | reflexivity]|]. split; [exact H13 | exact H12].
  - change (press "C" c) with (mk_calc "" "" "" "0" (history c) false).
    cbn [just_calculated display length]. split; [reflexivity|]. split; intros; lia.
Qed.

(** X7.  However the digits, the point, [del] and [C] are pressed on the
    fresh calculator, the display never exceeds 13 characters, and 12
    without a decimal point: the cap of 12 binds the digits, not the
    point. *)
Theorem typed_display_is_bounded (bs : list string) :
  Forall typing_key bs ->
  (length (display (press_all bs init_calc)) <= 13)%nat
  /\ (PyStr.has_char "." (display (press_all bs init_calc)) = false ->
      (length (display (press_all bs init_calc)) <= 12)%nat).
Proof.
  intros H.
  assert (G : forall c, typed_bound c -> typed_bound (press_all bs c)).
  { induction H as [| b bs Hb Hbs IH]; intros c Hc; [exact Hc|].
    change (press_all (b :: bs) c) with (press_all bs (press b c)).
    apply IH. now apply typed_bound_press. }
  destruct (G init_calc) as (_ & H13 & H12).
  - split; [reflexivity|]. cbn. split; intros; lia.
  - split; assumption.
Qed.

(** Twelve digits and a point make 13 characters. *)
Lemma typed_display_is_bounded_witness :
  (length (display (press_all (map key (list_ascii_of_string "123456789012") ++ ["."])
                              init_calc)) <= 13)%nat
  /\ display (press_all (map key (list_ascii_of_string "123456789012") ++ ["."])
                        init_calc) = "123456789012.".
Proof.
  split; [| vm_compute; reflexivity].
  apply (typed_display_is_bounded
           (map key (list_ascii_of_string "123456789012") ++ ["."])).
  apply Forall_app. split.
  - apply Forall_forall. intros b Hb. apply in_map_iff in Hb as (ch & <- & Hc).
    left. exists ch. split; [| reflexivity].
    cbn in Hc. repeat (destruct Hc as [<- | Hc]; [reflexivity|]). contradiction.
  - constructor; [right; left; reflexivity | constructor].
Defined.

(** ** The history through the whole loop *)

Lemma history_append_length (e : string) (h : list string) :
  (List.length h <= 10)%nat -> (List.length (history_append e h) <= 10)%nat.
Proof.
  intros H. unfold history_append.
  assert (Hlen : List.length (h ++ [e]) = S (List.length h))
    by (rewrite length_app; cbn; lia).
  destruct (Nat.ltb_spec 10 (List.length (h ++ [e]))) as [Hl | Hl]; [| exact Hl].
  destruct (h ++ [e])%list as [| x l]; cbn [tl List.length] in *; lia.
Qed.

Lemma press_history_length (b : string) (c : calc_state) :
  (List.length (history c) <= 10)%nat -> (List.length (history (press b c)) <= 10)%nat.
Proof.
  intros H. rewrite history_press. unfold recorded_by.
  destruct (String.eqb b "=" && PyStr.truthy (current_number c)
            && PyStr.truthy (operation c) && PyStr.truthy (previous_number c)).
  - cbn [fold_left]. now apply history_append_length.
  - exact H.
Qed.

Lemma process_history_length (t : PyFloat.float) (b : string) (a : calculator) :
  (List.length (history (calc a)) <= 10)%nat ->
  (List.length (history (calc (process_button_press t b a))) <= 10)%nat.
Proof.
  intros H. unfold process_button_press.
  destruct (in_cooldown t a); [exact H|].
  destruct (dict_mem b (buttons a)); cbn [calc]; now apply press_history_length.
Qed.

Lemma draw_keeps_calc (w h : Z) (clock : string -> PyFloat.float * PyFloat.float)
    (a : calculator) :
  calc (snd (draw_calculator_interface w h clock a)) = calc a.
Proof.
  unfold draw_calculator_interface. cbn [snd with_buttons calc].
  unfold ensure_buttons. destruct (buttons a); reflexivity.
Qed.

(** X8.  Through any turns of the loop (frames with their hit test and
    touch, the drawing, the keys [r] and [c]) the history never
    holds more than 10 entries; the key [r] empties it and leaves the rest
    of the calculator alone, and the key [c] never changes it. *)
Theorem history_bounded_through_run (es : list event) (a a' : calculator) :
  (List.length (history (calc a)) <= 10)%nat ->
  run_events es a = Ok a' ->
  (List.length (history (calc a')) <= 10)%nat
  /\ history (calc (reset_history a')) = []
  /\ display (calc (reset_history a')) = display (calc a')
  /\ forall t, history (calc (process_button_press t "C" a')) = history (calc a').
Proof.
  intros H Hr. split; [| split; [reflexivity | split; [reflexivity |]]].
  - revert a H Hr. induction es as [| e es IH]; intros a H Hr.
    + injection Hr as <-. exact H.
    + cbn [run_events] in Hr. destruct (step e a) as [a1 | x] eqn:Hs; [| discriminate Hr].
      cbn [bind] in Hr. apply (IH a1); [| exact Hr].
      destruct e as [fp touching t | w h clock | | t]; unfold step in Hs.
      * unfold frame in Hs.
        destruct (detect_button_touch (buttons a) fp) as [[r bs'] | x]; [| discriminate Hs].
        cbn [bind fst snd] in Hs. injection Hs as <-.
        unfold observe. destruct r as [b |]; [| exact H].
        destruct (touching && PyStr.truthy b); [| exact H].
        now apply process_history_length.
      * assert (E1 : a1 = snd (draw_calculator_interface w h clock a)) by congruence.
        rewrite E1, draw_keeps_calc. exact H.
      * injection Hs as <-. cbn. lia.
      * injection Hs as <-. now apply process_history_length.
  - intros t. unfold process_button_press.
    destruct (in_cooldown t a'); [reflexivity|].
    destruct (dict_mem "C" (buttons a')); reflexivity.
Qed.

Lemma history_bounded_through_run_witness :
  exists a',
    run_events [Draw 1280 720 (fun _ => (double_of "1", double_of "1"));
                Frame (Some (1028, 366)) true (double_of "1"); KeyC (double_of "2");
                Frame None false (double_of "3"); KeyR] init = Ok a'
    /\ (List.length (history (calc a')) <= 10)%nat.
Proof.
  destruct (run_events [Draw 1280 720 (fun _ => (double_of "1", double_of "1"));
                Frame (Some (1028, 366)) true (double_of "1"); KeyC (double_of "2");
                        Frame None false (double_of "3"); KeyR] init) as [a' | x] eqn:E.
  - exists a'. split; [reflexivity|].
    refine (proj1 (history_bounded_through_run _ init a' _ E)). cbn. lia.
  - vm_compute in E. discriminate E.
Defined.

(** ** The layout *)

Lemma shift_layout_dict_set (dx dy : Z) (k : string) (v : button_data) (d : buttons_t) :
  shift_layout dx dy (dict_set k v d)
  = dict_set k (shift_button dx dy v) (shift_layout dx dy d).
Proof.
  induction d as [| [k' v'] r IH]; [reflexivity|].
  cbn [dict_set shift_layout map fst snd].
  destruct (String.eqb k' k); cbn [shift_layout map fst snd]; [reflexivity|].
  f_equal. exact IH.
Qed.

Lemma setup_row_shift (dx : Z) (row : list string) (sx y col : Z) (acc : buttons_t) :
  setup_row (sx + dx) y col row (shift_layout dx 0 acc)
  = shift_layout dx 0 (setup_row sx y col row acc).
Proof.
  revert col acc. induction row as [| b rest IH]; intros col acc; [reflexivity|].
  cbn [setup_row]. rewrite <- IH. f_equal.
  rewrite shift_layout_dict_set. f_equal.
  unfold shift_button, shift_rect, shift_point. cbn [rect center pressed hover fst snd].
  f_equal; repeat (f_equal; try lia).
Qed.

Lemma setup_rows_shift (dx : Z) (rows : list (list string)) (sx sy r : Z) (acc : buttons_t) :
  setup_rows (sx + dx) sy r rows (shift_layout dx 0 acc)
  = shift_layout dx 0 (setup_rows sx sy r rows acc).
Proof.
  revert r acc. induction rows as [| row rest IH]; intros r acc; [reflexivity|].
  cbn [setup_rows]. rewrite <- IH. f_equal. apply setup_row_shift.
Qed.

(** The layout of any frame is the layout of a 1280 x 720 frame moved
    sideways. *)
Lemma setup_buttons_shift (w h : Z) :
  setup_buttons w h = shift_layout (w - 1280) 0 (setup_buttons 1280 720).
Proof.
  unfold setup_buttons.
  replace (w - 400 + 20) with (1280 - 400 + 20 + (w - 1280)) by lia.
  exact (setup_rows_shift (w - 1280) button_layout (1280 - 400 + 20) 200 0 []).
Qed.

Lemma in_shift_layout (dx dy : Z) (bs : buttons_t) (k : string) (d : button_data) :
  In (k, d) (shift_layout dx dy bs) <->
  exists d0, In (k, d0) bs /\ d = shift_button dx dy d0.
Proof.
  unfold shift_layout. rewrite in_map_iff. split.
  - intros ([k0 d0] & E & Hin). cbn [fst snd] in E. injection E as <- <-.
    exists d0. split; [exact Hin | reflexivity].
  - intros (d0 & Hin & ->). exists (k, d0). split; [reflexivity | exact Hin].
Qed.

Lemma in_rect_shift (dx dy : Z) (p : point) (r : Z * Z * Z * Z) :
  is_point_in_rect (shift_point dx dy p) (shift_rect dx dy r) = is_point_in_rect p r.
Proof.
  destruct p as [x y], r as [[[x1 y1] x2] y2].
  unfold is_point_in_rect, shift_point, shift_rect. cbn [fst snd].
  repeat match goal with
         | |- context [?a + ?d <=? ?b + ?d] =>
             replace (a + d <=? b + d) with (a <=? b)
               by (destruct (Z.leb_spec a b), (Z.leb_spec (a + d) (b + d)); lia || reflexivity)
         end.
  reflexivity.
Qed.

Lemma rects_meet_of_point (p : point) (r s : Z * Z * Z * Z) :
  is_point_in_rect p r = true -> is_point_in_rect p s = true -> rects_meet r s = true.
Proof.
  destruct p as [x y], r as [[[x1 y1] x2] y2], s as [[[a1 b1] a2] b2].
  unfold is_point_in_rect, rects_meet. rewrite !andb_true_iff, !Z.leb_le. lia.
Qed.

Lemma rects_meet_shift (dx dy : Z) (r s : Z * Z * Z * Z) :
  rects_meet (shift_rect dx dy r) (shift_rect dx dy s) = rects_meet r s.
Proof.
  destruct r as [[[x1 y1] x2] y2], s as [[[a1 b1] a2] b2].
  unfold rects_meet, shift_rect.
  repeat match goal with
         | |- context [?a + ?d <=? ?b + ?d] =>
             replace (a + d <=? b + d) with (a <=? b)
               by (destruct (Z.leb_spec a b), (Z.leb_spec (a + d) (b + d)); lia || reflexivity)
         end.
  reflexivity.
Qed.

Lemma layout_keys (w h : Z) :
  map fst (setup_buttons w h) = List.concat button_layout.
Proof.
  rewrite setup_buttons_shift. unfold shift_layout. rewrite map_map. cbn [fst].
  vm_compute. reflexivity.
Qed.

(** X9.  For every frame size the layout holds the 20 keys of
    [button_layout] in reading order, each once; it does not depend on the
    frame height and moves sideways with the frame width; each rectangle is
    60 high and 80 wide, 168 for [0], with the centre in its middle.  The
    rectangle of [.] lies inside the rectangle of [0], and these two are
    the only buttons whose rectangles share a point. *)
Theorem layout_of_any_frame (w h : Z) :
  map fst (setup_buttons w h) = List.concat button_layout
  /\ NoDup (map fst (setup_buttons w h))
  /\ setup_buttons w h = shift_layout (w - 1280) 0 (setup_buttons 1280 720)
  /\ (forall k d, In (k, d) (setup_buttons w h) ->
        let '(x1, y1, x2, y2) := rect d in
        x2 - x1 = (if String.eqb k "0" then 168 else 80)
        /\ y2 - y1 = 60
        /\ center d = (x1 + (x2 - x1) / 2, y1 + 30))
  /\ (forall d0 dp, In ("0", d0) (setup_buttons w h) -> In (".", dp) (setup_buttons w h) ->
        rect_within (rect dp) (rect d0))
  /\ (forall k1 d1 k2 d2 p,
        In (k1, d1) (setup_buttons w h) -> In (k2, d2) (setup_buttons w h) ->
        k1 <> k2 ->
        is_point_in_rect p (rect d1) = true -> is_point_in_rect p (rect d2) = true ->
        (k1 = "0" /\ k2 = ".") \/ (k1 = "." /\ k2 = "0")).
Proof.
  split; [apply layout_keys|].
  split.
  { rewrite layout_keys. vm_compute.
    repeat (constructor; [cbn; intuition discriminate|]). constructor. }
  split; [apply setup_buttons_shift|].
  rewrite setup_buttons_shift.
  assert (Hall : forall k d, In (k, d) (shift_layout (w - 1280) 0 (setup_buttons 1280 720)) ->
            exists d0, d = shift_button (w - 1280) 0 d0
                       /\ In (k, d0) (setup_buttons 1280 720)).
  { intros k d Hin. apply in_shift_layout in Hin as (d0 & Hin & ->). eauto. }
  split; [| split].
  - intros k d Hin. destruct (Hall k d Hin) as (d0 & -> & Hin0).
    vm_compute in Hin0.
    repeat (destruct Hin0 as [E | Hin0];
            [injection E as <- <-;
             unfold shift_button, shift_rect, shift_point;
             cbn [rect center fst snd];
             match goal with
             | |- context [String.eqb ?a ?b] =>
                 let v := eval vm_compute in (String.eqb a b) in
                 change (String.eqb a b) with v
             end; cbv iota;
             split; [lia|]; split; [lia|]; f_equal;
             Z.div_mod_to_equations; lia|]).
    contradiction.
  - intros d0 dp H0 Hp p Hin.
    destruct (Hall _ _ H0) as (e0 & -> & Hin0). destruct (Hall _ _ Hp) as (ep & -> & Hinp).
    vm_compute in Hin0, Hinp.
    repeat (destruct Hin0 as [E | Hin0]; [try discriminate E|]); [| contradiction].
    repeat (destruct Hinp as [E' | Hinp]; [try discriminate E'|]); [| contradiction].
    injection E as <-. injection E' as <-.
    destruct p as [x y]. revert Hin.
    unfold is_point_in_rect, shift_button, shift_rect. cbn [rect].
    rewrite !andb_true_iff, !Z.leb_le. lia.
  - intros k1 d1 k2 d2 p H1 H2 Hne Hp1 Hp2.
    destruct (Hall _ _ H1) as (e1 & -> & Hin1). destruct (Hall _ _ H2) as (e2 & -> & Hin2).
    pose proof (rects_meet_of_point p _ _ Hp1 Hp2) as Hm.
    cbn [shift_button rect] in Hm. rewrite rects_meet_shift in Hm.
    assert (Hc : forallb (fun a => forallb (fun b =>
               implb (rects_meet (rect (snd a)) (rect (snd b)))
                     (String.eqb (fst a) (fst b)
                      || (String.eqb (fst a) "0" && String.eqb (fst b) ".")
                      || (String.eqb (fst a) "." && String.eqb (fst b) "0")))
               (setup_buttons 1280 720)) (setup_buttons 1280 720) = true)
      by (vm_compute; reflexivity).
    rewrite forallb_forall in Hc. specialize (Hc _ Hin1).
    rewrite forallb_forall in Hc. specialize (Hc _ Hin2).
    cbn [fst snd] in Hc. rewrite Hm in Hc. cbn [implb] in Hc.
    apply orb_true_iff in Hc as [Hc | Hc]; [apply orb_true_iff in Hc as [Hc | Hc]|].
    + apply String.eqb_eq in Hc. contradiction.
    + apply andb_true_iff in Hc as [Ha Hb].
      apply String.eqb_eq in Ha, Hb. now left.
    + apply andb_true_iff in Hc as [Ha Hb].
      apply String.eqb_eq in Ha, Hb. now right.
Qed.

(** On a frame 1000 wide the rectangle of [.] is inside that of [0]. *)
Lemma layout_of_any_frame_witness :
  rect_within (620 + 88, 472, 620 + 168, 532) (620, 472, 620 + 168, 532).
Proof.
  destruct (layout_of_any_frame 1000 600) as (_ & _ & _ & _ & H & _).
  apply (H (mk_button (620, 472, 620 + 168, 532) (704, 502) false false)
           (mk_button (620 + 88, 472, 620 + 168, 532) (748, 502) false false)).
  - vm_compute. do 16 right. left. reflexivity.
  - vm_compute. do 17 right. left. reflexivity.
Defined.

(** ** The hit test on a moved layout *)

Lemma calculate_distance_shift (dx dy : Z) (p q : point) :
  calculate_distance (shift_point dx dy p) (shift_point dx dy q)
  = calculate_distance p q.
Proof.
  unfold calculate_distance, shift_point. cbn [fst snd].
  replace (fst p + dx - (fst q + dx)) with (fst p - fst q) by lia.
  replace (snd p + dy - (snd q + dy)) with (snd p - snd q) by lia.
  reflexivity.
Qed.

Lemma touch_loop_shift (dx dy : Z) (p : point) (bs : buttons_t)
    (t : option string) (m : PyFloat.float) :
  touch_loop (shift_point dx dy p) (shift_layout dx dy bs) t m
  = r <- touch_loop p bs t m ;; Ok (fst r, shift_layout dx dy (snd r)).
Proof.
  revert t m. induction bs as [| [k data] rest IH]; intros t m; [reflexivity|].
  cbn [shift_layout map fst snd touch_loop].
  change (map (fun kv => (fst kv, shift_button dx dy (snd kv))) rest)
    with (shift_layout dx dy rest).
  cbn [shift_button rect center]. rewrite in_rect_shift, calculate_distance_shift.
  destruct (is_point_in_rect p (rect data)).
  - destruct (calculate_distance p (center data)) as [d | e]; [| reflexivity].
    cbn [bind].
    destruct (lt_int d touch_threshold && PyFloat.ltb d m); rewrite IH;
      destruct (touch_loop p rest _ _) as [[r bs'] | e]; reflexivity.
  - rewrite IH. destruct (touch_loop p rest t m) as [[r bs'] | e]; reflexivity.
Qed.

(** X10.  The hit test does not depend on where the layout stands: moving
    every rectangle and centre and the finger by the same offset gives the
    same button, or the same error, and the same hover flags. *)
Theorem hit_test_is_translation_invariant (dx dy : Z) (bs : buttons_t)
    (finger_pos : option point) :
  detect_button_touch (shift_layout dx dy bs) (option_map (shift_point dx dy) finger_pos)
  = r <- detect_button_touch bs finger_pos ;; Ok (fst r, shift_layout dx dy (snd r)).
Proof.
  destruct finger_pos as [p |]; cbn [option_map detect_button_touch].
  - apply touch_loop_shift.
  - cbn [bind fst snd]. f_equal. f_equal. unfold shift_layout. rewrite !map_map.
    reflexivity.
Qed.

Lemma touched_shift (dx dy : Z) (bs : buttons_t) (p : point) :
  touched (detect_button_touch (shift_layout dx dy bs) (Some (shift_point dx dy p)))
  = touched (detect_button_touch bs (Some p)).
Proof.
  unfold touched, detect_button_touch. rewrite touch_loop_shift.
  destruct (touch_loop p bs None PyFloat.inf) as [[r bs'] | e]; reflexivity.
Qed.


(** X11.  On the layout of every frame size, pointing at the centre of a
    button resolves to that button.  In the stretch where [.] lies inside
    [0], the point half way between the two centres, 22 from each, resolves
    to [0], which is laid out first, and one unit further right to [.]. *)
Theorem centres_resolve_on_every_frame (w h : Z) :
  (forall k d, In (k, d) (setup_buttons w h) ->
     touched (detect_button_touch (setup_buttons w h) (Some (center d))) = Ok (Some k))
  /\ touched (detect_button_touch (setup_buttons w h) (Some (w - 380 + 106, 502)))
     = Ok (Some "0")
  /\ touched (detect_button_touch (setup_buttons w h) (Some (w - 380 + 107, 502)))
     = Ok (Some ".").
Proof.
  rewrite setup_buttons_shift. split; [| split].
  - intros k d Hin. apply in_shift_layout in Hin as (d0 & Hin & ->).
    change (center (shift_button (w - 1280) 0 d0))
      with (shift_point (w - 1280) 0 (center d0)).
    rewrite touched_shift.
    assert (Hc : centre_hits (setup_buttons 1280 720) = true) by (vm_compute; reflexivity).
    unfold centre_hits in Hc. rewrite forallb_forall in Hc. specialize (Hc _ Hin).
    cbn [fst snd] in Hc.
    destruct (touched (detect_button_touch (setup_buttons 1280 720) (Some (center d0))))
      as [[k' |] | e]; try discriminate Hc.
    apply String.eqb_eq in Hc. now subst.
  - replace (w - 380 + 106, 502) with (shift_point (w - 1280) 0 (1006, 502))
      by (unfold shift_point; cbn [fst snd]; f_equal; lia).
    rewrite touched_shift. vm_compute. reflexivity.
  - replace (w - 380 + 107, 502) with (shift_point (w - 1280) 0 (1007, 502))
      by (unfold shift_point; cbn [fst snd]; f_equal; lia).
    rewrite touched_shift. vm_compute. reflexivity.
Qed.

Lemma centres_resolve_on_every_frame_witness :
  touched (detect_button_touch (setup_buttons 640 480) (Some (300, 230))) = Ok (Some "C").
Proof.
  apply (proj1 (centres_resolve_on_every_frame 640 480) "C"
           (mk_button (260, 200, 340, 260) (300, 230) false false)).
  vm_compute. left. reflexivity.
Defined.

(** ** Hover flags *)

Lemma touch_loop_hover (p : point) (bs : buttons_t) :
  forall (t : option string) (m : PyFloat.float) (r : option string) (bs' : buttons_t),
  touch_loop p bs t m = Ok (r, bs') ->
  unhovered bs' = unhovered bs
  /\ (forall k d, In (k, d) bs' -> hover d = true -> exists dist, is_candidate p d dist)
  /\ (r = t \/ exists k d, r = Some k /\ In (k, d) bs' /\ hover d = true).
Proof.
  induction bs as [| [k data] rest IH]; intros t m r bs' H.
  - injection H as <- <-. split; [reflexivity|]. split; [intros ? ? [] | now left].
  - cbn [touch_loop] in H.
    destruct (is_point_in_rect p (rect data)) eqn:Hin.
    + destruct (calculate_distance p (center data)) as [d | e] eqn:Hd; [| discriminate H].
      cbn [bind] in H.
      destruct (lt_int d touch_threshold && PyFloat.ltb d m) eqn:Hc.
      * destruct (touch_loop p rest (Some k) d) as [[r1 bs1] | e] eqn:Hl; [| discriminate H].
        cbn [bind fst snd] in H. injection H as <- <-.
        destruct (IH _ _ _ _ Hl) as (Hu & Hh & Hr).
        apply andb_true_iff in Hc as [Hrad _].
        split; [cbn [unhovered map fst snd]; f_equal; exact Hu|]. split.
        -- intros k0 d0 [E | Hin0] Hhov; [| exact (Hh k0 d0 Hin0 Hhov)].
           injection E as <- <-. exists d. repeat split; assumption.
        -- right. destruct Hr as [-> | (k2 & d2 & -> & Hin2 & Hh2)].
           ++ exists k, (set_hover true data). split; [reflexivity|].
              split; [now left | reflexivity].
           ++ exists k2, d2. split; [reflexivity|]. split; [now right | exact Hh2].
      * destruct (touch_loop p rest t m) as [[r1 bs1] | e] eqn:Hl; [| discriminate H].
        cbn [bind fst snd] in H. injection H as <- <-.
        destruct (IH _ _ _ _ Hl) as (Hu & Hh & Hr).
        split; [cbn [unhovered map fst snd]; f_equal; exact Hu|]. split.
        -- intros k0 d0 [E | Hin0] Hhov; [| exact (Hh k0 d0 Hin0 Hhov)].
           injection E as <- <-. discriminate Hhov.
        -- destruct Hr as [-> | (k2 & d2 & -> & Hin2 & Hh2)]; [now left|].
           right. exists k2, d2. split; [reflexivity|]. split; [now right | exact Hh2].
    + destruct (touch_loop p rest t m) as [[r1 bs1] | e] eqn:Hl; [| discriminate H].
      cbn [bind fst snd] in H. injection H as <- <-.
      destruct (IH _ _ _ _ Hl) as (Hu & Hh & Hr).
      split; [cbn [unhovered map fst snd]; f_equal; exact Hu|]. split.
      * intros k0 d0 [E | Hin0] Hhov; [| exact (Hh k0 d0 Hin0 Hhov)].
        injection E as <- <-. discriminate Hhov.
      * destruct Hr as [-> | (k2 & d2 & -> & Hin2 & Hh2)]; [now left|].
        right. exists k2, d2. split; [reflexivity|]. split; [now right | exact Hh2].
Qed.

(** X12.  A hit test changes nothing of the buttons but their hover flags.
    With no finger every flag is cleared.  With a finger, a button that
    comes out hovered is a candidate (its rectangle contains the finger
    and its centre is nearer than 30), and the button returned is hovered.
    The flags can show more than the returned button: a candidate that was
    the nearest so far keeps its flag when a nearer one follows. *)
Theorem hover_flags_after_hit_test :
  (forall (bs : buttons_t) (p : point) (r : option string) (bs' : buttons_t),
      detect_button_touch bs (Some p) = Ok (r, bs') ->
      unhovered bs' = unhovered bs
      /\ (forall k d, In (k, d) bs' -> hover d = true -> exists dist, is_candidate p d dist)
      /\ (forall k, r = Some k -> exists d, In (k, d) bs' /\ hover d = true))
  /\ (forall bs : buttons_t, detect_button_touch bs None = Ok (None, unhovered bs))
  /\ (forall (p : point) (k1 k2 : string) (b1 b2 : button_data) (d1 d2 : PyFloat.float),
         is_candidate p b1 d1 -> is_candidate p b2 d2 -> PyFloat.ltb d2 d1 = true ->
         detect_button_touch [(k1, b1); (k2, b2)] (Some p)
         = Ok (Some k2, [(k1, set_hover true b1); (k2, set_hover true b2)])).
Proof.
  split; [| split].
  - intros bs p r bs' H. unfold detect_button_touch in H.
    destruct (touch_loop_hover p bs None PyFloat.inf r bs' H) as (Hu & Hh & Hr).
    split; [exact Hu|]. split; [exact Hh|].
    intros k ->. destruct Hr as [E | (k2 & d2 & E & Hin & Hhov)]; [discriminate E|].
    injection E as ->. eauto.
  - reflexivity.
  - intros p k1 k2 b1 b2 d1 d2 (Hi1 & Hd1 & Hr1) (Hi2 & Hd2 & Hr2) Hlt.
    unfold detect_button_touch. simpl touch_loop.
    rewrite Hi1, Hi2, Hd1, Hd2. cbn [bind].
    rewrite Hr1, Hr2, (lt_int_ltb_inf d1 _ Hr1). cbn [andb]. rewrite Hlt. reflexivity.
Qed.

(** In the stretch shared by [0] and [.], at 26 from the centre of [0] and
    18 from the centre of [.], the hit test returns [.] and both are
    hovered. *)
Lemma hover_flags_after_hit_test_witness :
  detect_button_touch
    [("0", mk_button (900, 472, 1068, 532) (984, 502) false false);
     (".", mk_button (988, 472, 1068, 532) (1028, 502) false false)]
    (Some (1010, 502))
  = Ok (Some ".",
        [("0", mk_button (900, 472, 1068, 532) (984, 502) false true);
         (".", mk_button (988, 472, 1068, 532) (1028, 502) false true)]).
Proof.
  apply (proj2 (proj2 hover_flags_after_hit_test) (1010, 502) "0" "."
           (mk_button (900, 472, 1068, 532) (984, 502) false false)
           (mk_button (988, 472, 1068, 532) (1028, 502) false false)
           (S754_finite false 7318349394477056 (-48))
           (S754_finite false 5066549580791808 (-48))).
  - split; [reflexivity|]. split; vm_compute; reflexivity.
  - split; [reflexivity|]. split; vm_compute; reflexivity.
  - reflexivity.
Defined.

(** ** The layout is set once *)

Lemma setup_buttons_not_empty (w h : Z) : setup_buttons w h <> [].
Proof.
  intros E. pose proof (layout_keys w h) as H. rewrite E in H. discriminate H.
Qed.

(** X13.  The layout is computed at the first drawing only: once the
    object has buttons, drawing with any frame size leaves them as they
    are, so a later change of the frame size does not move the buttons. *)
Theorem layout_is_set_once (a : calculator) (w h w' h' : Z) :
  buttons (ensure_buttons w h init) = setup_buttons w h
  /\ ensure_buttons w' h' (ensure_buttons w h a) = ensure_buttons w h a
  /\ (buttons a <> [] -> ensure_buttons w h a = a).
Proof.
  split; [reflexivity|]. split.
  - unfold ensure_buttons. destruct (buttons a) as [| kv r] eqn:Hb.
    + cbn [buttons with_buttons].
      destruct (setup_buttons w h) eqn:E; [| reflexivity].
      exfalso. exact (setup_buttons_not_empty w h E).
    + now rewrite Hb.
  - intros Hne. unfold ensure_buttons. destruct (buttons a); [contradiction | reflexivity].
Qed.

Lemma layout_is_set_once_witness :
  ensure_buttons 1920 1080 (ensure_buttons 1280 720 init) = ensure_buttons 1280 720 init.
Proof.
  apply (proj2 (proj2 (layout_is_set_once (ensure_buttons 1280 720 init) 1920 1080 0 0))).
  vm_compute. discriminate.
Defined.

(** ** What the loop keeps *)

Lemma geometry_unhovered (bs : buttons_t) : geometry (unhovered bs) = geometry bs.
Proof. unfold geometry, unhovered. rewrite map_map. reflexivity. Qed.

Lemma geometry_dict_press (k : string) (bs : buttons_t) :
  geometry (dict_press k bs) = geometry bs.
Proof.
  induction bs as [| [k' v] r IH]; [reflexivity|].
  cbn [dict_press]. destruct (String.eqb k' k); cbn [geometry map fst snd]; [reflexivity|].
  f_equal. exact IH.
Qed.

Lemma geometry_detect (bs : buttons_t) (fp : option point) (r : option string)
    (bs' : buttons_t) :
  detect_button_touch bs fp = Ok (r, bs') -> geometry bs' = geometry bs.
Proof.
  intros H. rewrite <- (geometry_unhovered bs), <- (geometry_unhovered bs'). f_equal.
  destruct fp as [p |].
  - unfold detect_button_touch in H. exact (proj1 (touch_loop_hover p bs _ _ _ _ H)).
  - injection H as _ <-. unfold unhovered. rewrite map_map. reflexivity.
Qed.

Lemma geometry_draw_buttons (t : PyFloat.float)
    (clock : string -> PyFloat.float * PyFloat.float) (bs : buttons_t) :
  geometry (map (fun x => (fst x, snd (snd x))) (draw_buttons t clock bs)) = geometry bs.
Proof.
  unfold geometry, draw_buttons. rewrite !map_map. apply map_ext. intros [k v].
  cbn [fst snd draw_button].
  destruct (pressed v && PyFloat.ltb press_duration (PyFloat.sub (snd (clock k)) t));
    reflexivity.
Qed.

Lemma draw_keeps (w h : Z) (clock : string -> PyFloat.float * PyFloat.float)
    (a : calculator) :
  buttons a <> [] ->
  geometry (buttons (snd (draw_calculator_interface w h clock a))) = geometry (buttons a)
  /\ last_touch_time (snd (draw_calculator_interface w h clock a)) = last_touch_time a
  /\ stdout (snd (draw_calculator_interface w h clock a)) = stdout a.
Proof.
  intros Hne.
  assert (E : ensure_buttons w h a = a)
    by (unfold ensure_buttons; destruct (buttons a); [contradiction | reflexivity]).
  unfold draw_calculator_interface. rewrite E.
  cbn [snd with_buttons buttons last_touch_time stdout].
  split; [apply geometry_draw_buttons|]. split; reflexivity.
Qed.

Lemma process_keeps (t : PyFloat.float) (b : string) (a : calculator) :
  geometry (buttons (process_button_press t b a)) = geometry (buttons a)
  /\ (PyFloat.is_double t = true -> PyFloat.is_double (last_touch_time a) = true ->
      PyFloat.is_double (last_touch_time (process_button_press t b a)) = true
      /\ PyFloat.ticks (last_touch_time a)
         <= PyFloat.ticks (last_touch_time (process_button_press t b a)))
  /\ exists out, stdout (process_button_press t b a) = (stdout a ++ out)%list.
Proof.
  unfold process_button_press. destruct (in_cooldown t a) eqn:Hc.
  - split; [reflexivity|]. split; [intros _ Ha; split; [exact Ha | lia]|].
    exists []. now rewrite app_nil_r.
  - assert (Hs : PyFloat.is_double t = true -> PyFloat.is_double (last_touch_time a) = true ->
                 PyFloat.ticks (last_touch_time a) <= PyFloat.ticks t).
    { intros Ht Ha. pose proof (in_cooldown_ticks t a Ht Ha Hc). pose proof edge_pos. lia. }
    destruct (dict_mem b (buttons a)); cbn [buttons last_touch_time stdout].
    + split; [apply geometry_dict_press|]. split; [| eauto].
      intros Ht Ha. split; [exact Ht | exact (Hs Ht Ha)].
    + split; [reflexivity|]. split; [| eauto].
      intros Ht Ha. split; [exact Ht | exact (Hs Ht Ha)].
Qed.

(** X14.  Through any turns of the loop, once the object has buttons they
    stay where they are, drawn or not (same keys, rectangles and centres,
    in the same order); with clock readings that are doubles the
    timestamp of the last accepted press never goes back, even if the
    clock does; and what was printed is only added to. *)
Theorem run_keeps_layout_and_clock (es : list event) (a a' : calculator) :
  buttons a <> [] ->
  run_events es a = Ok a' ->
  geometry (buttons a') = geometry (buttons a)
  /\ (Forall clock_is_double es -> PyFloat.is_double (last_touch_time a) = true ->
      PyFloat.is_double (last_touch_time a') = true
      /\ (PyFloat.value (last_touch_time a) <= PyFloat.value (last_touch_time a'))%Q)
  /\ exists out, stdout a' = (stdout a ++ out)%list.
Proof.
  intros Hne Hr.
  enough (H : geometry (buttons a') = geometry (buttons a)
              /\ (Forall clock_is_double es ->
                  PyFloat.is_double (last_touch_time a) = true ->
                  PyFloat.is_double (last_touch_time a') = true
                  /\ PyFloat.ticks (last_touch_time a) <= PyFloat.ticks (last_touch_time a'))
              /\ exists out, stdout a' = (stdout a ++ out)%list).
  { destruct H as (G1 & G2 & G3). split; [exact G1|]. split; [| exact G3].
    intros Hes Ha. destruct (G2 Hes Ha) as [D L]. split; [exact D|].
    apply value_le. exact L. }
  revert a Hne Hr. induction es as [| e es IH]; intros a Hne Hr.
  - injection Hr as <-. split; [reflexivity|]. split; [intros _ Ha; split; [exact Ha | lia]|].
    exists []. now rewrite app_nil_r.
  - cbn [run_events] in Hr. destruct (step e a) as [a1 | x] eqn:Hs; [| discriminate Hr].
    cbn [bind] in Hr.
    assert (H1 : geometry (buttons a1) = geometry (buttons a)
                 /\ (clock_is_double e -> PyFloat.is_double (last_touch_time a) = true ->
                     PyFloat.is_double (last_touch_time a1) = true
                     /\ PyFloat.ticks (last_touch_time a) <= PyFloat.ticks (last_touch_time a1))
                 /\ exists out, stdout a1 = (stdout a ++ out)%list).
    { destruct e as [fp touching t | w h clock | | t]; unfold step in Hs.
      - unfold frame in Hs.
        destruct (detect_button_touch (buttons a) fp) as [[r bs'] | x] eqn:Hd;
          [| discriminate Hs].
        cbn [bind fst snd] in Hs. injection Hs as <-.
        pose proof (geometry_detect _ _ _ _ Hd) as Hg.
        unfold observe.
        assert (Hid : geometry (buttons (with_buttons bs' a)) = geometry (buttons a)
                      /\ (clock_is_double (Frame fp touching t) ->
                          PyFloat.is_double (last_touch_time a) = true ->
                          PyFloat.is_double (last_touch_time (with_buttons bs' a)) = true
                          /\ PyFloat.ticks (last_touch_time a)
                             <= PyFloat.ticks (last_touch_time (with_buttons bs' a)))
                      /\ exists out, stdout (with_buttons bs' a) = (stdout a ++ out)%list).
        { split; [exact Hg|]. split; [intros _ Ha; split; [exact Ha | cbn; lia]|].
          exists []. cbn. now rewrite app_nil_r. }
        destruct r as [b |]; [| exact Hid].
        destruct (touching && PyStr.truthy b); [| exact Hid].
        destruct (process_keeps t b (with_buttons bs' a)) as (G1 & G2 & G3).
        split; [now rewrite G1|]. split; [| exact G3].
        intros Ht Ha. exact (G2 Ht Ha).
      - assert (E1 : a1 = snd (draw_calculator_interface w h clock a)) by congruence.
        rewrite E1.
        destruct (draw_keeps w h clock a Hne) as (G1 & G2 & G3).
        split; [exact G1|]. split; [rewrite G2; intros _ Ha; split; [exact Ha | lia]|].
        exists []. now rewrite G3, app_nil_r.
      - injection Hs as <-. split; [reflexivity|].
        split; [intros _ Ha; split; [exact Ha | cbn; lia]|].
        exists []. cbn. now rewrite app_nil_r.
      - injection Hs as <-. destruct (process_keeps t "C" a) as (G1 & G2 & G3).
        split; [exact G1|]. split; [| exact G3]. intros Ht Ha. exact (G2 Ht Ha). }
    destruct H1 as (G1 & G2 & (out1 & G3)).
    assert (Hne1 : buttons a1 <> []).
    { intros E. rewrite E in G1. destruct (buttons a); [contradiction | discriminate G1]. }
    destruct (IH a1 Hne1 Hr) as (K1 & K2 & (out2 & K3)).
    split; [now rewrite K1|]. split.
    + intros Hes Ha. inversion Hes as [| ? ? He Hes']; subst.
      destruct (G2 He Ha) as [D1 L1]. destruct (K2 Hes' D1) as [D2 L2].
      split; [exact D2 | lia].
    + exists (out1 ++ out2)%list. now rewrite K3, G3, app_assoc.
Qed.

(** A press at 5 s, then a frame whose clock reads 2 s, then a drawing on
    another frame size: the buttons are where they were and the stamp is
    still 5 s. *)
Lemma run_keeps_layout_and_clock_witness :
  exists a',
    run_events [Frame (Some (1028, 366)) true (double_of "5");
                Frame (Some (940, 230)) true (double_of "2");
                Draw 640 480 (fun _ => (double_of "6", double_of "6"))]
               (ensure_buttons 1280 720 init) = Ok a'
    /\ geometry (buttons a') = geometry (setup_buttons 1280 720)
    /\ last_touch_time a' = double_of "5".
Proof.
  destruct (run_events [Frame (Some (1028, 366)) true (double_of "5");
                        Frame (Some (940, 230)) true (double_of "2");
                        Draw 640 480 (fun _ => (double_of "6", double_of "6"))]
                       (ensure_buttons 1280 720 init)) as [a' | x] eqn:E.
  - exists a'. split; [reflexivity|]. split.
    + refine (proj1 (run_keeps_layout_and_clock _ (ensure_buttons 1280 720 init) a' _ E)).
      vm_compute. discriminate.
    + vm_compute in E. injection E as <-. reflexivity.
  - vm_compute in E. discriminate E.
Defined.

(** ** The texts [calculate] returns *)

Lemma numeric_app (s t : string) :
  numeric_text (s ++ t) = numeric_text s && numeric_text t.
Proof. induction s as [| c r IH]; cbn; [reflexivity | now rewrite IH, andb_assoc]. Qed.

Lemma numeric_take (n : nat) (s : string) :
  numeric_text s = true -> numeric_text (PyStr.take n s) = true.
Proof.
  revert s. induction n as [| n IH]; intros [| c r] H; try reflexivity.
  cbn in *. apply andb_true_iff in H as [H1 H2]. now rewrite H1, IH.
Qed.

Lemma numeric_drop (n : nat) (s : string) :
  numeric_text s = true -> numeric_text (PyStr.drop n s) = true.
Proof.
  revert s. induction n as [| n IH]; intros [| c r] H; try reflexivity; try exact H.
  cbn in *. apply andb_true_iff in H as [H1 H2]. now apply IH.
Qed.

Lemma numeric_rstrip (c : ascii) (s : string) :
  numeric_text s = true -> numeric_text (PyStr.rstrip c s) = true.
Proof.
  induction s as [| a r IH]; intros H; [reflexivity|].
  cbn in H. apply andb_true_iff in H as [H1 H2]. cbn [PyStr.rstrip].
  specialize (IH H2). destruct (PyStr.rstrip c r) as [| b r'].
  - destruct (Ascii.eqb a c); cbn; [reflexivity | now rewrite H1].
  - cbn [numeric_text] in *. now rewrite H1, IH.
Qed.

Lemma numeric_repeat (c : ascii) (n : nat) :
  numeric_char c = true -> numeric_text (PyStr.repeat_char c n) = true.
Proof. intros H. induction n as [| n IH]; cbn; [reflexivity | now rewrite H, IH]. Qed.

Lemma numeric_of_uint (d : Decimal.uint) :
  numeric_text (NilEmpty.string_of_uint d) = true.
Proof. induction d; cbn [NilEmpty.string_of_uint numeric_text]; try rewrite IHd; reflexivity. Qed.

Lemma numeric_of_Z (n : Z) : numeric_text (PyStr.of_Z n) = true.
Proof.
  unfold PyStr.of_Z, NilZero.string_of_int.
  destruct (Z.to_int n) as [d | d]; unfold NilZero.string_of_uint.
  - destruct d; try reflexivity; apply (numeric_of_uint _).
  - cbn [numeric_text]. destruct d; try reflexivity; apply (numeric_of_uint _).
Qed.

Lemma numeric_sign (s : bool) : numeric_text (PyFloat.sign_text s) = true.
Proof. destruct s; reflexivity. Qed.

Lemma numeric_exponent (k : Z) : numeric_text (PyFloat.exponent_text k) = true.
Proof.
  unfold PyFloat.exponent_text, PyStr.rjust.
  rewrite !numeric_app, numeric_of_Z, numeric_repeat by reflexivity.
  destruct (k <? 0); reflexivity.
Qed.

Lemma numeric_format_e (p : nat) (r : PyFloat.float) :
  numeric_text (PyFloat.format_e p r) = true.
Proof.
  destruct r as [s | s | | s m e]; cbn [PyFloat.format_e].
  - rewrite !numeric_app, numeric_sign, numeric_repeat by reflexivity. reflexivity.
  - now rewrite numeric_app, numeric_sign.
  - reflexivity.
  - destruct (PyFloat.frac m e) as [num den].
    destruct (PyFloat.sci_digits (Z.of_nat p) num den) as [d k].
    rewrite !numeric_app, numeric_sign, numeric_exponent,
      (numeric_take _ _ (numeric_of_Z d)), (numeric_drop _ _ (numeric_of_Z d)).
    reflexivity.
Qed.

Lemma numeric_format_f (p : nat) (r : PyFloat.float) :
  numeric_text (PyFloat.format_f p r) = true.
Proof.
  assert (F : forall s num den,
             numeric_text
               (let ds := PyStr.rjust (S p) "0"
                            (PyStr.of_Z (PyFloat.scaled_round num den (Z.of_nat p))) in
                let n := (length ds - p)%nat in
                PyFloat.sign_text s ++ PyStr.take n ds ++ "." ++ PyStr.drop n ds) = true).
  { intros s num den. cbv zeta.
    assert (N : numeric_text (PyStr.rjust (S p) "0"
                  (PyStr.of_Z (PyFloat.scaled_round num den (Z.of_nat p)))) = true).
    { unfold PyStr.rjust. now rewrite numeric_app, numeric_of_Z, numeric_repeat. }
    rewrite !numeric_app, numeric_sign, (numeric_take _ _ N), (numeric_drop _ _ N).
    reflexivity. }
  destruct r as [s | s | | s m e]; cbn [PyFloat.format_f].
  - apply F.
  - now rewrite numeric_app, numeric_sign.
  - reflexivity.
  - destruct (PyFloat.frac m e) as [num den]. apply F.
Qed.

Lemma numeric_no_error (s : string) :
  numeric_text s = true -> PyStr.contains "Error" s = false.
Proof.
  induction s as [| c r IH]; [reflexivity|].
  cbn [numeric_text]. intros H. apply andb_true_iff in H as [Hc Hr].
  cbn [PyStr.contains]. rewrite (IH Hr), orb_false_r.
  cbn [prefix]. destruct (ascii_dec "E" c) as [<- | Hne]; [discriminate Hc | reflexivity].
Qed.

Lemma format_result_numeric (r : PyFloat.float) (s : string) :
  format_result r = Ok s -> numeric_text s = true.
Proof.
  unfold format_result.
  destruct (PyFloat.gt_int (PyFloat.fabs r) 999999999
            || PyFloat.ltb (PyFloat.fabs r) lit_0_000001 && negb (PyFloat.eq_int r 0)).
  - intros [= <-]. apply numeric_format_e.
  - destruct (PyFloat.to_int r) as [i | e]; [| discriminate]. cbn [bind].
    destruct (PyFloat.eq_int r i); intros [= <-].
    + apply numeric_of_Z.
    + apply numeric_rstrip, numeric_rstrip, numeric_format_f.
Qed.

Lemma calculate_marker_or_numeric (a op b : string) :
  calculate a op b = "Error"
  \/ (numeric_text (calculate a op b) = true
      /\ PyStr.contains "Error" (calculate a op b) = false).
Proof.
  unfold calculate.
  destruct (calculate_try a op b) as [s | e] eqn:H; [| now left].
  assert (G : s = "Error" \/ numeric_text s = true).
  { unfold calculate_try in H.
    destruct (PyFloat.of_string a) as [n1 | e1]; [| discriminate H].
    destruct (PyFloat.of_string b) as [n2 | e2]; [| discriminate H].
    cbn [bind] in H.
    repeat match type of H with
           | (if ?c then _ else _) = _ => destruct c
           end;
      try (right; exact (format_result_numeric _ _ H));
      injection H as <-; now left. }
  destruct G as [-> | G]; [now left|].
  right. split; [exact G | now apply numeric_no_error].
Qed.

(** X15.  [calculate] returns the error marker itself, or a text written
    with digits, the point, the signs, [e] and the letters of [inf] only.
    So a result holds the error marker only when it is the error marker,
    which is what the tests ["Error" in result] of the operator and [=]
    branches rely on. *)
Theorem calculate_result_shape (a op b : string) :
  calculate a op b = "Error"
  \/ (numeric_text (calculate a op b) = true
      /\ PyStr.contains "Error" (calculate a op b) = false).
Proof. exact (calculate_marker_or_numeric a op b). Qed.

(** ** [calculate] never returns the empty text *)

Lemma append_not_empty_r (s t : string) : t <> "" -> s ++ t <> "".
Proof. intros H. destruct s; [exact H | discriminate]. Qed.

Lemma has_char_app (c : ascii) (s t : string) :
  PyStr.has_char c (s ++ t) = PyStr.has_char c s || PyStr.has_char c t.
Proof. induction s as [| a r IH]; cbn; [reflexivity | now rewrite IH, orb_assoc]. Qed.

Lemma rstrip_empty (c : ascii) (s : string) :
  PyStr.rstrip c s = "" -> forall c', c' <> c -> PyStr.has_char c' s = false.
Proof.
  induction s as [| a r IH]; intros H c' Hne; [reflexivity|].
  cbn [PyStr.rstrip] in H. destruct (PyStr.rstrip c r) eqn:E; [| discriminate H].
  destruct (Ascii.eqb_spec a c) as [-> | Hac]; [| discriminate H].
  cbn [PyStr.has_char]. rewrite (IH eq_refl c' Hne).
  destruct (Ascii.eqb_spec c c'); [congruence | reflexivity].
Qed.

Lemma rstrip_head (c a : ascii) (r : string) :
  PyStr.rstrip c (String a r) = "" \/ exists r', PyStr.rstrip c (String a r) = String a r'.
Proof.
  cbn [PyStr.rstrip]. destruct (PyStr.rstrip c r).
  - destruct (Ascii.eqb a c); [now left | right; eauto].
  - right. eauto.
Qed.

Lemma rstrip_empty_head (c a : ascii) (r : string) :
  PyStr.rstrip c (String a r) = "" -> a = c.
Proof.
  cbn [PyStr.rstrip]. destruct (PyStr.rstrip c r); [| discriminate].
  destruct (Ascii.eqb_spec a c); [auto | discriminate].
Qed.

Lemma of_uint_no_point (d : Decimal.uint) :
  PyStr.has_char "." (NilEmpty.string_of_uint d) = false.
Proof. induction d; cbn [NilEmpty.string_of_uint PyStr.has_char]; try rewrite IHd; reflexivity. Qed.

Lemma of_Z_no_point (n : Z) : PyStr.has_char "." (PyStr.of_Z n) = false.
Proof.
  unfold PyStr.of_Z, NilZero.string_of_int.
  destruct (Z.to_int n) as [d | d]; unfold NilZero.string_of_uint.
  - destruct d; try reflexivity; apply (of_uint_no_point _).
  - cbn [PyStr.has_char]. destruct d; try reflexivity; apply (of_uint_no_point _).
Qed.

Lemma of_Z_not_empty (n : Z) : PyStr.of_Z n <> "".
Proof.
  unfold PyStr.of_Z, NilZero.string_of_int.
  destruct (Z.to_int n) as [d | d]; unfold NilZero.string_of_uint;
    destruct d; discriminate.
Qed.

Lemma has_char_repeat (c c' : ascii) (n : nat) :
  c' <> c -> PyStr.has_char c' (PyStr.repeat_char c n) = false.
Proof.
  intros H. induction n as [| n IH]; cbn; [reflexivity|].
  rewrite IH. destruct (Ascii.eqb_spec c c'); [congruence | reflexivity].
Qed.

Lemma has_char_take (c : ascii) (n : nat) (s : string) :
  PyStr.has_char c s = false -> PyStr.has_char c (PyStr.take n s) = false.
Proof.
  revert s. induction n as [| n IH]; intros [| a r] H; try reflexivity.
  cbn in *. apply orb_false_iff in H as [H1 H2]. now rewrite H1, IH.
Qed.

Lemma length_rjust (n : nat) (c : ascii) (s : string) :
  (n <= length (PyStr.rjust n c s))%nat.
Proof.
  unfold PyStr.rjust. rewrite length_append.
  assert (length (PyStr.repeat_char c (n - length s)) = (n - length s)%nat)
    by (induction (n - length s)%nat; cbn; congruence).
  lia.
Qed.

Lemma take_not_empty (n : nat) (s : string) :
  (0 < n)%nat -> (0 < length s)%nat -> PyStr.take n s <> "".
Proof. destruct n, s; cbn; intros; try lia; discriminate. Qed.

(** The text of [%.pf], stripped of trailing zeros and of a trailing
    point, is not empty. *)
Lemma stripped_fixed_not_empty (p : nat) (r : PyFloat.float) :
  is_finite r = true ->
  PyStr.rstrip "." (PyStr.rstrip "0" (PyFloat.format_f p r)) <> "".
Proof.
  intros Hf.
  assert (F : forall s num den,
             PyStr.rstrip "." (PyStr.rstrip "0"
               (let ds := PyStr.rjust (S p) "0"
                            (PyStr.of_Z (PyFloat.scaled_round num den (Z.of_nat p))) in
                let n := (length ds - p)%nat in
                PyFloat.sign_text s ++ PyStr.take n ds ++ "." ++ PyStr.drop n ds)) <> "").
  { intros s num den. cbv zeta.
    set (ds := PyStr.rjust (S p) "0"
                 (PyStr.of_Z (PyFloat.scaled_round num den (Z.of_nat p)))).
    set (n := (length ds - p)%nat).
    pose proof (length_rjust (S p) "0"
                  (PyStr.of_Z (PyFloat.scaled_round num den (Z.of_nat p)))) as Hl.
    fold ds in Hl.
    assert (Hx : PyStr.take n ds <> "") by (apply take_not_empty; unfold n; lia).
    assert (Hnp : PyStr.has_char "." (PyStr.take n ds) = false).
    { apply has_char_take. unfold ds, PyStr.rjust.
      rewrite has_char_app, of_Z_no_point, has_char_repeat by discriminate. reflexivity. }
    set (S := PyFloat.sign_text s ++ PyStr.take n ds ++ "." ++ PyStr.drop n ds).
    assert (Hpt : PyStr.has_char "." S = true).
    { unfold S. rewrite !has_char_app. cbn [PyStr.has_char Ascii.eqb Bool.eqb].
      rewrite !orb_true_r. reflexivity. }
    assert (Hhd : exists a rest, S = String a rest /\ a <> "."%char).
    { unfold S. destruct s; cbn [PyFloat.sign_text append].
      - eexists _, _. split; [reflexivity | discriminate].
      - destruct (PyStr.take n ds) as [| a rest] eqn:E; [contradiction|].
        cbn [append]. eexists _, _. split; [reflexivity|].
        cbn [PyStr.has_char] in Hnp. apply orb_false_iff in Hnp as [Hnp _].
        intros ->. discriminate Hnp. }
    destruct Hhd as (a & rest & HS & Ha). rewrite HS.
    destruct (rstrip_head "0" a rest) as [E | (r' & E)]; rewrite E.
    - pose proof (rstrip_empty "0" _ E "."%char ltac:(discriminate)) as H.
      rewrite <- HS, Hpt in H. discriminate H.
    - intros H. apply rstrip_empty_head in H. contradiction. }
  destruct r as [s | s | | s m e]; try discriminate Hf; cbn [PyFloat.format_f].
  - apply F.
  - destruct (PyFloat.frac m e) as [num den]. apply F.
Qed.

Lemma format_e_not_empty (p : nat) (r : PyFloat.float) : PyFloat.format_e p r <> "".
Proof.
  destruct r as [s | s | | s m e]; cbn [PyFloat.format_e].
  - apply append_not_empty_r. discriminate.
  - apply append_not_empty_r. discriminate.
  - discriminate.
  - destruct (PyFloat.frac m e) as [num den].
    destruct (PyFloat.sci_digits (Z.of_nat p) num den) as [d k].
    apply append_not_empty_r, append_not_empty_r. discriminate.
Qed.

Lemma format_result_not_empty (r : PyFloat.float) (s : string) :
  format_result r = Ok s -> s <> "".
Proof.
  unfold format_result.
  destruct (PyFloat.gt_int (PyFloat.fabs r) 999999999
            || PyFloat.ltb (PyFloat.fabs r) lit_0_000001 && negb (PyFloat.eq_int r 0)).
  - intros [= <-]. apply format_e_not_empty.
  - destruct (PyFloat.to_int r) as [i | e] eqn:Hi; [| discriminate]. cbn [bind].
    destruct (PyFloat.eq_int r i); intros [= <-].
    + apply of_Z_not_empty.
    + apply stripped_fixed_not_empty. destruct r; try discriminate Hi; reflexivity.
Qed.

Lemma calculate_not_empty (a op b : string) : calculate a op b <> "".
Proof.
  unfold calculate.
  destruct (calculate_try a op b) as [s | e] eqn:H; [| discriminate].
  unfold calculate_try in H.
  destruct (PyFloat.of_string a) as [n1 | e1]; [| discriminate H].
  destruct (PyFloat.of_string b) as [n2 | e2]; [| discriminate H].
  cbn [bind] in H.
  repeat match type of H with
         | (if ?c then _ else _) = _ => destruct c
         end;
    try exact (format_result_not_empty _ _ H);
    injection H as <-; discriminate.
Qed.

(** X16.  [calculate] never returns the empty text, so an evaluated [=]
    never leaves the display empty. *)
Theorem evaluation_never_blanks (a op b : string) :
  calculate a op b <> ""
  /\ forall c : calc_state,
       PyStr.truthy (current_number c) && PyStr.truthy (operation c)
       && PyStr.truthy (previous_number c) = true ->
       display (press "=" c) <> "".
Proof.
  split; [apply calculate_not_empty|].
  intros c H. rewrite (press_equals c H). cbv zeta. cbn [display].
  apply calculate_not_empty.
Qed.

Lemma evaluation_never_blanks_witness :
  display (press "=" (press_all ["1"; "÷"; "3"] init_calc)) <> ""
  /\ display (press "=" (press_all ["1"; "÷"; "3"] init_calc)) = "0.07692308".
Proof.
  split; [| vm_compute; reflexivity].
  apply (proj2 (evaluation_never_blanks "" "" "") (press_all ["1"; "÷"; "3"] init_calc)).
  reflexivity.
Defined.

(** X17.  The result of [=] is the first operand of what follows: an
    operator pressed right after an evaluation that did not fail takes the
    result as previous operand and keeps it on display.  After a failed
    evaluation the operand is empty, so an operator or a second [=] does
    nothing and the error marker stays. *)
Theorem result_feeds_next_operation (c : calc_state) (op : string) :
  PyStr.truthy (current_number c) && PyStr.truthy (operation c)
  && PyStr.truthy (previous_number c) = true ->
  is_operator op = true ->
  (calculate (previous_number c) (operation c) (current_number c) <> "Error" ->
   press op (press "=" c)
   = mk_calc "" (calculate (previous_number c) (operation c) (current_number c)) op
             (calculate (previous_number c) (operation c) (current_number c))
             (history (press "=" c)) false)
  /\ (calculate (previous_number c) (operation c) (current_number c) = "Error" ->
      display (press "=" c) = "Error"
      /\ press op (press "=" c) = press "=" c
      /\ press "=" (press "=" c) = press "=" c).
Proof.
  intros H Hop. rewrite (press_equals c H). cbv zeta.
  set (r := calculate (previous_number c) (operation c) (current_number c)).
  split.
  - intros Hne.
    destruct (calculate_marker_or_numeric (previous_number c) (operation c) (current_number c))
      as [E | [_ E]]; fold r in E; [contradiction|].
    rewrite E. cbn [negb]. rewrite (press_operator op _ Hop).
    cbn [current_number operation previous_number display history PyStr.truthy andb].
    pose proof (calculate_not_empty (previous_number c) (operation c) (current_number c)) as Hn.
    fold r in Hn. destruct r; [contradiction | reflexivity].
  - intros E. rewrite E. cbn [PyStr.contains prefix negb orb].
    split; [reflexivity|]. split.
    + now rewrite (press_operator op _ Hop).
    + reflexivity.
Qed.

Lemma result_feeds_next_operation_witness :
  press "×" (press "=" (press_all ["2"; "+"; "1"] init_calc))
  = mk_calc "" "23" "×" "23" ["2 + 21 = 23"] false.
Proof.
  rewrite (proj1 (result_feeds_next_operation (press_all ["2"; "+"; "1"] init_calc) "×"
                    eq_refl eq_refl)).
  - vm_compute. reflexivity.
  - vm_compute. discriminate.
Defined.
(** ** Drawing *)

Lemma len_le_length (s : string) : (PyText.len s <= String.length s)%nat.
Proof.
  induction s as [| c r IH]; [apply Nat.le_refl|].
  cbn [PyText.len String.length]. destruct (PyText.is_cont c); lia.
Qed.

Lemma len_slice_from (k : nat) (s : string) :
  PyText.len (PyText.slice_from k s) = (PyText.len s - k)%nat.
Proof.
  revert k. induction s as [| c r IH]; intros k; [reflexivity|].
  cbn [PyText.slice_from PyText.len]. destruct (PyText.is_cont c) eqn:Hc.
  - apply IH.
  - destruct k as [| k].
    + cbn [PyText.len]. rewrite Hc. lia.
    + rewrite IH. lia.
Qed.

Lemma len_slice_to (n : nat) (s : string) :
  (PyText.len (PyText.slice_to n s) <= n)%nat.
Proof.
  revert n. induction s as [| c r IH]; intros n; [cbn; lia|].
  cbn [PyText.slice_to]. destruct (PyText.is_cont c) eqn:Hc.
  - cbn [PyText.len]. rewrite Hc. apply IH.
  - destruct n as [| n]; [cbn; lia|].
    cbn [PyText.len]. rewrite Hc. specialize (IH n). lia.
Qed.

Lemma len_app (s t : string) :
  PyText.len (s ++ t) = (PyText.len s + PyText.len t)%nat.
Proof.
  induction s as [| c r IH]; [reflexivity|].
  cbn [append PyText.len]. destruct (PyText.is_cont c); rewrite IH; reflexivity.
Qed.

Lemma slice_from_tail (k : nat) (s : string) :
  exists pre, s = pre ++ PyText.slice_from k s.
Proof.
  revert k. induction s as [| c r IH]; intros k; [exists ""; reflexivity|].
  cbn [PyText.slice_from]. destruct (PyText.is_cont c).
  - destruct (IH k) as [pre E]. exists (String c pre). cbn [append]. now rewrite <- E.
  - destruct k as [| k]; [exists ""; reflexivity|].
    destruct (IH k) as [pre E]. exists (String c pre). cbn [append]. now rewrite <- E.
Qed.

Lemma numeric_slice_from (k : nat) (s : string) :
  numeric_text s = true -> numeric_text (PyText.slice_from k s) = true.
Proof.
  revert k. induction s as [| c r IH]; intros k H; [reflexivity|].
  pose proof H as H0. cbn [numeric_text] in H. apply andb_true_iff in H as [_ Hr].
  cbn [PyText.slice_from]. destruct (PyText.is_cont c); [now apply IH|].
  destruct k as [| k]; [exact H0 | now apply IH].
Qed.

Lemma ensure_buttons_keeps (w h : Z) (a : calculator) :
  calc (ensure_buttons w h a) = calc a
  /\ last_touch_time (ensure_buttons w h a) = last_touch_time a
  /\ button_pressed (ensure_buttons w h a) = button_pressed a
  /\ button_press_time (ensure_buttons w h a) = button_press_time a
  /\ stdout (ensure_buttons w h a) = stdout a.
Proof. unfold ensure_buttons. destruct (buttons a); repeat split. Qed.

Lemma draw_button_flag (t n1 n2 : PyFloat.float) (k : string) (v : button_data) :
  set_pressed false (snd (draw_button t n1 n2 k v)) = set_pressed false v
  /\ (pressed (snd (draw_button t n1 n2 k v)) = true -> pressed v = true)
  /\ (PyFloat.ltb press_duration (PyFloat.sub n2 t) = true ->
      pressed (snd (draw_button t n1 n2 k v)) = false)
  /\ (PyFloat.ltb press_duration (PyFloat.sub n2 t) = false ->
      snd (draw_button t n1 n2 k v) = v).
Proof.
  cbn [draw_button snd]. destruct (pressed v) eqn:Hp; cbn [andb].
  - destruct (PyFloat.ltb press_duration (PyFloat.sub n2 t)) eqn:Hq.
    + repeat split; try reflexivity. intros Hlt. discriminate Hlt.
    + repeat split; try reflexivity. intros Hlt. discriminate Hlt.
  - repeat split; intros; first [reflexivity | congruence].
Qed.

(** X18.  Drawing the interface leaves the calculator, the timestamps and
    what was printed alone, and of the buttons it changes the pressed
    flags only: a flag is never set by drawing, every flag is cleared when
    for all the readings of the clock the test of the code holds (the
    difference to the last marked press, in doubles, is above the double
    0.2), and none is when it fails for all of them.  It fails for the
    reading 0.5 after a press at 0.3, whose difference rounds to the
    double 0.2 itself. *)
Theorem drawing_only_clears_flags (w h : Z)
    (clock : string -> PyFloat.float * PyFloat.float) (a : calculator) :
  calc (snd (draw_calculator_interface w h clock a)) = calc a
  /\ last_touch_time (snd (draw_calculator_interface w h clock a)) = last_touch_time a
  /\ button_press_time (snd (draw_calculator_interface w h clock a)) = button_press_time a
  /\ stdout (snd (draw_calculator_interface w h clock a)) = stdout a
  /\ unpressed (buttons (snd (draw_calculator_interface w h clock a)))
     = unpressed (buttons (ensure_buttons w h a))
  /\ Forall2 (fun kv kv' => pressed (snd kv') = true -> pressed (snd kv) = true)
       (buttons (ensure_buttons w h a))
       (buttons (snd (draw_calculator_interface w h clock a)))
  /\ ((forall b, PyFloat.ltb press_duration
                   (PyFloat.sub (snd (clock b)) (button_press_time a)) = true) ->
      Forall (fun kv => pressed (snd kv) = false)
        (buttons (snd (draw_calculator_interface w h clock a))))
  /\ ((forall b, PyFloat.ltb press_duration
                   (PyFloat.sub (snd (clock b)) (button_press_time a)) = false) ->
      buttons (snd (draw_calculator_interface w h clock a))
      = buttons (ensure_buttons w h a))
  /\ PyFloat.ltb press_duration (PyFloat.sub (double_of "0.5") (double_of "0.3")) = false.
Proof.
  destruct (ensure_buttons_keeps w h a) as (E1 & E2 & E3 & E4 & E5).
  unfold draw_calculator_interface.
  cbn [snd with_buttons calc last_touch_time button_press_time stdout buttons].
  rewrite E4.
  generalize (buttons (ensure_buttons w h a)) as bs. intros bs.
  split; [exact E1|]. split; [exact E2|]. split; [reflexivity|]. split; [exact E5|].
  unfold unpressed, draw_buttons. rewrite !map_map.
  split; [| split; [| split; [| split]]].
  - apply map_ext. intros [k v]. cbn [fst snd].
    now rewrite (proj1 (draw_button_flag _ _ _ k v)).
  - induction bs as [| [k v] r IH]; [constructor|].
    cbn [map fst snd]. constructor; [| exact IH].
    cbn [snd]. apply (proj1 (proj2 (draw_button_flag _ _ _ k v))).
  - intros Hc. apply Forall_forall. intros kv Hin.
    apply in_map_iff in Hin as [[k v] [<- _]]. cbn [fst snd].
    apply (proj1 (proj2 (proj2 (draw_button_flag _ _ _ k v)))). apply Hc.
  - intros Hc. rewrite <- (map_id bs) at 2. apply map_ext. intros [k v]. cbn [fst snd].
    now rewrite (proj2 (proj2 (proj2 (draw_button_flag _ _ _ k v))) (Hc k)).
  - vm_compute. reflexivity.
Qed.

Lemma dict_press_flagged (B : string) (bs : buttons_t) (kv : string * button_data) :
  dict_mem B bs = true ->
  In kv bs -> pressed (snd kv) = true \/ fst kv = B ->
  exists v, In (fst kv, v) (dict_press B bs) /\ pressed v = true.
Proof.
  induction bs as [| [k v] r IH]; intros Hm Hin Hk; [contradiction|].
  cbn [dict_press]. cbn [dict_mem] in Hm.
  destruct (String.eqb k B) eqn:Hkb.
  - apply String.eqb_eq in Hkb. subst k.
    destruct Hin as [<- | Hin].
    + exists (set_pressed true v). split; [left; reflexivity | reflexivity].
    + destruct Hk as [Hp | Hb].
      * exists (snd kv). split; [right; now destruct kv | exact Hp].
      * exists (set_pressed true v). split; [left; now rewrite Hb | reflexivity].
  - cbn [orb] in Hm. destruct Hin as [<- | Hin].
    + destruct Hk as [Hp | Hb].
      * exists v. split; [left; reflexivity | exact Hp].
      * cbn [fst] in Hb. subst k. rewrite String.eqb_refl in Hkb. discriminate Hkb.
    + destruct (IH Hm Hin Hk) as (v' & Hv & Hp). exists v'. split; [right; exact Hv | exact Hp].
Qed.

(** X19.  The time of the press is kept once for all the buttons: when a
    press of a button on the pad is accepted, every button whose flag was
    still set is drawn in the pressed colour again, with the button just
    pressed, as long as the drawing comes less than 0.2 s after that
    press by the test of the code (the difference in doubles is below the
    double 0.2). *)
Theorem press_highlights_flagged_buttons (a : calculator) (t : PyFloat.float) (B : string)
    (w h : Z) (clock : string -> PyFloat.float * PyFloat.float)
    (kv : string * button_data) :
  in_cooldown t a = false ->
  dict_mem B (buttons a) = true ->
  (forall b, PyFloat.ltb (PyFloat.sub (fst (clock b)) t) press_duration = true) ->
  In kv (buttons a) ->
  pressed (snd kv) = true \/ fst kv = B ->
  exists v,
    In (fst kv, v)
       (keys_drawn (fst (draw_calculator_interface w h clock (process_button_press t B a))))
    /\ button_color v = Theme.button_pressed.
Proof.
  intros Hc Hm Hclock Hin Hk.
  destruct (dict_press_flagged B (buttons a) kv Hm Hin Hk) as (v & Hv & Hp).
  unfold process_button_press. rewrite Hc, Hm.
  unfold draw_calculator_interface, ensure_buttons. cbn [buttons].
  destruct (dict_press B (buttons a)) as [| x r] eqn:Hd; [contradiction|].
  rewrite <- Hd. cbn [fst keys_drawn button_press_time buttons].
  exists (fst (draw_button t (fst (clock (fst kv))) (snd (clock (fst kv))) (fst kv) v)).
  split.
  - unfold draw_buttons. rewrite map_map. apply in_map_iff.
    exists (fst kv, v). split; [reflexivity | rewrite Hd; exact Hv].
  - cbn [draw_button fst button_color]. rewrite Hp. cbn [andb].
    now rewrite (Hclock (fst kv)).
Qed.

Lemma press_highlights_flagged_buttons_witness :
  exists v,
    In ("7", v)
       (keys_drawn
          (fst (draw_calculator_interface 1280 720
                  (fun _ => (double_of "2.1", double_of "2.1"))
                  (process_button_press (double_of "2") "8"
                     (process_button_press (double_of "1") "7"
                        (ensure_buttons 1280 720 init))))))
    /\ button_color v = Theme.button_pressed.
Proof.
  refine (press_highlights_flagged_buttons
            (process_button_press (double_of "1") "7" (ensure_buttons 1280 720 init))
            (double_of "2") "8" 1280 720
            (fun _ => (double_of "2.1", double_of "2.1"))
            ("7", mk_button (900, 268, 980, 328) (940, 298) true false) _ _ _ _ _).
  - reflexivity.
  - reflexivity.
  - intros b. vm_compute. reflexivity.
  - vm_compute. right. right. right. right. left. reflexivity.
  - left. reflexivity.
Defined.

Lemma draw_display_length (d : string) :
  (PyText.len (display_text (draw_display d)) <= 15)%nat.
Proof.
  unfold draw_display. cbn [display_text].
  destruct (Nat.ltb_spec 15 (PyText.len d)) as [Hl | Hl]; [| exact Hl].
  unfold PyText.slice_last. rewrite len_slice_from. lia.
Qed.

(** X20.  After an evaluated [=] the screen is in the error colour exactly
    when the evaluation failed, whatever the length of the result, and it
    never shows more than 15 characters. *)
Theorem error_color_iff_failed (c : calc_state) :
  PyStr.truthy (current_number c) && PyStr.truthy (operation c)
  && PyStr.truthy (previous_number c) = true ->
  (text_color (draw_display (display (press "=" c))) = Theme.error
   <-> calculate (previous_number c) (operation c) (current_number c) = "Error")
  /\ (PyText.len (display_text (draw_display (display (press "=" c)))) <= 15)%nat.
Proof.
  intros H. split; [| apply draw_display_length].
  rewrite (press_equals c H). cbv zeta. cbn [display].
  destruct (calculate_marker_or_numeric (previous_number c) (operation c) (current_number c))
    as [E | [Hn Hc]].
  - rewrite E. split; reflexivity.
  - set (r := calculate (previous_number c) (operation c) (current_number c)) in *.
    split.
    + unfold draw_display. cbn [text_color].
      destruct (15 <? PyText.len r)%nat.
      * unfold PyText.slice_last.
        rewrite (numeric_no_error _ (numeric_slice_from _ r Hn)). discriminate.
      * rewrite Hc. discriminate.
    + intros E. rewrite E in Hc. discriminate Hc.
Qed.

Lemma error_color_iff_failed_witness :
  text_color (draw_display (display (press "=" (mk_calc "0" "5" "÷" "0" [] false))))
  = Theme.error
  /\ (PyText.len
        (display_text
           (draw_display
              (display (press "=" (mk_calc "0.12345678" "123456789" "+" "" [] false)))))
      <= 15)%nat.
Proof.
  split.
  - apply (proj1 (error_color_iff_failed (mk_calc "0" "5" "÷" "0" [] false) eq_refl)).
    vm_compute. reflexivity.
  - apply (proj2 (error_color_iff_failed (mk_calc "0.12345678" "123456789" "+" "" [] false)
                    eq_refl)).
Defined.

(** X21.  The screen shows the end of the display: what is shown is the
    display itself when it has at most 15 characters, and else a tail of
    it of exactly 15 characters, so that the front is lost.  A typed
    number always fits and is shown whole. *)
Theorem screen_shows_the_tail (c : calc_state) :
  (exists pre, display c = pre ++ display_text (draw_display (display c)))
  /\ ((PyText.len (display c) <= 15)%nat ->
      display_text (draw_display (display c)) = display c)
  /\ ((15 < PyText.len (display c))%nat ->
      PyText.len (display_text (draw_display (display c))) = 15%nat)
  /\ (typed_bound c -> display_text (draw_display (display c)) = display c).
Proof.
  assert (Hfit : (PyText.len (display c) <= 15)%nat ->
                 display_text (draw_display (display c)) = display c).
  { intros Hl. unfold draw_display. cbn [display_text].
    destruct (Nat.ltb_spec 15 (PyText.len (display c))); [lia | reflexivity]. }
  split; [| split; [exact Hfit | split]].
  - unfold draw_display. cbn [display_text].
    destruct (15 <? PyText.len (display c))%nat; [| exists ""; reflexivity].
    apply slice_from_tail.
  - intros Hl. unfold draw_display. cbn [display_text].
    destruct (Nat.ltb_spec 15 (PyText.len (display c))); [| lia].
    unfold PyText.slice_last. rewrite len_slice_from. lia.
  - intros (_ & Hl & _). apply Hfit.
    pose proof (len_le_length (display c)). lia.
Qed.

Lemma history_lines_spec (l : list string) (i : Z) :
  map fst (history_lines i l) = map history_line l
  /\ List.length (history_lines i l) = List.length l
  /\ forall n d, (n < List.length l)%nat ->
       nth n (map snd (history_lines i l)) d = 580 + 25 * (i + Z.of_nat n).
Proof.
  revert i. induction l as [| e r IH]; intros i.
  - split; [reflexivity|]. split; [reflexivity|]. intros n d Hn. cbn in Hn. lia.
  - destruct (IH (i + 1)) as (I1 & I2 & I3).
    cbn [history_lines map fst snd List.length].
    split; [now rewrite I1|]. split; [now rewrite I2|].
    intros [| n] d Hn; cbn [nth].
    + lia.
    + rewrite I3 by (cbn in Hn; lia). lia.
Qed.

Lemma history_line_length (e : string) : (PyText.len (history_line e) <= 38)%nat.
Proof.
  unfold history_line. destruct (Nat.ltb_spec 35 (PyText.len e)) as [Hl | Hl]; [| lia].
  rewrite len_app. pose proof (len_slice_to 35 e).
  change (PyText.len "...") with 3%nat. lia.
Qed.

(** X22.  The history section lists at most four entries, the last ones
    of the log in their order, 25 pixels apart from [y = 580] down; an
    entry of more than 35 characters is cut and no line is longer than 38,
    and entries of at most 35 characters are listed as they are. *)
Theorem recent_history_view (w h : Z)
    (clock : string -> PyFloat.float * PyFloat.float) (a : calculator) :
  (List.length (recent (fst (draw_calculator_interface w h clock a))) <= 4)%nat
  /\ map fst (recent (fst (draw_calculator_interface w h clock a)))
     = map history_line (keep_last 4 (history (calc a)))
  /\ Forall (fun l => (PyText.len (fst l) <= 38)%nat)
       (recent (fst (draw_calculator_interface w h clock a)))
  /\ (forall n d,
        (n < List.length (recent (fst (draw_calculator_interface w h clock a))))%nat ->
        nth n (map snd (recent (fst (draw_calculator_interface w h clock a)))) d
        = 580 + 25 * Z.of_nat n)
  /\ (Forall (fun e => (PyText.len e <= 35)%nat) (history (calc a)) ->
      map fst (recent (fst (draw_calculator_interface w h clock a)))
      = keep_last 4 (history (calc a))).
Proof.
  unfold draw_calculator_interface. cbn [fst recent].
  rewrite (proj1 (ensure_buttons_keeps w h a)).
  set (l := keep_last 4 (history (calc a))).
  destruct (history_lines_spec l 0) as (I1 & I2 & I3).
  split; [rewrite I2; apply keep_last_length|].
  split; [exact I1|]. split; [| split].
  - apply Forall_forall. intros x Hx.
    apply (in_map fst) in Hx. rewrite I1 in Hx.
    apply in_map_iff in Hx as (e & <- & _). apply history_line_length.
  - intros n d Hn. rewrite I2 in Hn. rewrite (I3 n d Hn). lia.
  - intros Hall. rewrite I1.
    assert (Hl : Forall (fun e => (PyText.len e <= 35)%nat) l).
    { apply Forall_forall. intros e He. rewrite Forall_forall in Hall. apply Hall.
      unfold l, keep_last in He.
      rewrite <- (firstn_skipn (List.length (history (calc a)) - 4) (history (calc a))).
      apply in_or_app. now right. }
    clear I1 I2 I3. clearbody l. induction l as [| e r IH]; [reflexivity|].
    inversion Hl as [| ? ? He Hr]; subst. cbn [map]. rewrite (IH Hr). f_equal.
    unfold history_line. destruct (Nat.ltb_spec 35 (PyText.len e)); [lia | reflexivity].
Qed.
